(** * p4run.py: the [AppRunner] of p4-utils, embedded and verified

    The development follows [src/p4utils/p4run.py]:
    - Python values as they come out of the JSON configuration;
    - [formatLatency] and [parse_links] (pure, fallible);
    - [AppRunner.__init__], [program_hosts], [program_switches] and
      [run_app] over an explicit world (live interface objects and the
      trace of calls made to the emulator and to the operating system).

    Exceptions are values of [error]; a call that raises leaves the
    effects made so far in the world. *)

From Stdlib Require Import ZArith String Ascii List Bool Lia.
From Stdlib Require Import DecimalString.
From stdpp Require Import gmap strings list.

Set Warnings "-register-all".

Local Open Scope Z_scope.
Local Open Scope string_scope.

(** ** Python values *)

(** What [json.load] yields, with JSON numbers kept to the integers.
    A JSON object is kept as the list of its items. *)
Inductive value : Type :=
| VNone
| VBool (b : bool)
| VInt (n : Z)
| VStr (s : string)
| VList (l : list value)
| VDict (d : list (string * value)).

(** Truth value testing, as in [if link[2]:]. *)
Definition truthy (v : value) : bool :=
  match v with
  | VNone => false
  | VBool b => b
  | VInt n => negb (n =? 0)%Z
  | VStr s => negb (String.eqb s "")
  | VList l => match l with [] => false | _ :: _ => true end
  | VDict d => match d with [] => false | _ :: _ => true end
  end.

(** [d.get(key, default)] and [d[key]] on the items of a dict. *)
Fixpoint dict_lookup (key : string) (d : list (string * value)) : option value :=
  match d with
  | [] => None
  | (k, v) :: d' => if String.eqb k key then Some v else dict_lookup key d'
  end.

Definition dict_get (d : list (string * value)) (key : string) (default : value) : value :=
  match dict_lookup key d with
  | Some v => v
  | None => default
  end.

(** The exceptions the module lets escape. *)
Inductive error : Type :=
| Exception (msg : string)
| AssertionError (msg : string)
| IndexError
| KeyError (key : string)
| TypeError
| AttributeError
| IOError
| ValueError (msg : string)
| SystemExit (code : Z)
| CompilationError
| Raised (what : string).   (* raised inside an external collaborator *)

(** ** Decimal integers: ['%d' % n] and [int(s)] *)

Definition format_d (n : Z) : string := NilZero.string_of_int (Z.to_int n).

Definition is_space (c : ascii) : bool :=
  let n := N_of_ascii c in
  ((n =? 32) || ((9 <=? n) && (n <=? 13)))%N.

Definition digit_of (c : ascii) : option Z :=
  let n := N_of_ascii c in
  if ((48 <=? n) && (n <=? 57))%N then Some (Z.of_N n - 48) else None.

Fixpoint lstrip (s : string) : string :=
  match s with
  | String c s' => if is_space c then lstrip s' else s
  | EmptyString => EmptyString
  end.

(** Digits, then optional trailing white space, and nothing else. *)
Fixpoint all_space (s : string) : bool :=
  match s with
  | EmptyString => true
  | String c s' => is_space c && all_space s'
  end.

Fixpoint digits_value (acc : Z) (s : string) : option Z :=
  match s with
  | EmptyString => Some acc
  | String c s' =>
      match digit_of c with
      | Some d => digits_value (10 * acc + d) s'
      | None => if all_space s then Some acc else None
      end
  end.

Definition unsigned_value (s : string) : option Z :=
  match s with
  | String c _ => match digit_of c with
                  | Some _ => digits_value 0 s
                  | None => None
                  end
  | EmptyString => None
  end.

(** [int(s)] for a string [s] in base 10: surrounding white space, an
    optional sign, at least one digit.  [None] is [ValueError]. *)
Definition py_int (s : string) : option Z :=
  match lstrip s with
  | String "-" s' => Z.opp <$> unsigned_value s'
  | String "+" s' => unsigned_value s'
  | s' => unsigned_value s'
  end.

(** [s[1:]] *)
Definition slice_from_1 (s : string) : string :=
  match s with
  | EmptyString => EmptyString
  | String _ s' => s'
  end.

(** ** Link descriptions and their parsed form *)

(** A link description [[node1, node2, latency, bandwidth, weight]]: two
    node names, then the optional items. *)
Record link_desc : Type := LinkDesc {
  link_0 : string;
  link_1 : string;
  link_opts : list value   (* link[2:] *)
}.

(** The dictionary [link_dict] of [parse_links]. *)
Record link_dict : Type := LinkDict {
  node1 : string;
  node2 : string;
  latency : string;
  bandwidth : value;
  weight : value
}.

Definition set_latency (d : link_dict) (x : string) : link_dict :=
  LinkDict (node1 d) (node2 d) x (bandwidth d) (weight d).
Definition set_bandwidth (d : link_dict) (x : value) : link_dict :=
  LinkDict (node1 d) (node2 d) (latency d) x (weight d).
Definition set_weight (d : link_dict) (x : value) : link_dict :=
  LinkDict (node1 d) (node2 d) (latency d) (bandwidth d) x.

(** The configuration document, as [load_conf] returns it: the
    [topology] block when the key is there, with its three keys, and the
    items of every other key. *)
Record topology_conf : Type := MkTopology {
  t_hosts : list string;
  t_switches : list (string * list (string * value));   (* name, properties *)
  t_links : list link_desc
}.

Record Conf : Type := MkConf {
  conf_topology : option topology_conf;
  conf_items : list (string * value)
}.

(** Python's [str] on a value that is not a string, and on the
    configuration dict: the printed form of numbers, lists and dicts
    belongs to the interpreter. *)
Class Python : Type := {
  py_str : value -> string;
  conf_str : Conf -> string
}.

Definition host_link_message : string :=
  "Hosts should be connected to switches, not ".

Section Links.

Context `{!Python}.

Definition str (v : value) : string :=
  match v with
  | VStr s => s
  | _ => py_str v
  end.

(** [formatLatency]: a string is passed through, anything else is
    printed and suffixed with the unit. *)
Definition formatLatency (latency : value) : string :=
  match latency with
  | VStr s => s
  | _ => py_str latency +:+ "ms"
  end.

(** [link[i]] for an optional item, when [len(link) > i] and the item
    is truthy. *)
Definition given (link : link_desc) (i : nat) : option value :=
  match link_opts link !! (i - 2)%nat with
  | Some v => if truthy v then Some v else None
  | None => None
  end.

(** One iteration of the loop of [parse_links]. *)
Definition parse_link (link : link_desc) : error + link_dict :=
  (* make sure that the endpoints of each link are ordered alphabetically *)
  let '(node_a, node_b) :=
    match String.compare (link_0 link) (link_1 link) with
    | Gt => (link_1 link, link_0 link)
    | _ => (link_0 link, link_1 link)
    end in
  let d := LinkDict node_a node_b "0ms" VNone (VInt 1) in
  let d := match given link 2 with
           | Some v => set_latency d (formatLatency v)
           | None => d
           end in
  let d := match given link 3 with
           | Some v => set_bandwidth d v
           | None => d
           end in
  let d := match given link 4 with
           | Some v => set_weight d v
           | None => d
           end in
  (* Hosts are not allowed to connect to another host. *)
  match String.get 0 (node1 d) with
  | None => inl IndexError
  | Some c1 =>
      if Ascii.eqb c1 "h" then
        match String.get 0 (node2 d) with
        | None => inl IndexError
        | Some c2 =>
            if Ascii.eqb c2 "s" then inr d
            else inl (AssertionError (host_link_message +:+ node2 d))
        end
      else inr d
  end.

(** The loop, with the list [links] being appended to. *)
Fixpoint parse_links_from (links : list link_dict) (unparsed_links : list link_desc)
  : error + list link_dict :=
  match unparsed_links with
  | [] => inr links
  | link :: rest =>
      match parse_link link with
      | inl e => inl e
      | inr d => parse_links_from (links ++ [d]) rest
      end
  end.

Definition parse_links (unparsed_links : list link_desc) : error + list link_dict :=
  parse_links_from [] unparsed_links.

End Links.

(** ** The world: live objects, the file system, the trace *)

(** A mininet [Intf] object.  Objects are referred to by their identity,
    a number; [link] holds the identities of [link.intf1] and
    [link.intf2], when the interface is attached to a link. *)
Record Intf : Type := MkIntf {
  intf_name : string;
  intf_mac : string;
  intf_link : option (nat * nat)
}.

(** A node of the started network, as [net.get(name)] returns it:
    [intfs] lists the items of [h.intfs] (port, interface) in the order
    of [h.intfs.values()]. *)
Record Node : Type := MkNode {
  intfs : list (Z * nat);
  IP : string;                  (* h.IP() *)
  thrift_port : option Z        (* a switch has one *)
}.

(** [self.topo.hosts_info[name]] *)
Record HostInfo : Type := MkHostInfo {
  sw : string;
  ip : string;
  mac : string;
  mask : Z
}.

(** What [program_hosts] reads of [self.topo]. *)
Record Topo : Type := MkTopo {
  topo_hosts : list string;               (* self.topo.hosts() *)
  hosts_info : gmap string HostInfo
}.

(** The shell commands given to [h.cmd], by format string, with their
    arguments kept apart; [command_text] is the text [h.cmd] receives. *)
Inductive command : Type :=
| Arp (iface ip_addr mac_addr : string)      (* 'arp -i %s -s %s %s' *)
| EthtoolOffload (iface : string)            (* 'ethtool --offload %s rx off tx off' *)
| IpRouteAdd (ip_addr iface : string).       (* 'ip route add %s dev %s' *)

Definition command_text (c : command) : string :=
  match c with
  | Arp iface a m => "arp -i " +:+ iface +:+ " -s " +:+ a +:+ " " +:+ m
  | EthtoolOffload iface => "ethtool --offload " +:+ iface +:+ " rx off tx off"
  | IpRouteAdd a iface => "ip route add " +:+ a +:+ " dev " +:+ iface
  end.

(** Calls into the emulator that take no data from this module. *)
Inductive net_call : Type :=
| NetStart          (* self.net.start() *)
| NetStop           (* self.net.stop() *)
| SaveTopology      (* self.app_topodb(net=self.net).save("./topology.db") *)
| NetCLI.           (* P4CLI(self.net, conf_file=self.conf_file) *)

(** What the run does to the outside, in order. *)
Inductive event : Type :=
| EvCleanup                                           (* p4utils.utils.utils.cleanup *)
| EvSh (cmd : string)                                 (* mininet.clean.sh *)
| EvMkdir (path : string)                             (* os.mkdir *)
| EvEnviron (key val : string)                        (* os.environ[key] = val *)
| EvSysPath (path : value)                            (* sys.path.insert(0, path) *)
| EvSleep (seconds : Z)
| EvNet (c : net_call)
| EvDescribe (node : string)                          (* node.describe() *)
| EvRename (host : string) (intf : nat) (new_name : string)
| EvCmd (host : string) (c : command)                 (* h.cmd(...) *)
| EvSetDefaultRoute (host : string) (route : string)  (* h.setDefaultRoute(...) *)
| EvEntry (port : Z) (entry : string).                (* one entry reaching the endpoint *)

Record World : Type := MkWorld {
  w_intfs : nat -> Intf;        (* the interface objects *)
  w_paths : gmap string bool    (* the existing paths: [true] for a directory *)
}.

Record outcome (A : Type) : Type := Outcome {
  result : error + A;
  world : World;
  trace : list event
}.
Arguments Outcome {A} _ _ _.
Arguments result {A} _.
Arguments world {A} _.
Arguments trace {A} _.

(** Computations that read and change the world, log events and may
    raise. *)
Definition M (A : Type) : Type := World -> outcome A.

Definition ret {A} (a : A) : M A := fun w => Outcome (inr a) w [].
Definition raise {A} (e : error) : M A := fun w => Outcome (inl e) w [].
Definition lift {A} (r : error + A) : M A := fun w => Outcome r w [].
Definition emit (e : event) : M unit := fun w => Outcome (inr tt) w [e].
Definition ask : M World := fun w => Outcome (inr w) w [].
Definition put (w' : World) : M unit := fun _ => Outcome (inr tt) w' [].

Definition bind {A B} (m : M A) (k : A -> M B) : M B := fun w =>
  match m w with
  | Outcome (inl e) w1 t1 => Outcome (inl e) w1 t1
  | Outcome (inr a) w1 t1 =>
      match k a w1 with
      | Outcome r w2 t2 => Outcome r w2 (t1 ++ t2)
      end
  end.

Notation "x <- m ;; k" := (bind m (fun x => k))
  (at level 20, m at level 99, k at level 200, only parsing).
Notation "m ;;; k" := (bind m (fun _ => k))
  (at level 20, k at level 200, only parsing).

(** [for x in l: body(x)] *)
Fixpoint for_each {A} (l : list A) (body : A -> M unit) : M unit :=
  match l with
  | [] => ret tt
  | x :: l' => body x ;;; for_each l' body
  end.

Definition when (b : bool) (m : M unit) : M unit := if b then m else ret tt.

(** ** [program_hosts] *)

(** [ip_interface(text).network.compressed] of the [ipaddress] module,
    [None] when [ip_interface] raises [ValueError]. *)
Class IpAddress : Type := {
  network_compressed : string -> option string
}.

(** [net.get(name)] *)
Definition net_get (net : gmap string Node) (name : string) : M Node :=
  match net !! name with
  | Some n => ret n
  | None => raise (KeyError name)
  end.

(** [h.defaultIntf()]: the interface of the lowest port. *)
Definition defaultIntf (h : Node) : option nat :=
  match intfs h with
  | [] => None
  | pi :: rest =>
      Some (snd (fold_left (fun best qi => if (fst qi <? fst best)%Z then qi else best)
                           rest pi))
  end.

(** [intf.rename(new_name)]: the object [i] changes its name, for
    everyone who holds it. *)
Definition renamed (w : World) (i : nat) (new_name : string) : World :=
  let old := w_intfs w i in
  MkWorld (fun j => if decide (j = i)
                    then MkIntf new_name (intf_mac old) (intf_link old)
                    else w_intfs w j)
          (w_paths w).

Definition rename (host : string) (i : nat) (new_name : string) : M unit :=
  w <- ask ;;
  put (renamed w i new_name) ;;;
  emit (EvRename host i new_name).

Definition name_of (i : nat) : M string := w <- ask ;; ret (intf_name (w_intfs w i)).
Definition mac_of (i : nat) : M string := w <- ask ;; ret (intf_mac (w_intfs w i)).
Definition link_of (i : nat) : M (nat * nat) :=
  w <- ask ;;
  match intf_link (w_intfs w i) with
  | Some l => ret l
  | None => raise AttributeError
  end.

Definition cmd (host : string) (c : command) : M unit := emit (EvCmd host c).

(** ["%s/%d" % (ip, mask)] *)
Definition cidr_text (ip_addr : string) (mask_len : Z) : string :=
  ip_addr +:+ "/" +:+ format_d mask_len.

(** ['10.0.%d.254' % host_id] *)
Definition sw_ip_of (host_id : Z) : string := "10.0." +:+ format_d host_id +:+ ".254".

Section Hosts.

Context `{!IpAddress}.

Definition ip_network (text : string) : M string :=
  match network_compressed text with
  | Some n => ret n
  | None => raise (ValueError text)
  end.

Definition info_of (topo : Topo) (name : string) : M HostInfo :=
  match hosts_info topo !! name with
  | Some i => ret i
  | None => raise (KeyError name)
  end.

(** One iteration of the inner loop of [program_hosts], over
    [hosts_same_subnet]. *)
Definition arp_same_switch (topo : Topo) (host_name : string) (h_iface : nat)
    (sw_name : string) (host_network : string) (hosts_same_subnet : string) : M unit :=
  if decide (hosts_same_subnet = host_name) then ret tt
  else
    other <- info_of topo hosts_same_subnet ;;
    (* if connected to the same switch *)
    if decide (sw other = sw_name) then
      (* check if same subnet *)
      other_network <- ip_network (cidr_text (ip other) (mask other)) ;;
      if decide (host_network = other_network) then
        iface <- name_of h_iface ;;
        cmd host_name (Arp iface (ip other) (mac other))
      else ret tt
    else ret tt.

(** The inner loop: "set arp rules for all the hosts connected to the
    same switch". *)
Definition set_arp_rules (topo : Topo) (host_name : string) (h_iface : nat)
    (sw_name : string) (host_network : string) : M unit :=
  for_each (topo_hosts topo)
           (arp_same_switch topo host_name h_iface sw_name host_network).

(** The end of an iteration of the outer loop: the switch and the
    network of the host, then the inner loop. *)
Definition seeding (topo : Topo) (h : Node) (host_name : string) (h_iface : nat)
  : M unit :=
  own <- info_of topo host_name ;;
  let sw_name := sw own in
  host_network <- ip_network (cidr_text (IP h) (mask own)) ;;
  set_arp_rules topo host_name h_iface sw_name host_network.

(** One iteration of the outer loop of [program_hosts]. *)
Definition program_host (topo : Topo) (net : gmap string Node) (host_name : string)
  : M unit :=
  h <- net_get net host_name ;;
  h_iface <- lift (match intfs h with
                   | [] => inl IndexError
                   | (_, i) :: _ => inr i
                   end) ;;
  link <- link_of h_iface ;;
  let sw_iface := if decide (fst link <> h_iface) then fst link else snd link in
  (* phony IP to lie to the host about *)
  host_id <- lift (match py_int (slice_from_1 host_name) with
                   | Some n => inr n
                   | None => inl (ValueError (slice_from_1 host_name))
                   end) ;;
  let sw_ip := sw_ip_of host_id in
  default <- lift (match defaultIntf h with
                   | Some i => inr i
                   | None => inl AttributeError
                   end) ;;
  rename host_name default (host_name +:+ "-eth0") ;;;
  (* static arp entries and default routes *)
  iface <- name_of h_iface ;;
  sw_mac <- mac_of sw_iface ;;
  cmd host_name (Arp iface sw_ip sw_mac) ;;;
  iface <- name_of h_iface ;;
  cmd host_name (EthtoolOffload iface) ;;;
  iface <- name_of h_iface ;;
  cmd host_name (IpRouteAdd sw_ip iface) ;;;
  emit (EvSetDefaultRoute host_name ("via " +:+ sw_ip)) ;;;
  (* set arp rules for all the hosts connected to the same switch *)
  seeding topo h host_name h_iface.

Definition program_hosts (topo : Topo) (net : gmap string Node) : M unit :=
  for_each (topo_hosts topo) (program_host topo net).

End Hosts.

(** ** The application runner *)

(** A class the runner builds objects with: one of the four the module
    imports as defaults, or another object, known by the module and the
    attribute it was found under. *)
Inductive builder : Type :=
| DefaultTopo         (* p4utils.mininetlib.apptopo.AppTopo *)
| DefaultController   (* p4utils.mininetlib.appcontroller.AppController *)
| DefaultTopoDB       (* p4utils.utils.topology.Topology *)
| P4Mininet           (* p4utils.mininetlib.net.P4Mininet *)
| Custom (module_name object_name : value).

(** The started network: its nodes by name, and the names in
    [net.switches] and [net.hosts]. *)
Record Net : Type := MkNet {
  nodes : gmap string Node;
  net_switches : list string;
  net_hosts : list string
}.

(** The attributes of [AppRunner] set by [__init__]. *)
Record AppRunner : Type := MkAppRunner {
  conf_file : string;
  conf : Conf;
  cli_enabled : bool;
  pcap_dir : string;
  log_dir : string;
  bmv2_exe : string;
  log_enabled : value;
  pcap_dump : value;
  hosts : list string;
  switches : list (string * list (string * value));
  links : list link_dict;
  app_topo : builder;
  app_controller : builder;
  app_topodb : builder;
  app_mininet : builder
}.

(** The collaborators of the module: the rest of the [p4utils] package,
    mininet, and the operating system where it can refuse. *)
Class Backend : Type := {
  DEFAULT_SWITCH : string;
  (* os.mkdir(path) raising: a missing parent, no permission *)
  mkdir_raises : string -> option error;
  (* p4utils.utils.utils.load_conf *)
  load_conf : string -> error + Conf;
  (* getattr(importlib.import_module(module_name), object_name): the
     object found, which may be one of the default classes *)
  import_object : value -> value -> error + builder;
  (* mininet.clean.sh(cmd) for a removal: what the command leaves of the
     paths *)
  rm_paths : string -> gmap string bool -> gmap string bool;
  (* compile_all_p4(conf) *)
  compile_all_p4 : Conf -> error + value;
  (* self.app_topo(hosts, switch_to_json, links, log_dir, conf) *)
  make_topo : builder -> list string -> value -> list link_dict -> string -> Conf
              -> error + Topo;
  (* self.app_mininet(topo=..., ...): the network and its interface objects *)
  make_net : builder -> Topo -> error + (Net * (nat -> Intf));
  topo_isP4Switch : Topo -> string -> bool;
  (* an exception raised by a call into the emulator *)
  net_call_raises : net_call -> option error;
  (* command files, by path: the entries each one holds *)
  command_files : gmap string (list string)
}.

Definition isfile (w : World) (path : string) : bool :=
  match w_paths w !! path with Some false => true | _ => false end.
Definition isdir (w : World) (path : string) : bool :=
  match w_paths w !! path with Some true => true | _ => false end.
Definition exists_path (w : World) (path : string) : bool :=
  match w_paths w !! path with Some _ => true | None => false end.

(** The command line, as [get_args] returns it. *)
Record Args : Type := MkArgs {
  arg_config : string;
  arg_log_dir : string;
  arg_pcap_dir : string;
  arg_cli : bool;
  arg_quiet : bool;
  arg_clean : bool;
  arg_only_clean : bool
}.

(** What the control-plane endpoint at [port] receives in a trace. *)
Fixpoint observed (port : Z) (tr : list event) : list string :=
  match tr with
  | [] => []
  | EvEntry p entry :: tr' =>
      if decide (p = port) then entry :: observed port tr' else observed port tr'
  | _ :: tr' => observed port tr'
  end.

Definition sleep (seconds : Z) : M unit := emit (EvSleep seconds).

Definition topology_message : string := "topology to create is not defined in ".

Section Runner.

Context `{!Python, !IpAddress, !Backend}.

(** [os.mkdir(path)] *)
Definition mkdir (path : string) : M unit :=
  match mkdir_raises path with
  | Some e => raise e
  | None =>
      w <- ask ;;
      put (MkWorld (w_intfs w) (<[path := true]> (w_paths w))) ;;;
      emit (EvMkdir path)
  end.

(** "Ensure that all the needed directories exist and are directories" *)
Definition ensure_dir (path : string) : M unit :=
  w <- ask ;;
  if isdir w path then ret tt
  else if exists_path w path
       then raise (Exception ("'" +:+ path +:+ "' exists and is not a directory!"))
       else mkdir path.

Definition load_custom_object (c : Conf) (object_type : string) : M builder :=
  match dict_lookup object_type (conf_items c) with
  | Some (VDict d) =>
      let file_path := dict_get d "file_path" (VStr ".") in
      emit (EvSysPath file_path) ;;;
      module_name <- lift (match dict_lookup "module_name" d with
                           | Some v => inr v
                           | None => inl (KeyError "module_name")
                           end) ;;
      object_name <- lift (match dict_lookup "object_name" d with
                           | Some v => inr v
                           | None => inl (KeyError "object_name")
                           end) ;;
      lift (import_object module_name object_name)
  | Some _ => raise AttributeError   (* what is not a dict has no [get] *)
  | None => raise (KeyError object_type)
  end.

(** [... = default], then
    [if self.conf.get(key, None): ... = self.load_custom_object(key)] *)
Definition custom_or_default (c : Conf) (key : string) (default : builder) : M builder :=
  if truthy (dict_get (conf_items c) key VNone)
  then load_custom_object c key
  else ret default.

(** [AppRunner.__init__] up to "load topology": the configuration is
    read, the switch processes are killed, the directories are seen to.
    It gives [self.conf], [self.bmv2_exe], [self.log_enabled] and
    [self.pcap_dump]. *)
Definition init_configuration (conf_file log_dir pcap_dir : string)
  : M (Conf * string * value * value) :=
  w <- ask ;;
  if negb (isfile w conf_file)
  then raise (Exception ("Configuration " +:+ conf_file +:+ " is not in the directory!"))
  else
    c <- lift (load_conf conf_file) ;;
    let bmv2_exe := str (dict_get (conf_items c) "switch" (VStr DEFAULT_SWITCH)) in
    (* Clean switches: a signal to processes, the paths stay as they are *)
    emit (EvSh ("killall " +:+ bmv2_exe)) ;;;
    (* get configurations *)
    let log_enabled := dict_get (conf_items c) "enable_log" (VBool false) in
    when (truthy log_enabled) (ensure_dir log_dir) ;;;
    let pcap_dump := dict_get (conf_items c) "pcap_dump" (VBool false) in
    when (truthy pcap_dump) (ensure_dir pcap_dir) ;;;
    ret (c, bmv2_exe, log_enabled, pcap_dump).

(** [AppRunner.__init__] *)
Definition __init__ (conf_file log_dir pcap_dir : string) (cli_enabled quiet : bool)
  : M AppRunner :=
  read <- init_configuration conf_file log_dir pcap_dir ;;
  let '(c, bmv2_exe, log_enabled, pcap_dump) := read in
  (* load topology *)
  match conf_topology c with
  | None => raise (Exception (topology_message +:+ conf_str c))
  | Some topology =>
      links <- lift (parse_links (t_links topology)) ;;
      emit (EvEnviron "P4APP_LOGDIR" log_dir) ;;;
      (* Setting default builders *)
      app_topo <- custom_or_default c "topo_module" DefaultTopo ;;
      app_controller <- custom_or_default c "controller_module" DefaultController ;;
      app_topodb <- custom_or_default c "topodb_module" DefaultTopoDB ;;
      app_mininet <- custom_or_default c "mininet_module" P4Mininet ;;
      ret (MkAppRunner conf_file c cli_enabled pcap_dir log_dir bmv2_exe
                       log_enabled pcap_dump
                       (t_hosts topology) (t_switches topology) links
                       app_topo app_controller app_topodb app_mininet)
  end.

(** A call into the emulator: it is made, and may raise. *)
Definition call_net (c : net_call) : M unit :=
  emit (EvNet c) ;;;
  match net_call_raises c with
  | Some e => raise e
  | None => ret tt
  end.

(** [create_network] *)
Definition create_network (self : AppRunner) : M (Topo * Net) :=
  (* compile all p4 programs and give them to every different switch *)
  switch_to_json <- match compile_all_p4 (conf self) with
                    | inr j => ret j
                    | inl CompilationError => raise (SystemExit 0)
                    | inl e => raise e
                    end ;;
  topo <- lift (make_topo (app_topo self) (hosts self) switch_to_json (links self)
                          (log_dir self) (conf self)) ;;
  (* start P4 Mininet *)
  made <- lift (make_net (app_mininet self) topo) ;;
  w <- ask ;;
  put (MkWorld (snd made) (w_paths w)) ;;;
  ret (topo, fst made).

(** Modelled from the spec: [read_entries] of [p4utils.utils.utils] is
    not in the sources at hand.  It reads the command file "into an
    ordered sequence of control-plane entries". *)
Definition read_entries (path : value) : M (list string) :=
  match path with
  | VStr p => match command_files !! p with
              | Some entries => ret entries
              | None => raise (IOError)
              end
  | _ => raise TypeError
  end.

(** Modelled from the spec: [add_entries] of [p4utils.utils.utils] is
    not in the sources at hand.  It applies the entries "against that
    switch's live control-plane endpoint (addressed by a
    runtime-assigned port)", and "application order must equal file
    order". *)
Definition add_entries (thrift_port : Z) (entries : list string)
    (cli_outfile : option string) (cli : value) : M unit :=
  for_each entries (fun entry => emit (EvEntry thrift_port entry)).

(** One iteration of the loop of [program_switches]. *)
Definition program_switch (self : AppRunner) (net : Net) (cli : value)
    (item : string * list (string * value)) : M unit :=
  let '(sw_name, sw_dict) := item in
  match dict_lookup "cli_input" sw_dict with
  | None => ret tt
  | Some cli_input_commands =>
      (* get the port for this particular switch's thrift server *)
      sw_obj <- net_get (nodes net) sw_name ;;
      port <- lift (match thrift_port sw_obj with
                    | Some p => inr p
                    | None => inl AttributeError
                    end) ;;
      let cli_outfile :=
        if truthy (log_enabled self)
        then Some (log_dir self +:+ "/" +:+ sw_name +:+ "_cli_output.log")
        else None in
      entries <- read_entries cli_input_commands ;;
      add_entries port entries cli_outfile cli
  end.

(** [program_switches] *)
Definition program_switches (self : AppRunner) (net : Net) : M unit :=
  cli <- lift (match dict_lookup "switch_cli" (conf_items (conf self)) with
               | Some v => inr v
               | None => inl (KeyError "switch_cli")
               end) ;;
  for_each (switches self) (program_switch self net cli).

(** [save_topology] *)
Definition save_topology : M unit := call_net SaveTopology.

(** [do_net_cli], without what it prints. *)
Definition do_net_cli (topo : Topo) (net : Net) : M unit :=
  for_each (net_switches net)
           (fun s => when (topo_isP4Switch topo s) (emit (EvDescribe s))) ;;;
  for_each (net_hosts net) (fun h => emit (EvDescribe h)) ;;;
  (* Start CLI *)
  call_net NetCLI.

(** [run_app], up to the session. *)
Definition run_app_steps (self : AppRunner) : M unit :=
  (* Initialize mininet with the topology specified by the configuration *)
  tn <- create_network self ;;
  let '(topo, net) := tn in
  call_net NetStart ;;;
  sleep 1 ;;;
  (* Some programming that must happen after the network has started *)
  program_hosts topo (nodes net) ;;;
  program_switches self net ;;;
  (* Save mininet topology to a database *)
  save_topology ;;;
  sleep 1 ;;;
  (* Start up the mininet CLI *)
  when (cli_enabled self || truthy (dict_get (conf_items (conf self)) "cli" (VBool false)))
       (do_net_cli topo net).

(** [run_app] *)
Definition run_app (self : AppRunner) : M unit :=
  run_app_steps self ;;;
  (* Stop right after the CLI is exited *)
  call_net NetStop.

(** [sh(cmd)] for a removal: the command is run, and the file system is
    what it leaves. *)
Definition sh_rm (cmd : string) : M unit :=
  w <- ask ;;
  put (MkWorld (w_intfs w) (rm_paths cmd (w_paths w))) ;;;
  emit (EvSh cmd).

(** [main] *)
Definition main (args : Args) : M unit :=
  (* clean *)
  emit EvCleanup ;;;
  when (arg_clean args || arg_only_clean args)
       (sh_rm ("rm -rf " +:+ arg_pcap_dir args) ;;;
        sh_rm ("rm -rf " +:+ arg_log_dir args) ;;;
        sh_rm "rm -f topology.db") ;;;
  if arg_only_clean args then ret tt
  else
    app <- __init__ (arg_config args) (arg_log_dir args) (arg_pcap_dir args)
                (arg_cli args) (arg_quiet args) ;;
    run_app app.

End Runner.

(** Kinds of events: a call into the emulator, and the call that stops
    the network. *)
Definition is_net_call (e : event) : bool :=
  match e with EvNet _ => true | _ => false end.

Definition is_stop (e : event) : bool :=
  match e with EvNet NetStop => true | _ => false end.

(** A computation that does nothing of the kind [p], from any world. *)
Definition never {A} (p : event -> bool) (m : M A) : Prop :=
  forall w e, e ∈ trace (m w) -> p e = false.

(** The host an event is about, for what is done to a host. *)
Definition event_host (e : event) : option string :=
  match e with
  | EvRename h _ _ | EvCmd h _ | EvSetDefaultRoute h _ => Some h
  | _ => None
  end.

(** Two worlds with the same paths and the same interfaces up to their
    names. *)
Definition same_wiring (w w' : World) : Prop :=
  w_paths w' = w_paths w
  /\ forall i, intf_mac (w_intfs w' i) = intf_mac (w_intfs w i)
               /\ intf_link (w_intfs w' i) = intf_link (w_intfs w i).

(** What is done to provision a node: to a host, or an entry sent to a
    switch. *)
Definition is_provisioning (e : event) : bool :=
  match e with
  | EvRename _ _ _ | EvCmd _ _ | EvSetDefaultRoute _ _ | EvEntry _ _ => true
  | _ => false
  end.

(** What belongs to the interactive session. *)
Definition is_session (e : event) : bool :=
  match e with
  | EvDescribe _ | EvNet NetCLI => true
  | _ => false
  end.

(** A trace in two parts: nothing of the kind [p] in the first, nothing of
    the kind [q] in the second. *)
Definition splits (p q : event -> bool) (t : list event) : Prop :=
  exists A B, t = (A ++ B)%list
              /\ Forall (fun e => p e = false) A
              /\ Forall (fun e => q e = false) B.

(** The builder [__init__] keeps for the option [key] of the
    configuration: the default when the option is absent or falsy, else
    the object found under the names the option gives. *)
Definition builder_for `{!Backend} (c : Conf) (key : string) (default b : builder)
  : Prop :=
  if truthy (dict_get (conf_items c) key VNone)
  then exists d module_name object_name,
         dict_lookup key (conf_items c) = Some (VDict d)
         /\ dict_lookup "module_name" d = Some module_name
         /\ dict_lookup "object_name" d = Some object_name
         /\ import_object module_name object_name = inr b
  else b = default.

(** ** Running the model *)

(** An interpreter to run the model with: Python 2 printing what
    [json.load] gave it, where every string is a [unicode] of ASCII
    characters and the items of a dict are listed in the order the dict
    iterates. *)
Definition hex_digit (n : N) : ascii :=
  ascii_of_N (if n <? 10 then 48 + n else 87 + n)%N.

Definition backslash : ascii := ascii_of_N 92.
Definition single_quote : ascii := ascii_of_N 39.
Definition double_quote : ascii := ascii_of_N 34.

Definition escaped (c : ascii) : string := String backslash (String c EmptyString).

(** One character inside the quotes [q] of a [repr]. *)
Definition repr_char (q c : ascii) : string :=
  let n := N_of_ascii c in
  if Ascii.eqb c backslash then escaped backslash
  else if Ascii.eqb c q then escaped q
  else if (n =? 9)%N then escaped "t"
  else if (n =? 10)%N then escaped "n"
  else if (n =? 13)%N then escaped "r"
  else if ((n <? 32) || (126 <? n))%N
       then escaped "x" +:+ String (hex_digit (n / 16)%N)
                                   (String (hex_digit (n mod 16)%N) EmptyString)
       else String c EmptyString.

Fixpoint repr_chars (q : ascii) (s : string) : string :=
  match s with
  | EmptyString => EmptyString
  | String c s' => repr_char q c +:+ repr_chars q s'
  end.

Fixpoint has_char (c : ascii) (s : string) : bool :=
  match s with
  | EmptyString => false
  | String c' s' => Ascii.eqb c c' || has_char c s'
  end.

(** [repr(s)] for a [unicode]: single quotes, unless the text has one and
    no double quote. *)
Definition repr_unicode (s : string) : string :=
  let q := if has_char single_quote s && negb (has_char double_quote s)
           then double_quote else single_quote in
  String "u" (String q (repr_chars q s +:+ String q EmptyString)).

Fixpoint join (sep : string) (l : list string) : string :=
  match l with
  | [] => EmptyString
  | [x] => x
  | x :: l' => x +:+ sep +:+ join sep l'
  end.

(** [repr(v)]; an integer outside the machine word is a [long]. *)
Fixpoint py_repr (v : value) : string :=
  match v with
  | VNone => "None"
  | VBool true => "True"
  | VBool false => "False"
  | VInt n => if ((- 2 ^ 63 <=? n) && (n <? 2 ^ 63))%Z then format_d n
              else format_d n +:+ "L"
  | VStr s => repr_unicode s
  | VList l => "[" +:+ join ", " (List.map py_repr l) +:+ "]"
  | VDict d =>
      "{" +:+ join ", " (List.map (fun kv => repr_unicode (fst kv) +:+ ": "
                                             +:+ py_repr (snd kv)) d) +:+ "}"
  end.

(** [str(v)] *)
Definition py_str_scalar (v : value) : string :=
  match v with
  | VInt n => format_d n
  | VStr s => s
  | _ => py_repr v
  end.

(** [str(conf)].  The module only prints a configuration without
    topology block, which is the dict of its items; the block of another
    one is abbreviated here. *)
Definition py_conf_str (c : Conf) : string :=
  "{" +:+ join ", "
            ((match conf_topology c with
              | Some _ => ["u'topology': {...}"]
              | None => []
              end)
             ++ List.map (fun kv => repr_unicode (fst kv) +:+ ": " +:+ py_repr (snd kv))
                         (conf_items c))%list
      +:+ "}".

Definition scalar_python : Python :=
  {| py_str := py_str_scalar; conf_str := py_conf_str |}.

(** [ip_interface(text).network.compressed] for IPv4 text
    ["a.b.c.d/len"]: four octets of one to three digits written without
    a leading zero, a prefix length up to 32, the address cut to its
    prefix.  Text of another form has no network here. *)
Fixpoint split_on (sep : ascii) (s : string) : list string :=
  match s with
  | EmptyString => [EmptyString]
  | String c s' =>
      if Ascii.eqb c sep then EmptyString :: split_on sep s'
      else match split_on sep s' with
           | [] => [String c EmptyString]
           | x :: xs => String c x :: xs
           end
  end.

Fixpoint decimal_from (acc : Z) (s : string) : option Z :=
  match s with
  | EmptyString => Some acc
  | String c s' => match digit_of c with
                   | Some d => decimal_from (10 * acc + d) s'
                   | None => None
                   end
  end.

Definition decimal (s : string) : option Z :=
  match s with
  | EmptyString => None
  | _ => decimal_from 0 s
  end.

(** An octet: at most three digits, and no zero before another digit. *)
Definition octet (s : string) : option Z :=
  match s with
  | String "0" (String _ _) => None
  | _ => if (String.length s <=? 3)%nat then decimal s else None
  end.

Definition ipv4_address (s : string) : option Z :=
  match octet <$> split_on "." s with
  | [Some a; Some b; Some c; Some d] =>
      if ((a <=? 255) && (b <=? 255) && (c <=? 255) && (d <=? 255))%Z
      then Some (((a * 256 + b) * 256 + c) * 256 + d)%Z
      else None
  | _ => None
  end.

Definition dotted (n : Z) : string :=
  format_d (Z.shiftr n 24) +:+ "." +:+ format_d (Z.land (Z.shiftr n 16) 255)
  +:+ "." +:+ format_d (Z.land (Z.shiftr n 8) 255) +:+ "." +:+ format_d (Z.land n 255).

Definition ipv4_network_compressed (text : string) : option string :=
  match split_on "/" text with
  | [addr; len] =>
      match ipv4_address addr, decimal len with
      | Some a, Some p =>
          if (p <=? 32)%Z
          then let netmask := Z.shiftl (Z.ones p) (32 - p) in
               Some (dotted (Z.land a netmask) +:+ "/" +:+ format_d p)
          else None
      | _, _ => None
      end
  | _ => None
  end.

Definition ipv4 : IpAddress := {| network_compressed := ipv4_network_compressed |}.

(** A network to run the model on: three hosts on the switch [s1], two
    of them in 10.0.1.0/24, the third in 10.0.2.0/24; each host has one
    interface, linked to a port of the switch. *)
Definition lab_topo : Topo :=
  MkTopo ["h1"; "h2"; "h3"]
         (<["h1" := MkHostInfo "s1" "10.0.1.1" "00:00:00:00:01:01" 24]>
          (<["h2" := MkHostInfo "s1" "10.0.1.2" "00:00:00:00:01:02" 24]>
           (<["h3" := MkHostInfo "s1" "10.0.2.3" "00:00:00:00:02:03" 24]> ∅))).

Definition lab_nodes : gmap string Node :=
  <["h1" := MkNode [(0, 1%nat)] "10.0.1.1" None]>
  (<["h2" := MkNode [(0, 2%nat)] "10.0.1.2" None]>
   (<["h3" := MkNode [(0, 3%nat)] "10.0.2.3" None]>
    (<["s1" := MkNode [(1, 11%nat); (2, 12%nat); (3, 13%nat)] "" (Some 9090)]> ∅))).

Definition lab_intfs (i : nat) : Intf :=
  match i with
  | 1%nat => MkIntf "h1-eth0" "00:00:00:00:01:01" (Some (1, 11)%nat)
  | 2%nat => MkIntf "h2-eth0" "00:00:00:00:01:02" (Some (2, 12)%nat)
  | 3%nat => MkIntf "h3-eth0" "00:00:00:00:02:03" (Some (3, 13)%nat)
  | 11%nat => MkIntf "s1-eth1" "00:01:0a:00:01:01" (Some (1, 11)%nat)
  | 12%nat => MkIntf "s1-eth2" "00:01:0a:00:01:02" (Some (2, 12)%nat)
  | 13%nat => MkIntf "s1-eth3" "00:01:0a:00:02:03" (Some (3, 13)%nat)
  | _ => MkIntf "lo" "00:00:00:00:00:00" None
  end.

Definition lab_world : World := MkWorld lab_intfs (<["p4app.json" := false]> ∅).

(** A configuration for that network: the switch [s1] declares a
    command file. *)
Definition lab_conf : Conf :=
  MkConf (Some (MkTopology ["h1"; "h2"; "h3"]
                           [("s1", [("cli_input", VStr "s1-commands.txt")])]
                           [LinkDesc "h1" "s1" []; LinkDesc "s1" "h2" [];
                            LinkDesc "h3" "s1" [VInt 5]]))
         [("switch_cli", VStr "simple_switch_CLI")].

Definition lab_net : Net := MkNet lab_nodes ["s1"] ["h1"; "h2"; "h3"].

(** What an import finds: the default topology class under its own
    names, and otherwise an object of the names asked for. *)
Definition lab_import (module_name object_name : value) : builder :=
  match module_name, object_name with
  | VStr "p4utils.mininetlib.apptopo", VStr "AppTopo" => DefaultTopo
  | _, _ => Custom module_name object_name
  end.

(** What a removal leaves: [rm -rf p] takes [p] and all below it, [rm -f
    p] takes the file [p]; [p] is one plain word. *)
Definition lab_rm (cmd : string) (paths : gmap string bool) : gmap string bool :=
  match split_on " " cmd with
  | ["rm"; "-rf"; p] =>
      if String.eqb p "" then paths
      else filter (fun kv => (String.eqb (fst kv) p
                              || String.prefix (p +:+ "/") (fst kv)) = false) paths
  | ["rm"; "-f"; p] =>
      match paths !! p with
      | Some false => delete p paths
      | _ => paths
      end
  | _ => paths
  end.

(** Collaborators that load the configuration [c] from [p4app.json],
    build the topology [topo] and the network above, and never raise. *)
Definition lab_backend (c : Conf) (topo : Topo) : Backend :=
  {| DEFAULT_SWITCH := "simple_switch";
     mkdir_raises := fun _ => None;
     load_conf := fun path => if String.eqb path "p4app.json" then inr c
                              else inl (IOError);
     import_object := fun module_name object_name =>
                        inr (lab_import module_name object_name);
     rm_paths := lab_rm;
     compile_all_p4 := fun _ => inr (VDict []);
     make_topo := fun _ _ _ _ _ _ => inr topo;
     make_net := fun _ _ => inr (lab_net, lab_intfs);
     topo_isP4Switch := fun _ _ => true;
     net_call_raises := fun _ => None;
     command_files := <["s1-commands.txt" := ["A"; "B"; "C"]]> ∅ |}.

(** The runner [__init__] builds from that configuration. *)
Definition lab_app (c : Conf) : AppRunner :=
  MkAppRunner "p4app.json" c true "pcap" "log" "simple_switch"
              (VBool false) (VBool false)
              ["h1"; "h2"; "h3"]
              [("s1", [("cli_input", VStr "s1-commands.txt")])]
              [LinkDict "h1" "s1" "0ms" VNone (VInt 1);
               LinkDict "h2" "s1" "0ms" VNone (VInt 1);
               LinkDict "h3" "s1" "5ms" VNone (VInt 1)]
              DefaultTopo DefaultController DefaultTopoDB P4Mininet.

Definition lab_args : Args := MkArgs "p4app.json" "log" "pcap" true false false false.

(** The same collaborators with a compiler that rejects the program. *)
Definition lab_failing_compiler : Backend :=
  {| DEFAULT_SWITCH := "simple_switch";
     mkdir_raises := fun _ => None;
     load_conf := fun path => if String.eqb path "p4app.json" then inr lab_conf
                              else inl (IOError);
     import_object := fun module_name object_name =>
                        inr (lab_import module_name object_name);
     rm_paths := lab_rm;
     compile_all_p4 := fun _ => inl CompilationError;
     make_topo := fun _ _ _ _ _ _ => inr lab_topo;
     make_net := fun _ _ => inr (lab_net, lab_intfs);
     topo_isP4Switch := fun _ _ => true;
     net_call_raises := fun _ => None;
     command_files := <["s1-commands.txt" := ["A"; "B"; "C"]]> ∅ |}.

(** * Properties *)

(** ** Link parsing *)

Section LinkFacts.

Context `{!Python}.

Lemma compare_flip (a b : string) :
  String.compare a b = Gt <-> String.compare b a = Lt.
Proof.
  rewrite (String.compare_antisym b a).
  destruct (String.compare a b); simpl; split; congruence.
Qed.

(** The two orders of the endpoints give the same iteration. *)
Lemma parse_link_swap (a b : string) (opts : list value) :
  parse_link (LinkDesc a b opts) = parse_link (LinkDesc b a opts).
Proof.
  unfold parse_link, given; simpl.
  destruct (String.compare a b) eqn:Hab.
  - apply String.compare_eq_iff in Hab. subst b.
    destruct (String.compare a a); reflexivity.
  - rewrite (String.compare_antisym b a), Hab. reflexivity.
  - apply compare_flip in Hab. rewrite Hab. reflexivity.
Qed.

Lemma parse_links_from_app (acc : list link_dict) (pre post : list link_desc) :
  parse_links_from acc (pre ++ post) =
  match parse_links_from acc pre with
  | inl e => inl e
  | inr acc' => parse_links_from acc' post
  end.
Proof.
  revert acc. induction pre as [|l pre IH]; intros acc; simpl; [reflexivity|].
  destruct (parse_link l); [reflexivity|]. apply IH.
Qed.

(** The fields [node1] and [node2] come out of the ordering step
    untouched by the optional items. *)
Lemma parse_link_nodes (l : link_desc) (d : link_dict) :
  parse_link l = inr d ->
  (node1 d, node2 d) =
  match String.compare (link_0 l) (link_1 l) with
  | Gt => (link_1 l, link_0 l)
  | _ => (link_0 l, link_1 l)
  end.
Proof.
  unfold parse_link.
  destruct (match String.compare (link_0 l) (link_1 l) with
            | Gt => _ | _ => _ end) as [na nb].
  destruct (given l 2), (given l 3), (given l 4); simpl;
    repeat case_match; intros; simplify_eq; reflexivity.
Qed.

(** The optional items: each field is the default, or the truthy item
    at its position. *)
Lemma parse_link_fields (l : link_desc) (d : link_dict) :
  parse_link l = inr d ->
  latency d = match given l 2 with Some v => formatLatency v | None => "0ms" end
  /\ bandwidth d = match given l 3 with Some v => v | None => VNone end
  /\ weight d = match given l 4 with Some v => v | None => VInt 1 end.
Proof.
  unfold parse_link.
  destruct (match String.compare (link_0 l) (link_1 l) with
            | Gt => _ | _ => _ end) as [na nb].
  destruct (given l 2), (given l 3), (given l 4); simpl;
    repeat case_match; intros; simplify_eq; auto.
Qed.

(** The outcome is decided by the first characters of the ordered
    endpoints alone. *)
Lemma parse_link_accepts (l : link_desc) :
  let n1 := match String.compare (link_0 l) (link_1 l) with
            | Gt => link_1 l | _ => link_0 l end in
  let n2 := match String.compare (link_0 l) (link_1 l) with
            | Gt => link_0 l | _ => link_1 l end in
  match String.get 0 n1 with
  | None => parse_link l = inl IndexError
  | Some c1 =>
      if Ascii.eqb c1 "h" then
        match String.get 0 n2 with
        | None => parse_link l = inl IndexError
        | Some c2 =>
            if Ascii.eqb c2 "s" then exists d, parse_link l = inr d
            else parse_link l = inl (AssertionError (host_link_message +:+ n2))
        end
      else exists d, parse_link l = inr d
  end.
Proof.
  unfold parse_link.
  destruct (String.compare (link_0 l) (link_1 l));
    destruct (given l 2), (given l 3), (given l 4); simpl;
    repeat case_match; eauto.
Qed.

Lemma parse_links_from_spec (acc : list link_dict) (ls : list link_desc)
    (ds : list link_dict) :
  parse_links_from acc ls = inr ds <->
  exists ds', ds = (acc ++ ds')%list
              /\ Forall2 (fun l d => parse_link l = inr d) ls ds'.
Proof.
  revert acc ds. induction ls as [|l ls IH]; intros acc ds; simpl.
  - split.
    + intros [= <-]. exists []. split; [by rewrite app_nil_r|constructor].
    + intros (ds' & -> & Hall). apply Forall2_nil_inv_l in Hall as ->.
      by rewrite app_nil_r.
  - destruct (parse_link l) as [e|d] eqn:Hl.
    + split; [discriminate|].
      intros (ds' & _ & Hall). apply Forall2_cons_inv_l in Hall as (d & k & Hd & _ & _).
      congruence.
    + rewrite IH. split.
      * intros (ds' & -> & Hall). exists (d :: ds').
        split; [by rewrite <- app_assoc|by constructor].
      * intros (ds' & -> & Hall).
        apply Forall2_cons_inv_l in Hall as (d' & k & Hd & Hall & ->).
        assert (d' = d) as -> by congruence.
        exists k. split; [by rewrite <- app_assoc|done].
Qed.

(** The list before a link, the link, the list after it: the records
    come out in that order. *)
Lemma parse_links_around (pre post : list link_desc) (l : link_desc)
    (ds : list link_dict) :
  parse_links (pre ++ l :: post) = inr ds <->
  exists dpre d dpost,
    ds = (dpre ++ d :: dpost)%list
    /\ parse_links pre = inr dpre
    /\ parse_link l = inr d
    /\ parse_links post = inr dpost.
Proof.
  unfold parse_links. rewrite !parse_links_from_spec. split.
  - intros (ds' & -> & Hall).
    apply Forall2_app_inv_l in Hall as (dpre & k & Hpre & Hall & ->).
    apply Forall2_cons_inv_l in Hall as (d & dpost & Hd & Hpost & ->).
    exists dpre, d, dpost. split; [done|].
    split; [apply parse_links_from_spec; by exists dpre|].
    split; [done|apply parse_links_from_spec; by exists dpost].
  - intros (dpre & d & dpost & -> & Hpre & Hd & Hpost).
    apply parse_links_from_spec in Hpre as (k1 & -> & Hpre).
    apply parse_links_from_spec in Hpost as (k2 & -> & Hpost).
    exists (k1 ++ d :: k2)%list. split; [done|].
    apply Forall2_app; [done|]. by constructor.
Qed.

End LinkFacts.

Section LinkClaims.

Context `{!Python}.

(** C1.  The link descriptions [(a, b, opts)] and [(b, a, opts)] give
    the same result of [parse_links] wherever they stand in the list,
    error or not.  When [parse_links] returns, the list it returns has,
    between the records of the links before and those of the links
    after, one record for the link: the same for both orders, made of
    the two endpoints with [node1] the lexicographically smaller and
    [node2] the larger.  It returns whenever the links before, the link
    and the links after parse, and the link parses unless the smaller
    endpoint is empty or a host with something else than a switch at
    the other end. *)
Theorem parse_links_endpoint_order (pre post : list link_desc)
    (a b : string) (opts : list value) :
  parse_links (pre ++ LinkDesc a b opts :: post)
  = parse_links (pre ++ LinkDesc b a opts :: post)
  /\ (forall ds : list link_dict,
        parse_links (pre ++ LinkDesc a b opts :: post) = inr ds ->
        exists dpre d dpost,
          ds = (dpre ++ d :: dpost)%list
          /\ Forall2 (fun l r => parse_link l = inr r) pre dpre
          /\ Forall2 (fun l r => parse_link l = inr r) post dpost
          /\ parse_links (pre ++ LinkDesc b a opts :: post)
             = inr (dpre ++ d :: dpost)%list
          /\ (node1 d <=? node2 d)%string = true
          /\ (node1 d = a /\ node2 d = b \/ node1 d = b /\ node2 d = a))
  /\ (forall dpre d dpost,
        Forall2 (fun l r => parse_link l = inr r) pre dpre ->
        parse_link (LinkDesc a b opts) = inr d ->
        Forall2 (fun l r => parse_link l = inr r) post dpost ->
        parse_links (pre ++ LinkDesc a b opts :: post) = inr (dpre ++ d :: dpost)%list)
  /\ (forall d : link_dict,
        parse_link (LinkDesc a b opts) = inr d ->
        parse_link (LinkDesc b a opts) = inr d
        /\ (node1 d <=? node2 d)%string = true
        /\ (node1 d = a /\ node2 d = b \/ node1 d = b /\ node2 d = a))
  /\ (forall c1 : ascii,
        String.get 0 (if (a <=? b)%string then a else b) = Some c1 ->
        c1 <> "h"%char
        \/ String.get 0 (if (a <=? b)%string then b else a) = Some "s"%char ->
        exists d, parse_link (LinkDesc a b opts) = inr d).
Proof.
  assert (Hsame : parse_links (pre ++ LinkDesc a b opts :: post)
                  = parse_links (pre ++ LinkDesc b a opts :: post)).
  { unfold parse_links. rewrite !parse_links_from_app. simpl.
    rewrite (parse_link_swap a b). reflexivity. }
  assert (Hrecord : forall d : link_dict,
      parse_link (LinkDesc a b opts) = inr d ->
      parse_link (LinkDesc b a opts) = inr d
      /\ (node1 d <=? node2 d)%string = true
      /\ (node1 d = a /\ node2 d = b \/ node1 d = b /\ node2 d = a)).
  { intros d Hd. split; [rewrite <- parse_link_swap; exact Hd|].
    apply parse_link_nodes in Hd. simpl in Hd. unfold String.leb.
    destruct (String.compare a b) eqn:Hab; simplify_eq; rewrite ?Hab; auto.
    apply compare_flip in Hab. rewrite Hab. auto. }
  split; [exact Hsame|]. split; [|split; [|split; [exact Hrecord|]]].
  - intros ds Hds. pose proof Hds as Hds'.
    apply parse_links_around in Hds' as (dpre & d & dpost & -> & Hpre & Hd & Hpost).
    destruct (Hrecord d Hd) as (_ & Hord & Hends).
    exists dpre, d, dpost. rewrite <- Hsame.
    apply parse_links_from_spec in Hpre as (k1 & -> & Hpre).
    apply parse_links_from_spec in Hpost as (k2 & -> & Hpost). done.
  - intros dpre d dpost Hpre Hd Hpost. apply parse_links_around.
    exists dpre, d, dpost. split; [done|].
    split; [apply parse_links_from_spec; by exists dpre|].
    split; [done|apply parse_links_from_spec; by exists dpost].
  - intros c1 Hc1 Hok.
    pose proof (parse_link_accepts (LinkDesc a b opts)) as Hacc. simpl in Hacc.
    unfold String.leb in Hc1, Hok.
    destruct (String.compare a b); rewrite Hc1 in Hacc.
    all: destruct (Ascii.eqb c1 "h") eqn:Hh; [|exact Hacc].
    all: apply Ascii.eqb_eq in Hh; destruct Hok as [Hne|Hs]; [done|].
    all: rewrite Hs in Hacc; exact Hacc.
Qed.

(** C7.  An optional item that is present but falsy leaves the default
    of its field: latency ['0ms'], bandwidth [None], weight [1]; a
    truthy weight is taken whatever stands at the places before it. *)
Theorem falsy_option_keeps_default (a b : string) (opts : list value) (d : link_dict) :
  parse_link (LinkDesc a b opts) = inr d ->
  (forall v, opts !! 0%nat = Some v -> truthy v = false -> latency d = "0ms")
  /\ (forall v, opts !! 1%nat = Some v -> truthy v = false -> bandwidth d = VNone)
  /\ (forall v, opts !! 2%nat = Some v -> truthy v = false -> weight d = VInt 1)
  /\ (forall v, opts !! 2%nat = Some v -> truthy v = true -> weight d = v).
Proof.
  intros Hd. apply parse_link_fields in Hd as (Hl & Hb & Hw).
  unfold given in *; simpl in *.
  repeat split; intros v Hv Ht; rewrite Hv, Ht in *; assumption.
Qed.

(** C9.  When the smaller endpoint has a first character other than
    ['h'], the link is accepted, whatever the other endpoint is: the
    assertion on [node2] is not reached. *)
Theorem non_host_node1_accepted (a b : string) (opts : list value)
    (n1 : string) (c : ascii) :
  (n1 = a /\ (a <=? b)%string = true \/ n1 = b /\ (b <=? a)%string = true) ->
  String.get 0 n1 = Some c ->
  c <> "h"%char ->
  exists d, parse_link (LinkDesc a b opts) = inr d /\ node1 d = n1.
Proof.
  intros Hn1 Hc Hh.
  assert (Hcmp : n1 = match String.compare a b with Gt => b | _ => a end).
  { unfold String.leb in Hn1.
    destruct Hn1 as [[-> H1]|[-> H1]].
    - destruct (String.compare a b); done.
    - destruct (String.compare a b) eqn:Hab; try done.
      + by apply String.compare_eq_iff in Hab.
      + rewrite (String.compare_antisym b a), Hab in H1. done. }
  pose proof (parse_link_accepts (LinkDesc a b opts)) as Hacc.
  simpl in Hacc. rewrite <- Hcmp, Hc in Hacc.
  apply Ascii.eqb_neq in Hh. rewrite Hh in Hacc.
  destruct Hacc as [d Hd]. exists d. split; [exact Hd|].
  apply parse_link_nodes in Hd. simpl in Hd.
  destruct (String.compare a b); simplify_eq; done.
Qed.

End LinkClaims.

Lemma parse_links_endpoint_order_witness :
  @parse_links scalar_python
    [LinkDesc "s1" "s2" []; LinkDesc "s2" "h1" [VInt 5]; LinkDesc "h2" "s1" []]
  = inr [LinkDict "s1" "s2" "0ms" VNone (VInt 1);
         LinkDict "h1" "s2" "5ms" VNone (VInt 1);
         LinkDict "h2" "s1" "0ms" VNone (VInt 1)]
  /\ exists dpre d dpost,
      [LinkDict "s1" "s2" "0ms" VNone (VInt 1);
       LinkDict "h1" "s2" "5ms" VNone (VInt 1);
       LinkDict "h2" "s1" "0ms" VNone (VInt 1)] = (dpre ++ d :: dpost)%list
      /\ Forall2 (fun l r => @parse_link scalar_python l = inr r)
           [LinkDesc "s1" "s2" []] dpre
      /\ Forall2 (fun l r => @parse_link scalar_python l = inr r)
           [LinkDesc "h2" "s1" []] dpost
      /\ @parse_links scalar_python
           [LinkDesc "s1" "s2" []; LinkDesc "h1" "s2" [VInt 5]; LinkDesc "h2" "s1" []]
         = inr (dpre ++ d :: dpost)%list
      /\ (node1 d <=? node2 d)%string = true
      /\ (node1 d = "s2" /\ node2 d = "h1" \/ node1 d = "h1" /\ node2 d = "s2").
Proof.
  split; [vm_compute; reflexivity|].
  apply (proj1 (proj2 (@parse_links_endpoint_order scalar_python
                         [LinkDesc "s1" "s2" []] [LinkDesc "h2" "s1" []]
                         "s2" "h1" [VInt 5]))).
  vm_compute. reflexivity.
Defined.

Lemma falsy_option_keeps_default_witness :
  let d := LinkDict "s1" "s2" "0ms" VNone (VInt 5) in
  @parse_link scalar_python (LinkDesc "s1" "s2" [VStr ""; VNone; VInt 5]) = inr d
  /\ latency d = "0ms" /\ bandwidth d = VNone /\ weight d = VInt 5.
Proof.
  pose proof (@falsy_option_keeps_default scalar_python "s1" "s2"
                [VStr ""; VNone; VInt 5] _ eq_refl) as (Hl & Hb & _ & Hw).
  split; [reflexivity|]. split; [|split].
  - apply (Hl (VStr "")); reflexivity.
  - apply (Hb VNone); reflexivity.
  - apply (Hw (VInt 5)); reflexivity.
Defined.

Lemma non_host_node1_accepted_witness :
  exists d, @parse_link scalar_python (LinkDesc "s2" "a1" []) = inr d /\ node1 d = "a1".
Proof.
  apply (@non_host_node1_accepted scalar_python "s2" "a1" [] "a1" "a"%char).
  - right. split; reflexivity.
  - reflexivity.
  - discriminate.
Defined.

(** ** Computations *)

Section MonadFacts.

Context {A B : Type}.

Lemma bind_result_inr (m : M A) (k : A -> M B) (w : World) (b : B) :
  result (bind m k w) = inr b ->
  exists a, result (m w) = inr a /\ result (k a (world (m w))) = inr b.
Proof.
  unfold bind. destruct (m w) as [[e|a] w1 t1]; simpl; [discriminate|].
  destruct (k a w1) as [r w2 t2] eqn:Hk; simpl. intros ->.
  exists a. by rewrite Hk.
Qed.

Lemma bind_ok (m : M A) (k : A -> M B) (w : World) (a : A) :
  result (m w) = inr a ->
  result (bind m k w) = result (k a (world (m w)))
  /\ world (bind m k w) = world (k a (world (m w)))
  /\ trace (bind m k w) = (trace (m w) ++ trace (k a (world (m w))))%list.
Proof.
  unfold bind. destruct (m w) as [r w1 t1]; simpl. intros ->.
  destruct (k a w1); simpl. auto.
Qed.

Lemma bind_raised (m : M A) (k : A -> M B) (w : World) (e : error) :
  result (m w) = inl e ->
  result (bind m k w) = inl e /\ trace (bind m k w) = trace (m w).
Proof. unfold bind. destruct (m w) as [r w1 t1]; simpl. intros ->. auto. Qed.

Lemma bind_trace_elem (m : M A) (k : A -> M B) (w : World) (e : event) :
  e ∈ trace (bind m k w) ->
  e ∈ trace (m w)
  \/ exists a, result (m w) = inr a /\ e ∈ trace (k a (world (m w))).
Proof.
  unfold bind. destruct (m w) as [[x|a] w1 t1]; simpl; [auto|].
  destruct (k a w1) as [r w2 t2] eqn:Hk; simpl.
  rewrite elem_of_app. intros [?|?]; [auto|].
  right. exists a. by rewrite Hk.
Qed.

End MonadFacts.

(** A computation whose outcome is known continues with it. *)
Lemma bind_run {A B} (m : M A) (k : A -> M B) (w w1 : World) (a : A) (t1 : list event) :
  m w = Outcome (inr a) w1 t1 ->
  bind m k w = Outcome (result (k a w1)) (world (k a w1)) (t1 ++ trace (k a w1)).
Proof. unfold bind. intros ->. by destruct (k a w1). Qed.

(** One step of a run: the first computation of the goal's [bind] ends
    in the world [w'] with the value [a] and the events [t]. *)
Ltac run_to w' a t tac :=
  rewrite (bind_run _ _ _ w' a t) by tac; cbn [result trace world].

Lemma for_each_trace_elem {A} (l : list A) (body : A -> M unit) (w : World) (e : event) :
  e ∈ trace (for_each l body w) ->
  exists x w', x ∈ l /\ e ∈ trace (body x w').
Proof.
  revert w. induction l as [|x l IH]; intros w; simpl.
  - unfold ret; simpl. by intros ?%elem_of_nil.
  - intros [He|(a & _ & He)]%bind_trace_elem.
    + exists x, w. split; [left|done].
    + destruct (IH _ He) as (y & w' & Hy & He'). exists y, w'.
      split; [by right|done].
Qed.

(** When the loop completes, every iteration has completed, and what it
    did is part of what the loop did. *)
Lemma for_each_ok_iter {A} (l : list A) (body : A -> M unit) (w : World) (x : A) :
  result (for_each l body w) = inr tt ->
  x ∈ l ->
  exists w', result (body x w') = inr tt
             /\ forall e, e ∈ trace (body x w') -> e ∈ trace (for_each l body w).
Proof.
  revert w. induction l as [|y l IH]; intros w Hok Hx; [by apply elem_of_nil in Hx|].
  simpl in Hok. destruct (bind_result_inr _ _ _ _ Hok) as ([] & Hy & Hrest).
  simpl. destruct (bind_ok _ (fun _ => for_each l body) _ _ Hy) as (_ & _ & ->).
  apply elem_of_cons in Hx as [->|Hx].
  - exists w. split; [done|]. intros e He. apply elem_of_app. by left.
  - destruct (IH _ Hrest Hx) as (w' & Hok' & Hsub).
    exists w'. split; [done|]. intros e He. apply elem_of_app. right. by apply Hsub.
Qed.

(** ** Host provisioning *)

Section HostFacts.

Context `{!IpAddress}.

(** What one iteration of the inner loop does, case by case. *)
Lemma arp_same_switch_spec (topo : Topo) (a : string) (i : nat) (swn N c : string)
    (w : World) :
  let o := arp_same_switch topo a i swn N c w in
  world o = w /\
  if decide (c = a) then result o = inr tt /\ trace o = []
  else match hosts_info topo !! c with
       | None => result o = inl (KeyError c) /\ trace o = []
       | Some ic =>
           if decide (sw ic = swn) then
             match network_compressed (cidr_text (ip ic) (mask ic)) with
             | None => result o = inl (ValueError (cidr_text (ip ic) (mask ic)))
                       /\ trace o = []
             | Some N' =>
                 result o = inr tt /\
                 trace o = if decide (N = N')
                           then [EvCmd a (Arp (intf_name (w_intfs w i)) (ip ic) (mac ic))]
                           else []
             end
           else result o = inr tt /\ trace o = []
       end.
Proof.
  unfold arp_same_switch, info_of, ip_network.
  destruct (decide (c = a)); [done|].
  destruct (hosts_info topo !! c) as [ic|]; [|done].
  unfold bind; simpl.
  destruct (decide (sw ic = swn)); [|done].
  destruct (network_compressed _); simpl; [|done].
  destruct (decide (N = _)); done.
Qed.

Lemma arp_same_switch_world (topo : Topo) (a : string) (i : nat) (swn N c : string)
    (w : World) :
  world (arp_same_switch topo a i swn N c w) = w.
Proof. apply (arp_same_switch_spec topo a i swn N c w). Qed.

(** Every event of the inner loop is an entry for another host of the
    same switch and the same network. *)
Lemma set_arp_rules_trace (topo : Topo) (a : string) (i : nat) (swn N : string)
    (w : World) (e : event) :
  e ∈ trace (set_arp_rules topo a i swn N w) ->
  exists c ic iface,
    c ∈ topo_hosts topo /\ c <> a /\ hosts_info topo !! c = Some ic
    /\ sw ic = swn
    /\ network_compressed (cidr_text (ip ic) (mask ic)) = Some N
    /\ e = EvCmd a (Arp iface (ip ic) (mac ic)).
Proof.
  intros (c & w' & Hc & He)%for_each_trace_elem.
  pose proof (arp_same_switch_spec topo a i swn N c w') as [_ Hs].
  destruct (decide (c = a)).
  { destruct Hs as [_ Ht]. rewrite Ht in He. by apply elem_of_nil in He. }
  destruct (hosts_info topo !! c) as [ic|] eqn:Hic.
  2:{ destruct Hs as [_ Ht]. rewrite Ht in He. by apply elem_of_nil in He. }
  destruct (decide (sw ic = swn)).
  2:{ destruct Hs as [_ Ht]. rewrite Ht in He. by apply elem_of_nil in He. }
  destruct (network_compressed _) as [N'|] eqn:HN'.
  2:{ destruct Hs as [_ Ht]. rewrite Ht in He. by apply elem_of_nil in He. }
  destruct Hs as [_ Ht]. rewrite Ht in He.
  destruct (decide (N = N')) as [->|]; [|by apply elem_of_nil in He].
  apply list_elem_of_singleton in He. eauto 10.
Qed.

(** When the inner loop completes, a host of the same switch and the
    same network has had its entry installed. *)
Lemma set_arp_rules_installs (topo : Topo) (a : string) (i : nat) (swn N : string)
    (w : World) (c : string) (ic : HostInfo) :
  result (set_arp_rules topo a i swn N w) = inr tt ->
  c ∈ topo_hosts topo -> c <> a ->
  hosts_info topo !! c = Some ic -> sw ic = swn ->
  exists N', network_compressed (cidr_text (ip ic) (mask ic)) = Some N'
    /\ (N = N' -> exists iface,
          EvCmd a (Arp iface (ip ic) (mac ic)) ∈ trace (set_arp_rules topo a i swn N w)).
Proof.
  intros Hok Hc Hne Hic Hsw.
  destruct (for_each_ok_iter _ _ _ c Hok Hc) as (w' & Hok' & Hsub).
  pose proof (arp_same_switch_spec topo a i swn N c w') as [_ Hs].
  destruct (decide (c = a)); [done|]. rewrite Hic in Hs.
  destruct (decide (sw ic = swn)); [|done].
  destruct (network_compressed _) as [N'|]; [|destruct Hs; congruence].
  exists N'. split; [done|]. intros <-. destruct Hs as [_ Ht].
  destruct (decide (N = N)); [|done].
  eexists. apply Hsub. rewrite Ht. apply list_elem_of_singleton. reflexivity.
Qed.

End HostFacts.

Section HostRun.

Context `{!IpAddress}.

(** The run of [program_host] up to the default route: nothing is done
    before the interface is renamed, and the five calls follow
    without a failure in between. *)
Lemma program_host_gateway (topo : Topo) (net : gmap string Node) (a : string)
    (w : World) (h : Node) (p : Z) (i : nat) (rest : list (Z * nat))
    (link : nat * nat) (n : Z) :
  net !! a = Some h ->
  intfs h = (p, i) :: rest ->
  intf_link (w_intfs w i) = Some link ->
  py_int (slice_from_1 a) = Some n ->
  exists d, defaultIntf h = Some d /\
    let w1 := renamed w d (a +:+ "-eth0") in
    let iface := intf_name (w_intfs w1 i) in
    let sw_iface := if decide (fst link <> i) then fst link else snd link in
    let o := program_host topo net a w in
    result o = result (seeding topo h a i w1)
    /\ trace o =
       ([ EvRename a d (a +:+ "-eth0");
          EvCmd a (Arp iface (sw_ip_of n) (intf_mac (w_intfs w1 sw_iface)));
          EvCmd a (EthtoolOffload iface);
          EvCmd a (IpRouteAdd (sw_ip_of n) iface);
          EvSetDefaultRoute a ("via " +:+ sw_ip_of n) ]
        ++ trace (seeding topo h a i w1))%list.
Proof.
  intros Hh Hi Hl Hn.
  assert (exists d, defaultIntf h = Some d) as [d Hd].
  { unfold defaultIntf. rewrite Hi. eauto. }
  exists d. split; [done|]. intros w1 iface sw_iface o. subst o.
  unfold program_host.
  run_to w h (@nil event) ltac:(unfold net_get; by rewrite Hh).
  run_to w i (@nil event) ltac:(by rewrite Hi).
  run_to w link (@nil event) ltac:(unfold link_of, ask, bind; simpl; by rewrite Hl).
  run_to w n (@nil event) ltac:(by rewrite Hn).
  run_to w d (@nil event) ltac:(by rewrite Hd).
  run_to w1 tt [EvRename a d (a +:+ "-eth0")] ltac:(done).
  run_to w1 iface (@nil event) ltac:(done).
  run_to w1 (intf_mac (w_intfs w1 sw_iface)) (@nil event) ltac:(done).
  run_to w1 tt [EvCmd a (Arp iface (sw_ip_of n) (intf_mac (w_intfs w1 sw_iface)))]
         ltac:(done).
  run_to w1 iface (@nil event) ltac:(done).
  run_to w1 tt [EvCmd a (EthtoolOffload iface)] ltac:(done).
  run_to w1 iface (@nil event) ltac:(done).
  run_to w1 tt [EvCmd a (IpRouteAdd (sw_ip_of n) iface)] ltac:(done).
  run_to w1 tt [EvSetDefaultRoute a ("via " +:+ sw_ip_of n)] ltac:(done).
  simpl. done.
Qed.

(** Otherwise the run stops before it has done anything. *)
Lemma program_host_cases (topo : Topo) (net : gmap string Node) (a : string)
    (w : World) :
  (trace (program_host topo net a w) = []
   /\ exists e, result (program_host topo net a w) = inl e)
  \/ exists h p i rest link n,
      net !! a = Some h /\ intfs h = (p, i) :: rest
      /\ intf_link (w_intfs w i) = Some link
      /\ py_int (slice_from_1 a) = Some n.
Proof.
  destruct (net !! a) as [h|] eqn:Hh.
  2:{ left. unfold program_host, net_get, bind. rewrite Hh. simpl. eauto. }
  destruct (intfs h) as [|[p i] rest] eqn:Hi.
  { left. unfold program_host, net_get, lift, bind. rewrite Hh; simpl.
    rewrite Hi; simpl. eauto. }
  destruct (intf_link (w_intfs w i)) as [link|] eqn:Hl.
  2:{ left. unfold program_host, net_get, link_of, lift, ask, bind.
      rewrite Hh; simpl. rewrite Hi; simpl. rewrite Hl; simpl. eauto. }
  destruct (py_int (slice_from_1 a)) as [n|] eqn:Hn.
  2:{ left. unfold program_host, net_get, link_of, lift, ask, ret, bind.
      rewrite Hh; simpl. rewrite Hi; simpl. rewrite Hl; simpl.
      rewrite Hn; simpl. eauto. }
  right. eauto 10.
Qed.

(** The seeding part, case by case. *)
Lemma seeding_spec (topo : Topo) (h : Node) (a : string) (i : nat) (w : World) :
  let o := seeding topo h a i w in
  match hosts_info topo !! a with
  | None => result o = inl (KeyError a) /\ trace o = []
  | Some ia =>
      match network_compressed (cidr_text (IP h) (mask ia)) with
      | None => result o = inl (ValueError (cidr_text (IP h) (mask ia)))
                /\ trace o = []
      | Some N =>
          result o = result (set_arp_rules topo a i (sw ia) N w)
          /\ trace o = trace (set_arp_rules topo a i (sw ia) N w)
      end
  end.
Proof.
  unfold seeding, info_of, ip_network, bind, ret, raise.
  destruct (hosts_info topo !! a) as [ia|]; simpl; [|done].
  destruct (network_compressed _); simpl; [|done].
  destruct (set_arp_rules _ _ _ _ _ _); done.
Qed.

End HostRun.

Example ipv4_same_network :
  ipv4_network_compressed "10.0.1.1/24" = Some "10.0.1.0/24"
  /\ ipv4_network_compressed "10.0.1.2/24" = Some "10.0.1.0/24"
  /\ ipv4_network_compressed "10.0.2.3/24" = Some "10.0.2.0/24"
  /\ ipv4_network_compressed "10.0.1.1/33" = None.
Proof. vm_compute. auto. Qed.

Example parse_link_samples :
  @parse_link scalar_python (LinkDesc "s2" "s1" [VInt 3; VInt 10; VInt 2])
  = inr (LinkDict "s1" "s2" "3ms" (VInt 10) (VInt 2))
  /\ @parse_link scalar_python (LinkDesc "h1" "s1" [VStr "2s"])
     = inr (LinkDict "h1" "s1" "2s" VNone (VInt 1))
  /\ @parse_link scalar_python (LinkDesc "s1" "s2" [VStr ""; VNone; VInt 5])
     = inr (LinkDict "s1" "s2" "0ms" VNone (VInt 5))
  /\ @parse_link scalar_python (LinkDesc "h1" "h2" [])
     = inl (AssertionError "Hosts should be connected to switches, not h2")
  /\ @parse_link scalar_python (LinkDesc "" "s1" []) = inl IndexError.
Proof. vm_compute. auto. Qed.

Example py_int_samples :
  py_int (slice_from_1 "h7") = Some 7 /\ py_int " +12 " = Some 12
  /\ py_int "-3" = Some (-3) /\ py_int "07" = Some 7
  /\ py_int "" = None /\ py_int "x" = None /\ py_int "1 2" = None
  /\ sw_ip_of 7 = "10.0.7.254" /\ sw_ip_of (-3) = "10.0.-3.254".
Proof. vm_compute. auto 10. Qed.

Example lab_init :
  result (@__init__ scalar_python (lab_backend lab_conf lab_topo)
            "p4app.json" "log" "pcap" true false lab_world)
  = inr (lab_app lab_conf).
Proof. vm_compute. reflexivity. Qed.

Example lab_program_hosts :
  let o := @program_hosts ipv4 lab_topo lab_nodes lab_world in
  result o = inr tt
  /\ trace o =
     [ EvRename "h1" 1 "h1-eth0";
       EvCmd "h1" (Arp "h1-eth0" "10.0.1.254" "00:01:0a:00:01:01");
       EvCmd "h1" (EthtoolOffload "h1-eth0");
       EvCmd "h1" (IpRouteAdd "10.0.1.254" "h1-eth0");
       EvSetDefaultRoute "h1" "via 10.0.1.254";
       EvCmd "h1" (Arp "h1-eth0" "10.0.1.2" "00:00:00:00:01:02");
       EvRename "h2" 2 "h2-eth0";
       EvCmd "h2" (Arp "h2-eth0" "10.0.2.254" "00:01:0a:00:01:02");
       EvCmd "h2" (EthtoolOffload "h2-eth0");
       EvCmd "h2" (IpRouteAdd "10.0.2.254" "h2-eth0");
       EvSetDefaultRoute "h2" "via 10.0.2.254";
       EvCmd "h2" (Arp "h2-eth0" "10.0.1.1" "00:00:00:00:01:01");
       EvRename "h3" 3 "h3-eth0";
       EvCmd "h3" (Arp "h3-eth0" "10.0.3.254" "00:01:0a:00:02:03");
       EvCmd "h3" (EthtoolOffload "h3-eth0");
       EvCmd "h3" (IpRouteAdd "10.0.3.254" "h3-eth0");
       EvSetDefaultRoute "h3" "via 10.0.3.254" ].
Proof. vm_compute. auto. Qed.

Section HostClaims.

Context `{!IpAddress}.

(** An [arp] entry set on host [a] by an iteration for host [x] is the
    gateway entry of [a], or the entry of another host of the list, on
    the switch of [a] and in the network of [a]. *)
Lemma program_host_arp_elem (topo : Topo) (net : gmap string Node) (x : string)
    (w : World) (a iface addr m : string) :
  EvCmd a (Arp iface addr m) ∈ trace (program_host topo net x w) ->
  x = a /\
  ((exists n, py_int (slice_from_1 a) = Some n /\ addr = sw_ip_of n)
   \/ exists c ic h ia N,
       c ∈ topo_hosts topo /\ c <> a
       /\ hosts_info topo !! c = Some ic /\ hosts_info topo !! a = Some ia
       /\ net !! a = Some h /\ sw ic = sw ia
       /\ network_compressed (cidr_text (IP h) (mask ia)) = Some N
       /\ network_compressed (cidr_text (ip ic) (mask ic)) = Some N
       /\ addr = ip ic /\ m = mac ic).
Proof.
  intros He.
  destruct (program_host_cases topo net x w)
    as [[Ht _]|(h & p & i & rest & link & n & Hh & Hi & Hl & Hn)].
  { rewrite Ht in He. by apply elem_of_nil in He. }
  destruct (program_host_gateway topo net x w h p i rest link n Hh Hi Hl Hn)
    as (d & _ & _ & Ht).
  rewrite Ht in He. clear Ht.
  apply elem_of_app in He as [He|He].
  - repeat (apply elem_of_cons in He as [He|He]; [simplify_eq|]);
      [|by apply elem_of_nil in He].
    split; [done|]. left. eauto.
  - pose proof (seeding_spec topo h x i (renamed w d (x +:+ "-eth0"))) as Hs.
    simpl in Hs.
    destruct (hosts_info topo !! x) as [ix|] eqn:Hix.
    2:{ destruct Hs as [_ Ht]. rewrite Ht in He. by apply elem_of_nil in He. }
    destruct (network_compressed (cidr_text (IP h) (mask ix))) as [N|] eqn:HN.
    2:{ destruct Hs as [_ Ht]. rewrite Ht in He. by apply elem_of_nil in He. }
    destruct Hs as [_ Ht]. rewrite Ht in He.
    apply set_arp_rules_trace in He
      as (c & ic & iface' & Hc & Hne & Hic & Hsw & HN' & Heq).
    simplify_eq. split; [done|]. right. exists c, ic, h, ix, N. done.
Qed.

(** When an iteration of the outer loop completes, the inner loop has
    run to its end in the network of the host. *)
Lemma program_host_ok_inv (topo : Topo) (net : gmap string Node) (a : string)
    (w : World) :
  result (program_host topo net a w) = inr tt ->
  exists h ia N i w1,
    net !! a = Some h /\ hosts_info topo !! a = Some ia
    /\ network_compressed (cidr_text (IP h) (mask ia)) = Some N
    /\ result (set_arp_rules topo a i (sw ia) N w1) = inr tt
    /\ forall e, e ∈ trace (set_arp_rules topo a i (sw ia) N w1) ->
                 e ∈ trace (program_host topo net a w).
Proof.
  intros Hok.
  destruct (program_host_cases topo net a w)
    as [[_ [e He]]|(h & p & i & rest & link & n & Hh & Hi & Hl & Hn)];
    [congruence|].
  destruct (program_host_gateway topo net a w h p i rest link n Hh Hi Hl Hn)
    as (d & _ & Hr & Ht).
  pose proof (seeding_spec topo h a i (renamed w d (a +:+ "-eth0"))) as Hs.
  simpl in Hs. rewrite Hok in Hr.
  destruct (hosts_info topo !! a) as [ia|] eqn:Hia; [|destruct Hs; congruence].
  destruct (network_compressed (cidr_text (IP h) (mask ia))) as [N|] eqn:HN;
    [|destruct Hs; congruence].
  destruct Hs as [Hr' Ht'].
  exists h, ia, N, i, (renamed w d (a +:+ "-eth0")).
  repeat split; try done; [congruence|].
  intros e He. rewrite Ht. apply elem_of_app. right. by rewrite Ht'.
Qed.

(** C3.  For a host whose name ends, after its first character, in the
    integer [n], the iteration sets the static ARP entry, the route
    and the default route on the gateway [10.0.<n>.254], whatever the
    addresses of the topology and of the live network are. *)
Theorem gateway_from_host_suffix (topo : Topo) (net : gmap string Node)
    (host_name : string) (w : World) (h : Node) (p : Z) (i : nat)
    (rest : list (Z * nat)) (link : nat * nat) (n : Z) :
  net !! host_name = Some h ->
  intfs h = (p, i) :: rest ->
  intf_link (w_intfs w i) = Some link ->
  py_int (slice_from_1 host_name) = Some n ->
  let gateway := "10.0." +:+ format_d n +:+ ".254" in
  exists d iface sw_mac later,
    trace (program_host topo net host_name w) =
    ([ EvRename host_name d (host_name +:+ "-eth0");
       EvCmd host_name (Arp iface gateway sw_mac);
       EvCmd host_name (EthtoolOffload iface);
       EvCmd host_name (IpRouteAdd gateway iface);
       EvSetDefaultRoute host_name ("via " +:+ gateway) ] ++ later)%list.
Proof.
  intros Hh Hi Hl Hn gateway.
  destruct (program_host_gateway topo net host_name w h p i rest link n Hh Hi Hl Hn)
    as (d & _ & _ & Ht).
  rewrite Ht. eauto.
Qed.

(** C10.  The iteration of the inner loop that meets the host itself
    does nothing; whatever the run of a host does after the default
    route is an ARP entry of another host of the list on the same
    switch; and when no other host has both the address and the MAC
    of the host, no entry of the host itself is among them. *)
Theorem seeding_skips_own_host (topo : Topo) (net : gmap string Node)
    (a : string) (w : World) :
  (forall i swn N w',
      result (arp_same_switch topo a i swn N a w') = inr tt
      /\ trace (arp_same_switch topo a i swn N a w') = [])
  /\ (forall e, e ∈ drop 5 (trace (program_host topo net a w)) ->
        exists c ic ia iface,
          c ∈ topo_hosts topo /\ c <> a
          /\ hosts_info topo !! c = Some ic /\ hosts_info topo !! a = Some ia
          /\ sw ic = sw ia
          /\ e = EvCmd a (Arp iface (ip ic) (mac ic)))
  /\ (forall ia,
        hosts_info topo !! a = Some ia ->
        (forall c ic, c ∈ topo_hosts topo -> c <> a ->
                      hosts_info topo !! c = Some ic ->
                      ip ic <> ip ia \/ mac ic <> mac ia) ->
        forall iface,
          EvCmd a (Arp iface (ip ia) (mac ia))
            ∉ drop 5 (trace (program_host topo net a w))).
Proof.
  assert (Hlater : forall e, e ∈ drop 5 (trace (program_host topo net a w)) ->
        exists c ic ia iface,
          c ∈ topo_hosts topo /\ c <> a
          /\ hosts_info topo !! c = Some ic /\ hosts_info topo !! a = Some ia
          /\ sw ic = sw ia
          /\ e = EvCmd a (Arp iface (ip ic) (mac ic))).
  { intros e He.
    destruct (program_host_cases topo net a w)
      as [[Ht _]|(h & p & i & rest & link & n & Hh & Hi & Hl & Hn)].
    { rewrite Ht in He. by apply elem_of_nil in He. }
    destruct (program_host_gateway topo net a w h p i rest link n Hh Hi Hl Hn)
      as (d & _ & _ & Ht).
    rewrite Ht in He. simpl in He. clear Ht.
    pose proof (seeding_spec topo h a i (renamed w d (a +:+ "-eth0"))) as Hs.
    simpl in Hs.
    destruct (hosts_info topo !! a) as [ia|] eqn:Hia.
    2:{ destruct Hs as [_ Ht]. rewrite Ht in He. by apply elem_of_nil in He. }
    destruct (network_compressed (cidr_text (IP h) (mask ia))) as [N|].
    2:{ destruct Hs as [_ Ht]. rewrite Ht in He. by apply elem_of_nil in He. }
    destruct Hs as [_ Ht]. rewrite Ht in He.
    apply set_arp_rules_trace in He
      as (c & ic & iface & Hc & Hne & Hic & Hsw & _ & ->).
    exists c, ic, ia, iface. done. }
  split; [|split; [exact Hlater|]].
  - intros i swn N w'.
    pose proof (arp_same_switch_spec topo a i swn N a w') as [_ Hs].
    destruct (decide (a = a)); done.
  - intros ia Hia Huniq iface He.
    apply Hlater in He as (c & ic & ia' & iface' & Hc & Hne & Hic & Hia' & _ & Heq).
    simplify_eq. destruct (Huniq c ic Hc Hne Hic); congruence.
Qed.

(** C2.  After [program_hosts] has run to its end, with the live
    address of each of the two hosts the one of the topology: two
    distinct hosts of the same switch whose address and mask give the
    same network each have the ARP entry of the other; when the
    networks differ, neither has the entry of the other, as long as
    the address of each belongs to no other host and is not the
    gateway address of the other. *)
Theorem same_switch_hosts_arp (topo : Topo) (net : gmap string Node) (w : World)
    (a b : string) (ia ib : HostInfo) (ha hb : Node) :
  result (program_hosts topo net w) = inr tt ->
  a ∈ topo_hosts topo -> b ∈ topo_hosts topo -> a <> b ->
  hosts_info topo !! a = Some ia -> hosts_info topo !! b = Some ib ->
  sw ia = sw ib ->
  net !! a = Some ha -> net !! b = Some hb ->
  IP ha = ip ia -> IP hb = ip ib ->
  let network_a := network_compressed (cidr_text (ip ia) (mask ia)) in
  let network_b := network_compressed (cidr_text (ip ib) (mask ib)) in
  let tr := trace (program_hosts topo net w) in
  (network_a = network_b ->
     (exists iface, EvCmd a (Arp iface (ip ib) (mac ib)) ∈ tr)
     /\ (exists iface, EvCmd b (Arp iface (ip ia) (mac ia)) ∈ tr))
  /\ (network_a <> network_b ->
      (forall c ic, c ∈ topo_hosts topo -> hosts_info topo !! c = Some ic ->
                    (ip ic = ip ia -> c = a) /\ (ip ic = ip ib -> c = b)) ->
      (forall n, py_int (slice_from_1 a) = Some n -> sw_ip_of n <> ip ib) ->
      (forall n, py_int (slice_from_1 b) = Some n -> sw_ip_of n <> ip ia) ->
      (forall iface, EvCmd a (Arp iface (ip ib) (mac ib)) ∉ tr)
      /\ (forall iface, EvCmd b (Arp iface (ip ia) (mac ia)) ∉ tr)).
Proof.
  intros Hok Ha Hb Hab Hia Hib Hsw Hha Hhb Hipa Hipb network_a network_b tr.
  assert (Hpos : forall x y ix iy hx,
    x ∈ topo_hosts topo -> y ∈ topo_hosts topo -> y <> x ->
    hosts_info topo !! x = Some ix -> hosts_info topo !! y = Some iy ->
    sw iy = sw ix -> net !! x = Some hx -> IP hx = ip ix ->
    network_compressed (cidr_text (ip ix) (mask ix))
    = network_compressed (cidr_text (ip iy) (mask iy)) ->
    exists iface, EvCmd x (Arp iface (ip iy) (mac iy)) ∈ tr).
  { intros x y ix iy hx Hx Hy Hyx Hix Hiy Hs Hhx Hipx Hnet.
    destruct (for_each_ok_iter _ _ _ x Hok Hx) as (w' & Hok' & Hsub).
    apply program_host_ok_inv in Hok'
      as (h & ix' & N & i & w1 & Hh & Hix' & HN & Hloop & Hsub').
    simplify_eq. rewrite Hipx in HN.
    destruct (set_arp_rules_installs topo x i (sw ix) N w1 y iy Hloop Hy Hyx Hiy Hs)
      as (N' & HN' & Hin).
    rewrite HN, HN' in Hnet. simplify_eq.
    destruct (Hin eq_refl) as [iface Hiface].
    exists iface. apply Hsub, Hsub', Hiface. }
  assert (Hneg : forall x y ix iy hx iface,
    hosts_info topo !! x = Some ix -> hosts_info topo !! y = Some iy ->
    net !! x = Some hx -> IP hx = ip ix ->
    network_compressed (cidr_text (ip ix) (mask ix))
    <> network_compressed (cidr_text (ip iy) (mask iy)) ->
    (forall c ic, c ∈ topo_hosts topo -> hosts_info topo !! c = Some ic ->
                  ip ic = ip iy -> c = y) ->
    (forall n, py_int (slice_from_1 x) = Some n -> sw_ip_of n <> ip iy) ->
    EvCmd x (Arp iface (ip iy) (mac iy)) ∉ tr).
  { intros x y ix iy hx iface Hix Hiy Hhx Hipx Hnet Huniq Hgw He.
    apply for_each_trace_elem in He as (z & w' & _ & He).
    apply program_host_arp_elem in He
      as [-> [(n & Hn & Heq)|(c & ic & h & ix' & N & Hc & _ & Hic & Hix' & Hh
                              & _ & HN & HN' & Heq & _)]].
    - by apply (Hgw n).
    - simplify_eq. assert (c = y) by eauto. simplify_eq.
      apply Hnet. congruence. }
  split.
  - intros Hnet. split.
    + apply (Hpos a b ia ib ha); auto.
    + apply (Hpos b a ib ia hb); auto.
  - intros Hnet Huniq Hgwa Hgwb. split; intros iface.
    + apply (Hneg a b ia ib ha); auto.
      intros c ic Hc Hic. by apply (Huniq c ic).
    + apply (Hneg b a ib ia hb); auto.
      intros c ic Hc Hic. by apply (Huniq c ic).
Qed.

End HostClaims.

(** The members of a list given in full, one by one. *)
Ltac each_member H :=
  repeat (apply elem_of_cons in H as [->|H]); [..|by apply elem_of_nil in H].

Lemma gateway_from_host_suffix_witness :
  py_int (slice_from_1 "h7") = Some 7
  /\ exists d iface sw_mac later,
      trace (@program_host ipv4 lab_topo
               (<["h7" := MkNode [(0, 1%nat)] "192.168.5.9" None]> ∅) "h7" lab_world)
      = ([ EvRename "h7" d "h7-eth0";
           EvCmd "h7" (Arp iface "10.0.7.254" sw_mac);
           EvCmd "h7" (EthtoolOffload iface);
           EvCmd "h7" (IpRouteAdd "10.0.7.254" iface);
           EvSetDefaultRoute "h7" "via 10.0.7.254" ] ++ later)%list.
Proof.
  split; [reflexivity|].
  apply (@gateway_from_host_suffix ipv4 lab_topo
           (<["h7" := MkNode [(0, 1%nat)] "192.168.5.9" None]> ∅) "h7" lab_world
           (MkNode [(0, 1%nat)] "192.168.5.9" None) 0 1%nat [] (1, 11)%nat 7);
    reflexivity.
Defined.

Lemma seeding_skips_own_host_witness :
  hosts_info lab_topo !! "h1" = Some (MkHostInfo "s1" "10.0.1.1" "00:00:00:00:01:01" 24)
  /\ EvCmd "h1" (Arp "h1-eth0" "10.0.1.1" "00:00:00:00:01:01")
       ∉ drop 5 (trace (@program_host ipv4 lab_topo lab_nodes "h1" lab_world)).
Proof.
  split; [reflexivity|].
  apply (proj2 (proj2 (@seeding_skips_own_host ipv4 lab_topo lab_nodes "h1" lab_world))
           (MkHostInfo "s1" "10.0.1.1" "00:00:00:00:01:01" 24)).
  - reflexivity.
  - intros c ic Hc Hne Hic. simpl in Hc. each_member Hc.
    + done.
    + vm_compute in Hic. injection Hic as <-. left. discriminate.
    + vm_compute in Hic. injection Hic as <-. left. discriminate.
Defined.

Lemma same_switch_hosts_arp_witness :
  result (@program_hosts ipv4 lab_topo lab_nodes lab_world) = inr tt
  /\ (exists iface,
        EvCmd "h1" (Arp iface "10.0.1.2" "00:00:00:00:01:02")
          ∈ trace (@program_hosts ipv4 lab_topo lab_nodes lab_world))
  /\ (exists iface,
        EvCmd "h2" (Arp iface "10.0.1.1" "00:00:00:00:01:01")
          ∈ trace (@program_hosts ipv4 lab_topo lab_nodes lab_world))
  /\ (EvCmd "h1" (Arp "h1-eth0" "10.0.2.3" "00:00:00:00:02:03")
        ∉ trace (@program_hosts ipv4 lab_topo lab_nodes lab_world))
  /\ (EvCmd "h3" (Arp "h3-eth0" "10.0.1.1" "00:00:00:00:01:01")
        ∉ trace (@program_hosts ipv4 lab_topo lab_nodes lab_world)).
Proof.
  split; [vm_compute; reflexivity|].
  assert (Hsame :
    (exists iface,
        EvCmd "h1" (Arp iface "10.0.1.2" "00:00:00:00:01:02")
          ∈ trace (@program_hosts ipv4 lab_topo lab_nodes lab_world))
    /\ (exists iface,
        EvCmd "h2" (Arp iface "10.0.1.1" "00:00:00:00:01:01")
          ∈ trace (@program_hosts ipv4 lab_topo lab_nodes lab_world))).
  { apply (@same_switch_hosts_arp ipv4 lab_topo lab_nodes lab_world "h1" "h2"
             (MkHostInfo "s1" "10.0.1.1" "00:00:00:00:01:01" 24)
             (MkHostInfo "s1" "10.0.1.2" "00:00:00:00:01:02" 24)
             (MkNode [(0, 1%nat)] "10.0.1.1" None)
             (MkNode [(0, 2%nat)] "10.0.1.2" None));
      try (vm_compute; reflexivity); try discriminate.
    - simpl. apply elem_of_cons. by left.
    - simpl. apply elem_of_cons. right. apply elem_of_cons. by left. }
  destruct Hsame as [H12 H21]. split; [exact H12|]. split; [exact H21|].
  assert (Hdiffer :
    (forall iface, EvCmd "h1" (Arp iface "10.0.2.3" "00:00:00:00:02:03")
       ∉ trace (@program_hosts ipv4 lab_topo lab_nodes lab_world))
    /\ (forall iface, EvCmd "h3" (Arp iface "10.0.1.1" "00:00:00:00:01:01")
       ∉ trace (@program_hosts ipv4 lab_topo lab_nodes lab_world))).
  { apply (@same_switch_hosts_arp ipv4 lab_topo lab_nodes lab_world "h1" "h3"
             (MkHostInfo "s1" "10.0.1.1" "00:00:00:00:01:01" 24)
             (MkHostInfo "s1" "10.0.2.3" "00:00:00:00:02:03" 24)
             (MkNode [(0, 1%nat)] "10.0.1.1" None)
             (MkNode [(0, 3%nat)] "10.0.2.3" None));
      try (vm_compute; reflexivity); try discriminate.
    - simpl. apply elem_of_cons. by left.
    - simpl. do 2 (apply elem_of_cons; right). apply elem_of_cons. by left.
    - intros c ic Hc Hic. simpl in Hc. each_member Hc;
        vm_compute in Hic; injection Hic as <-; split; intros; done.
    - intros n Hn. vm_compute in Hn. injection Hn as <-. vm_compute. discriminate.
    - intros n Hn. vm_compute in Hn. injection Hn as <-. vm_compute. discriminate. }
  destruct Hdiffer as [H13 H31]. split; [apply H13|apply H31].
Defined.

(** ** The runner *)

Section Never.

Context (p : event -> bool).

Lemma never_ret {A} (a : A) : never p (ret a).
Proof. intros w e He. by apply elem_of_nil in He. Qed.

Lemma never_raise {A} (x : error) : never p (@raise A x).
Proof. intros w e He. by apply elem_of_nil in He. Qed.

Lemma never_lift {A} (r : error + A) : never p (lift r).
Proof. intros w e He. by apply elem_of_nil in He. Qed.

Lemma never_ask : never p ask.
Proof. intros w e He. by apply elem_of_nil in He. Qed.

Lemma never_put (w' : World) : never p (put w').
Proof. intros w e He. by apply elem_of_nil in He. Qed.

Lemma never_emit (ev : event) : p ev = false -> never p (emit ev).
Proof. intros Hev w e He. apply list_elem_of_singleton in He. by subst. Qed.

Lemma never_bind {A B} (m : M A) (k : A -> M B) :
  never p m -> (forall a, never p (k a)) -> never p (bind m k).
Proof.
  intros Hm Hk w e [He|(a & _ & He)]%bind_trace_elem; [by apply (Hm w)|].
  by apply (Hk a (world (m w))).
Qed.

Lemma never_when (b : bool) (m : M unit) : never p m -> never p (when b m).
Proof. destruct b; [done|]. intros _. apply never_ret. Qed.

Lemma never_for_each {A} (l : list A) (body : A -> M unit) :
  (forall x, never p (body x)) -> never p (for_each l body).
Proof.
  intros Hbody w e (x & w' & _ & He)%for_each_trace_elem. by apply (Hbody x w').
Qed.

End Never.

(** The computations are taken apart down to their events; [tac] goes
    first, for the parts that have a lemma of their own. *)
Ltac never_with tac :=
  repeat first
    [ tac
    | apply never_ret | apply never_raise | apply never_lift | apply never_ask
    | apply never_put | apply never_emit; reflexivity
    | apply never_when | apply never_for_each; intros ?
    | apply never_bind; [|intros ?]
    | match goal with
      | |- never _ (if ?b then _ else _) => destruct b
      | |- never _ (match ?x with _ => _ end) => destruct x
      | |- never _ (let '(_, _) := ?x in _) => destruct x
      end ].

Section RunnerFacts.

Context `{!Python, !IpAddress, !Backend}.

Lemma never_ensure_dir (p : event -> bool) (path : string) :
  p (EvMkdir path) = false -> never p (ensure_dir path).
Proof.
  intros Hp. unfold ensure_dir, mkdir, isdir, exists_path.
  never_with ltac:(apply never_emit; exact Hp).
Qed.

Lemma never_custom (p : event -> bool) (c : Conf) (key : string) (default : builder) :
  (forall path, p (EvSysPath path) = false) -> never p (custom_or_default c key default).
Proof.
  intros Hp. unfold custom_or_default, load_custom_object.
  never_with ltac:(apply never_emit; apply Hp).
Qed.

(** [__init__] makes no call into the emulator. *)
Lemma no_net_init (conf_file log_dir pcap_dir : string) (cli_enabled quiet : bool) :
  never is_net_call (__init__ conf_file log_dir pcap_dir cli_enabled quiet).
Proof.
  unfold __init__, init_configuration.
  never_with ltac:(first [apply never_ensure_dir; reflexivity
                         | apply never_custom; reflexivity]).
Qed.

(** What [init_configuration] returns is the configuration that was
    loaded. *)
Lemma init_configuration_conf (conf_file log_dir pcap_dir : string) (w : World)
    (c : Conf) (bmv2_exe : string) (log_enabled pcap_dump : value) :
  result (init_configuration conf_file log_dir pcap_dir w)
  = inr (c, bmv2_exe, log_enabled, pcap_dump) ->
  load_conf conf_file = inr c.
Proof.
  intros Hok. unfold init_configuration in Hok.
  apply bind_result_inr in Hok as (w0 & Hw0 & Hok). simpl in Hw0, Hok.
  destruct (negb _); [discriminate|].
  apply bind_result_inr in Hok as (c' & Hc & Hok). simpl in Hc.
  apply bind_result_inr in Hok as ([] & _ & Hok).
  apply bind_result_inr in Hok as ([] & _ & Hok).
  apply bind_result_inr in Hok as ([] & _ & Hok).
  simpl in Hok. by simplify_eq.
Qed.

(** A path that no file takes and that [mkdir] does not refuse is seen
    to, and no path is taken by a file afterwards that was not before. *)
Lemma ensure_dir_ok (path : string) (w : World) :
  w_paths w !! path <> Some false ->
  mkdir_raises path = None ->
  result (ensure_dir path w) = inr tt
  /\ forall p, w_paths w !! p <> Some false ->
               w_paths (world (ensure_dir path w)) !! p <> Some false.
Proof.
  intros Hp Hmk. unfold ensure_dir, isdir, exists_path, mkdir. rewrite Hmk.
  unfold bind, ask, put, emit, ret.
  simpl. destruct (w_paths w !! path) as [[]|] eqn:Hlook; simpl; [done|done|].
  split; [done|]. intros p Hq.
  destruct (decide (p = path)) as [->|Hne].
  - by rewrite lookup_insert_eq.
  - by rewrite lookup_insert_ne.
Qed.

Lemma when_ensure_dir_ok (b : bool) (path : string) (w : World) :
  w_paths w !! path <> Some false ->
  mkdir_raises path = None ->
  result (when b (ensure_dir path) w) = inr tt
  /\ forall p, w_paths w !! p <> Some false ->
               w_paths (world (when b (ensure_dir path) w)) !! p <> Some false.
Proof. destruct b; [apply ensure_dir_ok|done]. Qed.

(** With the configuration file there and loaded, no file in the place
    of a directory and no refusal of [mkdir], [__init__] comes to the
    topology block. *)
Lemma init_configuration_returns (conf_file log_dir pcap_dir : string)
    (w : World) (c : Conf) :
  isfile w conf_file = true ->
  load_conf conf_file = inr c ->
  w_paths w !! log_dir <> Some false -> mkdir_raises log_dir = None ->
  w_paths w !! pcap_dir <> Some false -> mkdir_raises pcap_dir = None ->
  exists bmv2_exe log_enabled pcap_dump,
    result (init_configuration conf_file log_dir pcap_dir w)
    = inr (c, bmv2_exe, log_enabled, pcap_dump).
Proof.
  intros Hfile Hload Hlog Hmklog Hpcap Hmkpcap. unfold init_configuration.
  rewrite (proj1 (bind_ok ask _ w w eq_refl)). cbn [ask world].
  rewrite Hfile. cbn [negb].
  rewrite (proj1 (bind_ok (lift (load_conf conf_file)) _ w c Hload)).
  cbn [lift world].
  rewrite (proj1 (bind_ok (emit _) _ w tt eq_refl)). cbn [emit world].
  destruct (when_ensure_dir_ok
              (truthy (dict_get (conf_items c) "enable_log" (VBool false)))
              log_dir w Hlog Hmklog) as [Hok1 Hkeep1].
  rewrite (proj1 (bind_ok _ _ w tt Hok1)).
  destruct (when_ensure_dir_ok
              (truthy (dict_get (conf_items c) "pcap_dump" (VBool false)))
              pcap_dir _ (Hkeep1 _ Hpcap) Hmkpcap) as [Hok2 _].
  rewrite (proj1 (bind_ok _ _ _ tt Hok2)).
  simpl. eauto.
Qed.

(** Past that point [__init__] raises when the block is missing. *)
Lemma init_without_topology (conf_file log_dir pcap_dir : string)
    (cli_enabled quiet : bool) (w : World) (c : Conf)
    (bmv2_exe : string) (log_enabled pcap_dump : value) :
  result (init_configuration conf_file log_dir pcap_dir w)
  = inr (c, bmv2_exe, log_enabled, pcap_dump) ->
  conf_topology c = None ->
  result (__init__ conf_file log_dir pcap_dir cli_enabled quiet w)
  = inl (Exception (topology_message +:+ conf_str c)).
Proof.
  intros Hread Htopo. unfold __init__.
  rewrite (proj1 (bind_ok _ _ w _ Hread)). by rewrite Htopo.
Qed.

(** The cleaning of [main] returns, and makes no call into the
    emulator. *)
Lemma main_clean_run (args : Args) (w : World) :
  exists w' t,
    when (arg_clean args || arg_only_clean args)
         (sh_rm ("rm -rf " +:+ arg_pcap_dir args) ;;;
          sh_rm ("rm -rf " +:+ arg_log_dir args) ;;;
          sh_rm "rm -f topology.db") w = Outcome (inr tt) w' t
    /\ forall c, EvNet c ∉ t.
Proof.
  destruct (arg_clean args || arg_only_clean args); simpl.
  - eexists _, _. split; [reflexivity|]. intros c Hc. simpl in Hc.
    repeat (apply elem_of_cons in Hc as [Hc|Hc]; [discriminate|]).
    by apply elem_of_nil in Hc.
  - exists w, []. split; [done|]. intros c Hc. by apply elem_of_nil in Hc.
Qed.

(** When [__init__] raises wherever it is run, [main] raises and the
    emulator has not been called. *)
Lemma main_init_raises (args : Args) (w : World) :
  arg_only_clean args = false ->
  (forall w', exists e,
      result (__init__ (arg_config args) (arg_log_dir args) (arg_pcap_dir args)
                   (arg_cli args) (arg_quiet args) w') = inl e) ->
  (exists e, result (main args w) = inl e)
  /\ forall c, EvNet c ∉ trace (main args w).
Proof.
  intros Honly Hinit. unfold main.
  rewrite (bind_run _ _ w w tt [EvCleanup]); [|done]. cbn [result trace].
  destruct (main_clean_run args w) as (w' & t & Hclean & Ht).
  rewrite (bind_run _ _ w w' tt t Hclean). cbn [result trace].
  rewrite Honly. destruct (Hinit w') as [e He].
  destruct (bind_raised _ (fun app => run_app app) _ _ He) as [-> ->].
  split; [eauto|]. intros c Hc.
  apply elem_of_cons in Hc as [Hc|Hc]; [discriminate|].
  apply elem_of_app in Hc as [Hc|Hc]; [by apply (Ht c)|].
  by apply no_net_init in Hc.
Qed.

(** When [__init__] returns, the configuration had its topology
    block, and the links of the block were parsed. *)
Lemma init_ok_inv (conf_file log_dir pcap_dir : string) (cli_enabled quiet : bool)
    (w : World) (app : AppRunner) :
  result (__init__ conf_file log_dir pcap_dir cli_enabled quiet w) = inr app ->
  exists c t,
    load_conf conf_file = inr c /\ conf_topology c = Some t
    /\ parse_links (t_links t) = inr (links app)
    /\ conf app = c /\ hosts app = t_hosts t /\ switches app = t_switches t.
Proof.
  intros Hok. unfold __init__ in Hok.
  apply bind_result_inr in Hok as ([[[c exe] le] pd] & Hread & Hok).
  apply init_configuration_conf in Hread.
  destruct (conf_topology c) as [t|] eqn:Ht; [|discriminate].
  apply bind_result_inr in Hok as (ls & Hls & Hok). simpl in Hls.
  apply bind_result_inr in Hok as ([] & _ & Hok).
  apply bind_result_inr in Hok as (b1 & _ & Hok).
  apply bind_result_inr in Hok as (b2 & _ & Hok).
  apply bind_result_inr in Hok as (b3 & _ & Hok).
  apply bind_result_inr in Hok as (b4 & _ & Hok).
  simpl in Hok. simplify_eq. exists c, t. done.
Qed.

(** A run that only cleans does not come near the emulator. *)
Lemma main_only_clean (args : Args) (w : World) :
  arg_only_clean args = true ->
  forall c, EvNet c ∉ trace (main args w).
Proof.
  intros Honly c. unfold main. rewrite Honly, orb_true_r.
  cbn. intros Hc.
  repeat (apply elem_of_cons in Hc as [Hc|Hc]; [discriminate|]).
  by apply elem_of_nil in Hc.
Qed.

End RunnerFacts.

Section ConstructionClaims.

Context `{!Python, !IpAddress, !Backend}.

(** C6.  With a configuration that has no [topology] block,
    [__init__] raises, and [main] with it, before any call into the
    emulator; when [__init__] comes to the topology block (the
    configuration file is there, and the log and pcap directories are
    seen to without an exception of their own), what it raises is the
    exception of the topology check, whose message starts with
    "topology". *)
Theorem missing_topology_block_fails (args : Args) (w : World) (c : Conf) :
  load_conf (arg_config args) = inr c ->
  conf_topology c = None ->
  let construction :=
    __init__ (arg_config args) (arg_log_dir args) (arg_pcap_dir args)
         (arg_cli args) (arg_quiet args) w in
  (exists e, result construction = inl e)
  /\ (forall call, EvNet call ∉ trace (main args w))
  /\ (arg_only_clean args = false -> exists e, result (main args w) = inl e)
  /\ (forall read,
        result (init_configuration (arg_config args) (arg_log_dir args)
                                   (arg_pcap_dir args) w) = inr read ->
        result construction
        = inl (Exception ("topology to create is not defined in " +:+ conf_str c))).
Proof.
  intros Hload Htopo construction.
  assert (Hfail : forall w', exists e,
    result (__init__ (arg_config args) (arg_log_dir args) (arg_pcap_dir args)
                 (arg_cli args) (arg_quiet args) w') = inl e).
  { intros w'. destruct (result (__init__ _ _ _ _ _ w')) as [e|app] eqn:Hr; [eauto|].
    apply init_ok_inv in Hr as (c' & t & Hload' & Htopo' & _). congruence. }
  split; [exact (Hfail w)|].
  split; [|split].
  - destruct (arg_only_clean args) eqn:Honly.
    + by apply main_only_clean.
    + by apply (main_init_raises args w).
  - intros Honly. by apply (main_init_raises args w).
  - intros [[[c' exe] le] pd] Hread.
    pose proof (init_configuration_conf _ _ _ _ _ _ _ _ Hread) as Hc'.
    assert (c' = c) as -> by congruence.
    by apply (init_without_topology _ _ _ _ _ _ _ exe le pd).
Qed.

(** C4.  A link whose two endpoints both start with ['h'] stops
    [parse_links] with the assertion's error, which names the larger
    endpoint; with such a link in the topology block, [__init__]
    raises, and [main] with it, before any call into the emulator. *)
Theorem host_to_host_link_rejected (a b : string) (opts : list value) :
  String.get 0 a = Some "h"%char ->
  String.get 0 b = Some "h"%char ->
  let link := LinkDesc a b opts in
  (exists n2, (n2 = a \/ n2 = b)
     /\ parse_link link
        = inl (AssertionError ("Hosts should be connected to switches, not " +:+ n2)))
  /\ (forall pre post, exists e, parse_links (pre ++ link :: post) = inl e)
  /\ (forall args w c t,
        load_conf (arg_config args) = inr c ->
        conf_topology c = Some t ->
        link ∈ t_links t ->
        (exists e, result (__init__ (arg_config args) (arg_log_dir args) (arg_pcap_dir args)
                                (arg_cli args) (arg_quiet args) w) = inl e)
        /\ (forall call, EvNet call ∉ trace (main args w))
        /\ (arg_only_clean args = false -> exists e, result (main args w) = inl e)).
Proof.
  intros Ha Hb link.
  assert (Hlink : exists n2, (n2 = a \/ n2 = b)
     /\ parse_link link = inl (AssertionError (host_link_message +:+ n2))).
  { pose proof (parse_link_accepts link) as Hacc. simpl in Hacc.
    destruct (String.compare a b); rewrite ?Ha, ?Hb in Hacc; simpl in Hacc; eauto. }
  assert (Hlist : forall pre post, exists e, parse_links (pre ++ link :: post) = inl e).
  { intros pre post. unfold parse_links. rewrite parse_links_from_app.
    destruct (parse_links_from [] pre) as [e|acc]; [eauto|]. simpl.
    destruct Hlink as (n2 & _ & ->). eauto. }
  split; [exact Hlink|]. split; [exact Hlist|].
  intros args w c t Hload Htopo Hin.
  assert (Hfail : forall w', exists e,
    result (__init__ (arg_config args) (arg_log_dir args) (arg_pcap_dir args)
                 (arg_cli args) (arg_quiet args) w') = inl e).
  { intros w'. destruct (result (__init__ _ _ _ _ _ w')) as [e|app] eqn:Hr; [eauto|].
    apply init_ok_inv in Hr as (c' & t' & Hload' & Htopo' & Hparse & _).
    simplify_eq.
    apply list_elem_of_split in Hin as (pre & post & Hsplit).
    destruct (Hlist pre post) as [e He]. congruence. }
  split; [exact (Hfail w)|]. split.
  - intros call. destruct (arg_only_clean args) eqn:Honly.
    + by apply main_only_clean.
    + by apply (main_init_raises args w).
  - intros Honly. by apply (main_init_raises args w).
Qed.

End ConstructionClaims.

(** ** Switch provisioning *)

Lemma observed_app (port : Z) (t1 t2 : list event) :
  observed port (t1 ++ t2) = (observed port t1 ++ observed port t2)%list.
Proof.
  induction t1 as [|e t1 IH]; [done|].
  destruct e; simpl; try done. case_decide; simpl; by rewrite IH.
Qed.

Lemma observed_entries (port : Z) (entries : list string) :
  observed port (EvEntry port <$> entries) = entries.
Proof.
  induction entries as [|x l IH]; [done|]. simpl.
  case_decide; [|done]. f_equal. exact IH.
Qed.

Lemma observed_other_port (port p : Z) (entries : list string) :
  p <> port -> observed port (EvEntry p <$> entries) = [].
Proof.
  intros Hp. induction entries as [|x l IH]; [done|]. simpl.
  case_decide; [done|exact IH].
Qed.

Section SwitchFacts.

Context `{!Python, !IpAddress, !Backend}.

Lemma add_entries_run (port : Z) (entries : list string) (cli_outfile : option string)
    (cli : value) (w : World) :
  add_entries port entries cli_outfile cli w
  = Outcome (inr tt) w (EvEntry port <$> entries).
Proof.
  unfold add_entries. induction entries as [|x l IH]; [done|].
  simpl. rewrite (bind_run _ _ w w tt [EvEntry port x]); [|done].
  rewrite IH. done.
Qed.

(** One iteration of the loop of [program_switches], case by case. *)
Lemma program_switch_spec (self : AppRunner) (net : Net) (cli : value)
    (sw_name : string) (sw_dict : list (string * value)) (w : World) :
  let o := program_switch self net cli (sw_name, sw_dict) w in
  match dict_lookup "cli_input" sw_dict with
  | None => result o = inr tt /\ trace o = []
  | Some v =>
      match nodes net !! sw_name with
      | None => result o = inl (KeyError sw_name) /\ trace o = []
      | Some node =>
          match thrift_port node with
          | None => result o = inl AttributeError /\ trace o = []
          | Some port =>
              match v with
              | VStr path =>
                  match command_files !! path with
                  | Some entries =>
                      result o = inr tt /\ trace o = EvEntry port <$> entries
                  | None => result o = inl (IOError) /\ trace o = []
                  end
              | _ => result o = inl TypeError /\ trace o = []
              end
          end
      end
  end.
Proof.
  unfold program_switch.
  destruct (dict_lookup "cli_input" sw_dict) as [v|]; [|done].
  unfold net_get. destruct (nodes net !! sw_name) as [node|]; [|done].
  rewrite (bind_run _ _ w w node []); [|done]. cbn [result trace].
  destruct (thrift_port node) as [port|]; [|done].
  rewrite (bind_run _ _ w w port []); [|done]. cbn [result trace].
  unfold read_entries.
  destruct v as [| | |path| |]; try done.
  destruct (command_files !! path) as [entries|]; [|done].
  rewrite (bind_run _ _ w w entries []); [|done]. cbn [result trace].
  by rewrite add_entries_run.
Qed.

(** The endpoint at [port] sees nothing of a loop whose iterations
    all pass it by. *)
Lemma for_each_observed_nil {A} (port : Z) (l : list A) (body : A -> M unit)
    (w : World) :
  (forall x w', x ∈ l -> observed port (trace (body x w')) = []) ->
  observed port (trace (for_each l body w)) = [].
Proof.
  revert w. induction l as [|x l IH]; intros w Hnil; [done|]. simpl.
  destruct (result (body x w)) as [e|[]] eqn:Hx.
  - destruct (bind_raised _ (fun _ => for_each l body) _ _ Hx) as [_ ->].
    apply Hnil. by left.
  - destruct (bind_ok _ (fun _ => for_each l body) _ _ Hx) as (_ & _ & ->).
    rewrite observed_app, Hnil; [|by left]. simpl.
    apply IH. intros y w' Hy. apply Hnil. by right.
Qed.

End SwitchFacts.

Section SwitchClaims.

Context `{!Python, !IpAddress, !Backend}.

(** An iteration for a switch whose endpoint is at another port, if it
    has one at all, shows nothing at [port]. *)
Lemma program_switch_other_port (self : AppRunner) (net : Net) (cli : value)
    (port : Z) (n : string) (d : list (string * value)) (w : World) :
  (forall node, dict_lookup "cli_input" d <> None -> nodes net !! n = Some node ->
                thrift_port node <> Some port) ->
  observed port (trace (program_switch self net cli (n, d) w)) = [].
Proof.
  intros Hother. pose proof (program_switch_spec self net cli n d w) as Hs.
  cbv zeta in Hs.
  destruct (dict_lookup "cli_input" d) as [v|]; [|by destruct Hs as [_ ->]].
  destruct (nodes net !! n) as [node|]; [|by destruct Hs as [_ ->]].
  specialize (Hother node ltac:(done) eq_refl).
  destruct (thrift_port node) as [p|]; [|by destruct Hs as [_ ->]].
  destruct v as [| | |path| |]; try by destruct Hs as [_ ->].
  destruct (command_files !! path) as [es|]; destruct Hs as [_ ->]; [|done].
  apply observed_other_port. congruence.
Qed.

(** C5.  When [program_switches] has run to its end, the endpoint of a
    switch that declares a command file has received the entries of the
    file, in the order of the file, and nothing else; the switches
    are the keys of a dict, and no other switch with a command file
    has its endpoint at the same port. *)
Theorem switch_observes_file_order (self : AppRunner) (net : Net) (w : World)
    (sw_name : string) (sw_dict : list (string * value)) (path : string)
    (entries : list string) (node : Node) (port : Z) :
  result (program_switches self net w) = inr tt ->
  NoDup (switches self).*1 ->
  (sw_name, sw_dict) ∈ switches self ->
  dict_lookup "cli_input" sw_dict = Some (VStr path) ->
  command_files !! path = Some entries ->
  nodes net !! sw_name = Some node ->
  thrift_port node = Some port ->
  (forall n' d' node',
      (n', d') ∈ switches self -> n' <> sw_name ->
      dict_lookup "cli_input" d' <> None ->
      nodes net !! n' = Some node' -> thrift_port node' <> Some port) ->
  observed port (trace (program_switches self net w)) = entries.
Proof.
  intros Hok Hdup Hin Hcli Hfile Hnode Hport Hothers.
  unfold program_switches in *.
  apply bind_result_inr in Hok as (cli & Hcli' & Hok).
  destruct (bind_ok _ (fun cli => for_each (switches self)
                                    (program_switch self net cli)) _ _ Hcli')
    as (_ & _ & ->).
  cbn [lift world trace app] in *. clear Hcli'.
  revert w Hok Hdup Hin Hothers.
  induction (switches self) as [|[n d] l IH]; intros w Hok Hdup Hin Hothers;
    [by apply elem_of_nil in Hin|].
  cbn [for_each] in Hok. apply bind_result_inr in Hok as ([] & Hhead & Hrest).
  cbn [for_each].
  destruct (bind_ok _ (fun _ => for_each l (program_switch self net cli))
                     _ _ Hhead) as (_ & _ & ->).
  rewrite observed_app.
  rewrite fmap_cons in Hdup. apply NoDup_cons in Hdup as [Hfresh Hdup].
  apply elem_of_cons in Hin as [Heq|Hin].
  - injection Heq as <- <-.
    pose proof (program_switch_spec self net cli sw_name sw_dict w) as Hs.
    cbv zeta in Hs. rewrite Hcli, Hnode, Hport, Hfile in Hs. destruct Hs as [_ ->].
    rewrite observed_entries.
    rewrite for_each_observed_nil; [by rewrite app_nil_r|].
    intros [n' d'] w' Hx. apply program_switch_other_port.
    intros node' Hcli2 Hnode'. apply (Hothers n' d' node'); try done.
    + by right.
    + intros ->. apply Hfresh. apply list_elem_of_fmap. by exists (sw_name, d').
  - assert (n <> sw_name) as Hne.
    { intros ->. apply Hfresh. apply list_elem_of_fmap. by exists (sw_name, sw_dict). }
    rewrite program_switch_other_port.
    2:{ intros node' Hcli2 Hnode'. apply (Hothers n d node'); try done. by left. }
    rewrite app_nil_l. apply IH; try done.
    intros n' d' node' Hx. apply Hothers. by right.
Qed.

End SwitchClaims.

(** ** The run *)

Section RunClaims.

Context `{!Python, !IpAddress, !Backend}.

Lemma call_net_trace (c : net_call) (w : World) :
  trace (call_net c w) = [EvNet c] /\ world (call_net c w) = w.
Proof.
  unfold call_net. rewrite (bind_run _ _ w w tt [EvNet c]); [|done].
  destruct (net_call_raises c); done.
Qed.

(** Nothing before the last line of [run_app] stops the network. *)
Lemma run_app_steps_no_stop (self : AppRunner) : never is_stop (run_app_steps self).
Proof.
  unfold run_app_steps, create_network, program_hosts, program_switches,
    save_topology, do_net_cli, sleep.
  never_with fail.
  all: repeat (progress (unfold net_get, info_of, ip_network, arp_same_switch,
                           program_switch, read_entries, add_entries, name_of, cmd;
                         never_with fail)).
Qed.

(** C8, as the code has it.  [net.stop()] is the last line of
    [run_app], with no handler around what comes before: when every
    step before it returns, the stop call is made, last, and only
    there; when one of them raises, the run ends with that exception
    and the stop call is not made. *)
Theorem run_app_stops_when_steps_return (self : AppRunner) (w : World) :
  (result (run_app_steps self w) = inr tt ->
   exists tr, trace (run_app self w) = (tr ++ [EvNet NetStop])%list
              /\ forall e, e ∈ tr -> is_stop e = false)
  /\ (forall e, result (run_app_steps self w) = inl e ->
                result (run_app self w) = inl e
                /\ EvNet NetStop ∉ trace (run_app self w)).
Proof.
  unfold run_app. split.
  - intros Hok.
    destruct (bind_ok _ (fun _ => call_net NetStop) _ _ Hok) as (_ & _ & ->).
    rewrite (proj1 (call_net_trace NetStop _)).
    exists (trace (run_app_steps self w)). split; [done|].
    intros e He. by apply (run_app_steps_no_stop self w).
  - intros e He.
    destruct (bind_raised _ (fun _ => call_net NetStop) _ _ He) as [-> ->].
    split; [done|]. intros Hstop.
    by apply (run_app_steps_no_stop self w) in Hstop.
Qed.

End RunClaims.

(** Membership in a list given in full. *)
Ltac in_list :=
  first [ apply list_elem_of_here | apply list_elem_of_further; in_list ].

Ltac not_in_list H :=
  repeat (apply elem_of_cons in H as [H|H]; [discriminate|]);
  by apply elem_of_nil in H.

(** C8 fails on the code: the configuration has no [switch_cli] key, so
    [program_switches] raises [KeyError] after the network was started,
    and the run ends without the stop call. *)
Lemma run_raises_without_stop :
  let no_cli := MkConf (conf_topology lab_conf) [] in
  let o := @main scalar_python ipv4 (lab_backend no_cli lab_topo) lab_args lab_world in
  result o = inl (KeyError "switch_cli")
  /\ EvNet NetStart ∈ trace o
  /\ EvNet NetStop ∉ trace o.
Proof.
  cbv zeta. split; [vm_compute; reflexivity|]. split.
  - vm_compute. in_list.
  - intros Hstop. vm_compute in Hstop. not_in_list Hstop.
Qed.

Lemma run_app_stops_when_steps_return_witness :
  let self := lab_app lab_conf in
  let run := @run_app ipv4 (lab_backend lab_conf lab_topo) self lab_world in
  (exists tr, trace run = (tr ++ [EvNet NetStop])%list
              /\ forall e, e ∈ tr -> is_stop e = false)
  /\ (let no_cli := MkConf (conf_topology lab_conf) [] in
      EvNet NetStop
        ∉ trace (@run_app ipv4 (lab_backend no_cli lab_topo)
                   (lab_app no_cli) lab_world)).
Proof.
  cbv zeta. split.
  - apply (proj1 (@run_app_stops_when_steps_return ipv4
                    (lab_backend lab_conf lab_topo) (lab_app lab_conf) lab_world)).
    vm_compute. reflexivity.
  - apply (proj2 (@run_app_stops_when_steps_return ipv4
                    (lab_backend (MkConf (conf_topology lab_conf) []) lab_topo)
                    (lab_app (MkConf (conf_topology lab_conf) [])) lab_world)
                 (KeyError "switch_cli")).
    vm_compute. reflexivity.
Defined.

Lemma missing_topology_block_fails_witness :
  let no_topology := MkConf None [] in
  result (@__init__ scalar_python (lab_backend no_topology lab_topo)
            "p4app.json" "log" "pcap" true false lab_world)
  = inl (Exception "topology to create is not defined in {}")
  /\ EvNet NetStart
       ∉ trace (@main scalar_python ipv4 (lab_backend no_topology lab_topo)
                  lab_args lab_world).
Proof.
  cbv zeta.
  destruct (@missing_topology_block_fails scalar_python ipv4
              (lab_backend (MkConf None []) lab_topo)
              lab_args lab_world (MkConf None [])
              eq_refl eq_refl) as (_ & Hnet & _ & Hmsg).
  split; [|apply Hnet].
  apply (Hmsg (MkConf None [], "simple_switch", VBool false, VBool false)).
  vm_compute. reflexivity.
Defined.

Lemma host_to_host_link_rejected_witness :
  @parse_link scalar_python (LinkDesc "h2" "h1" [])
  = inl (AssertionError "Hosts should be connected to switches, not h2")
  /\ (let c := MkConf (Some (MkTopology ["h1"; "h2"] []
                                         [LinkDesc "h1" "s1" []; LinkDesc "h2" "h1" []]))
                      [] in
      EvNet NetStart
        ∉ trace (@main scalar_python ipv4 (lab_backend c lab_topo) lab_args lab_world)).
Proof.
  destruct (@host_to_host_link_rejected scalar_python ipv4
              (lab_backend (MkConf (Some (MkTopology ["h1"; "h2"] []
                                         [LinkDesc "h1" "s1" []; LinkDesc "h2" "h1" []]))
                                   []) lab_topo)
              "h2" "h1" [] eq_refl eq_refl) as ((n2 & _ & Hlink) & _ & Hmain).
  split.
  - reflexivity.
  - cbv zeta.
    apply (Hmain lab_args lab_world _ _ eq_refl eq_refl).
    apply list_elem_of_further, list_elem_of_here.
Defined.

Lemma switch_observes_file_order_witness :
  let run := @program_switches (lab_backend lab_conf lab_topo)
               (lab_app lab_conf) lab_net lab_world in
  result run = inr tt /\ observed 9090 (trace run) = ["A"; "B"; "C"].
Proof.
  cbv zeta. split; [vm_compute; reflexivity|].
  apply (@switch_observes_file_order (lab_backend lab_conf lab_topo)
           (lab_app lab_conf) lab_net lab_world
           "s1" [("cli_input", VStr "s1-commands.txt")] "s1-commands.txt"
           ["A"; "B"; "C"]
           (MkNode [(1, 11%nat); (2, 12%nat); (3, 13%nat)] "" (Some 9090)) 9090).
  - vm_compute. reflexivity.
  - apply NoDup_singleton.
  - apply list_elem_of_here.
  - reflexivity.
  - vm_compute. reflexivity.
  - vm_compute. reflexivity.
  - reflexivity.
  - intros n' d' node' Hin Hne. simpl in Hin.
    apply list_elem_of_singleton in Hin. injection Hin as -> ->. done.
Defined.

(** * Further properties *)

(** ** The parsed links *)

Section LinkList.

Context `{!Python}.

Lemma parse_links_inr_all (ls : list link_desc) (ds : list link_dict) :
  parse_links ls = inr ds -> Forall2 (fun l d => parse_link l = inr d) ls ds.
Proof.
  unfold parse_links. intros (ds' & -> & Hall)%parse_links_from_spec. done.
Qed.

(** The shape of a record that [parse_link] returns. *)
Lemma parse_link_record_shape (l : link_desc) (d : link_dict) :
  parse_link l = inr d ->
  (node1 d <=? node2 d)%string = true
  /\ (exists c, String.get 0 (node1 d) = Some c)
  /\ (String.get 0 (node1 d) = Some "h"%char ->
      String.get 0 (node2 d) = Some "s"%char).
Proof.
  intros Hd.
  pose proof (parse_link_nodes l d Hd) as Hnodes.
  pose proof (parse_link_accepts l) as Hacc. cbv zeta in Hacc.
  assert (Hn1 : node1 d = match String.compare (link_0 l) (link_1 l) with
                          | Gt => link_1 l | _ => link_0 l end)
    by (destruct (String.compare _ _); by simplify_eq).
  assert (Hn2 : node2 d = match String.compare (link_0 l) (link_1 l) with
                          | Gt => link_0 l | _ => link_1 l end)
    by (destruct (String.compare _ _); by simplify_eq).
  assert (Hord : (node1 d <=? node2 d)%string = true).
  { unfold String.leb. rewrite Hn1, Hn2.
    destruct (String.compare (link_0 l) (link_1 l)) eqn:Hcmp; rewrite ?Hcmp; try done.
    apply compare_flip in Hcmp. by rewrite Hcmp. }
  rewrite <- Hn1, <- Hn2 in Hacc.
  destruct (String.get 0 (node1 d)) as [c1|] eqn:H1; [|congruence].
  split; [exact Hord|]. split; [eauto|].
  intros [= ->]. simpl in Hacc.
  destruct (String.get 0 (node2 d)) as [c2|]; [|congruence].
  destruct (Ascii.eqb c2 "s") eqn:Hc2; [|congruence].
  by apply Ascii.eqb_eq in Hc2 as ->.
Qed.

(** X1.  [parse_links] parses link by link: it returns when every
    link parses, and then the records are those of the links, one for
    one and in their order. *)
Theorem parse_links_elementwise (ls : list link_desc) (ds : list link_dict) :
  parse_links ls = inr ds <-> Forall2 (fun l d => parse_link l = inr d) ls ds.
Proof.
  unfold parse_links. rewrite parse_links_from_spec. split.
  - by intros (ds' & -> & Hall).
  - intros Hall. by exists ds.
Qed.

(** X2.  [parse_links] raises what the first link that does not parse
    raises; the links after it are not looked at. *)
Theorem parse_links_first_error (ls : list link_desc) (e : error) :
  parse_links ls = inl e <->
  exists pre l post,
    ls = (pre ++ l :: post)%list
    /\ Forall (fun x => exists d, parse_link x = inr d) pre
    /\ parse_link l = inl e.
Proof.
  unfold parse_links. generalize (@nil link_dict) as acc.
  induction ls as [|l ls IH]; intros acc; simpl.
  - split; [discriminate|]. intros (pre & x & post & Heq & _).
    by destruct pre.
  - destruct (parse_link l) as [e'|d] eqn:Hl.
    + split.
      * intros [= ->]. exists [], l, ls. split; [done|]. split; [constructor|done].
      * intros (pre & x & post & Heq & Hpre & Hx). destruct pre as [|y pre].
        -- simpl in Heq. injection Heq as <- <-. congruence.
        -- simpl in Heq. injection Heq as <- ->.
           apply Forall_cons in Hpre as [[d Hd] _]. congruence.
    + rewrite IH. split.
      * intros (pre & x & post & -> & Hpre & Hx). exists (l :: pre), x, post.
        split; [done|]. split; [|done]. constructor; eauto.
      * intros (pre & x & post & Heq & Hpre & Hx). destruct pre as [|y pre].
        -- simpl in Heq. injection Heq as <- <-. congruence.
        -- simpl in Heq. injection Heq as <- ->.
           apply Forall_cons in Hpre as [_ Hpre]. eauto 10.
Qed.

(** X3.  Every record [parse_links] returns has its endpoints in order,
    a first endpoint that is not empty, and a second endpoint starting
    with ['s'] when the first starts with ['h']: no record joins two
    names that both start with ['h']. *)
Theorem parsed_links_invariant (ls : list link_desc) (ds : list link_dict) :
  parse_links ls = inr ds ->
  Forall (fun d =>
            (node1 d <=? node2 d)%string = true
            /\ (exists c, String.get 0 (node1 d) = Some c)
            /\ (String.get 0 (node1 d) = Some "h"%char ->
                String.get 0 (node2 d) = Some "s"%char)
            /\ ~ (String.get 0 (node1 d) = Some "h"%char
                  /\ String.get 0 (node2 d) = Some "h"%char)) ds.
Proof.
  intros Hall%parse_links_inr_all.
  induction Hall as [|l d ls ds Hd _ IH]; constructor; [|exact IH].
  destruct (parse_link_record_shape l d Hd) as (Hord & Hc & Hhs).
  split; [exact Hord|]. split; [exact Hc|]. split; [exact Hhs|].
  intros [Hh1 Hh2]. specialize (Hhs Hh1). congruence.
Qed.

Lemma append_ms_not_empty (s : string) : (s +:+ "ms") <> "".
Proof. by destruct s. Qed.

(** X4.  A record written back as a link description
    [[node1, node2, latency, bandwidth, weight]] parses to itself: the
    parsed form is a fixed point of the parser. *)
Theorem parse_link_of_record (l : link_desc) (d : link_dict) :
  parse_link l = inr d ->
  parse_link (LinkDesc (node1 d) (node2 d) [VStr (latency d); bandwidth d; weight d])
  = inr d.
Proof.
  intros Hd.
  pose proof (parse_link_fields l d Hd) as (Hlat & Hbw & Hw).
  destruct (parse_link_record_shape l d Hd) as (Hord & [c1 Hc1] & Hhs).
  assert (Hlat_truthy : truthy (VStr (latency d)) = true).
  { simpl. apply negb_true_iff, String.eqb_neq. rewrite Hlat.
    unfold given. destruct (link_opts l !! _) as [v|]; [|done].
    destruct (truthy v) eqn:Hv; [|done].
    destruct v; simpl in *; try apply append_ms_not_empty.
    apply negb_true_iff in Hv. by apply String.eqb_neq in Hv. }
  assert (Hbw_given : match (if truthy (bandwidth d) then Some (bandwidth d) else None)
                      with Some v => v | None => VNone end = bandwidth d).
  { destruct (truthy (bandwidth d)) eqn:Hv; [done|].
    rewrite Hbw in Hv |- *. unfold given in Hv |- *.
    destruct (link_opts l !! _) as [v|]; [|done].
    destruct (truthy v) eqn:Hv'; [congruence|done]. }
  assert (Hw_truthy : truthy (weight d) = true).
  { rewrite Hw. unfold given. destruct (link_opts l !! _) as [v|]; [|done].
    by destruct (truthy v) eqn:Hv. }
  unfold String.leb in Hord. clear Hd Hlat Hbw Hw.
  destruct d as [n1 n2 lat bw wt]; simpl in *.
  assert (Hpair : match String.compare n1 n2 with
                  | Gt => (n2, n1) | _ => (n1, n2) end = (n1, n2))
    by (destruct (String.compare n1 n2); done).
  unfold parse_link, given. cbn [link_0 link_1 link_opts]. rewrite Hpair.
  simpl. rewrite Hlat_truthy, Hw_truthy.
  destruct (truthy bw) eqn:Hbwt; simpl in Hbw_given; try subst bw;
    unfold set_weight, set_bandwidth, set_latency; simpl; rewrite Hc1;
    (destruct (Ascii.eqb c1 "h") eqn:Hh;
     [apply Ascii.eqb_eq in Hh as ->; rewrite (Hhs Hc1); simpl; done|done]).
Qed.

End LinkList.

(** ** One host *)

Lemma for_each_world {A} (l : list A) (body : A -> M unit) (w : World) :
  (forall x w', world (body x w') = w') -> world (for_each l body w) = w.
Proof.
  intros Hbody. revert w. induction l as [|x l IH]; intros w; [done|].
  simpl. unfold bind. pose proof (Hbody x w) as Hx.
  destruct (body x w) as [[e|[]] w1 t1]; simpl in *; [done|].
  pose proof (IH w1) as Hl. destruct (for_each l body w1); simpl in *. congruence.
Qed.

Section OneHost.

Context `{!IpAddress}.

Lemma seeding_world (topo : Topo) (h : Node) (a : string) (i : nat) (w : World) :
  world (seeding topo h a i w) = w.
Proof.
  unfold seeding, info_of, ip_network.
  destruct (hosts_info topo !! a) as [ia|]; [|done].
  rewrite (bind_run _ _ w w ia []) by done. cbn [world].
  destruct (network_compressed _) as [N|]; [|done].
  rewrite (bind_run _ _ w w N []) by done. cbn [world].
  apply for_each_world. intros c w'. apply arp_same_switch_world.
Qed.

(** The whole outcome of an iteration that comes to the renaming. *)
Lemma program_host_run (topo : Topo) (net : gmap string Node) (a : string)
    (w : World) (h : Node) (p : Z) (i : nat) (rest : list (Z * nat))
    (link : nat * nat) (n : Z) (d : nat) :
  net !! a = Some h ->
  intfs h = (p, i) :: rest ->
  intf_link (w_intfs w i) = Some link ->
  py_int (slice_from_1 a) = Some n ->
  defaultIntf h = Some d ->
  let w1 := renamed w d (a +:+ "-eth0") in
  let iface := intf_name (w_intfs w1 i) in
  let sw_iface := if decide (fst link <> i) then fst link else snd link in
  program_host topo net a w
  = Outcome (result (seeding topo h a i w1)) w1
      ([ EvRename a d (a +:+ "-eth0");
         EvCmd a (Arp iface (sw_ip_of n) (intf_mac (w_intfs w1 sw_iface)));
         EvCmd a (EthtoolOffload iface);
         EvCmd a (IpRouteAdd (sw_ip_of n) iface);
         EvSetDefaultRoute a ("via " +:+ sw_ip_of n) ]
       ++ trace (seeding topo h a i w1)).
Proof.
  intros Hh Hi Hl Hn Hd w1 iface sw_iface.
  destruct (program_host_gateway topo net a w h p i rest link n Hh Hi Hl Hn)
    as (d' & Hd' & Hr & Ht).
  assert (d' = d) as -> by congruence.
  assert (Hw : world (program_host topo net a w) = w1).
  { unfold program_host.
    run_to w h (@nil event) ltac:(unfold net_get; by rewrite Hh).
    run_to w i (@nil event) ltac:(by rewrite Hi).
    run_to w link (@nil event) ltac:(unfold link_of, ask, bind; simpl; by rewrite Hl).
    run_to w n (@nil event) ltac:(by rewrite Hn).
    run_to w d (@nil event) ltac:(by rewrite Hd).
    run_to w1 tt [EvRename a d (a +:+ "-eth0")] ltac:(done).
    run_to w1 iface (@nil event) ltac:(done).
    run_to w1 (intf_mac (w_intfs w1 sw_iface)) (@nil event) ltac:(done).
    run_to w1 tt [EvCmd a (Arp iface (sw_ip_of n) (intf_mac (w_intfs w1 sw_iface)))]
           ltac:(done).
    run_to w1 iface (@nil event) ltac:(done).
    run_to w1 tt [EvCmd a (EthtoolOffload iface)] ltac:(done).
    run_to w1 iface (@nil event) ltac:(done).
    run_to w1 tt [EvCmd a (IpRouteAdd (sw_ip_of n) iface)] ltac:(done).
    run_to w1 tt [EvSetDefaultRoute a ("via " +:+ sw_ip_of n)] ltac:(done).
    apply seeding_world. }
  cbv zeta in Hr, Ht.
  destruct (program_host topo net a w) as [r w' t]. simpl in *. by subst.
Qed.

(** The checks that come before the first command. *)
Lemma program_host_early (topo : Topo) (net : gmap string Node)
    (a : string) (w : World) :
  (net !! a = None ->
   program_host topo net a w = Outcome (inl (KeyError a)) w [])
  /\ (forall h, net !! a = Some h -> intfs h = [] ->
        program_host topo net a w = Outcome (inl IndexError) w [])
  /\ (forall h p i rest,
        net !! a = Some h -> intfs h = (p, i) :: rest ->
        intf_link (w_intfs w i) = None ->
        program_host topo net a w = Outcome (inl AttributeError) w [])
  /\ (forall h p i rest link,
        net !! a = Some h -> intfs h = (p, i) :: rest ->
        intf_link (w_intfs w i) = Some link ->
        py_int (slice_from_1 a) = None ->
        program_host topo net a w
        = Outcome (inl (ValueError (slice_from_1 a))) w []).
Proof.
  repeat split.
  - intros Hh. unfold program_host, net_get, bind. by rewrite Hh.
  - intros h Hh Hi. unfold program_host, net_get, lift, bind.
    rewrite Hh; simpl. by rewrite Hi.
  - intros h p i rest Hh Hi Hl.
    unfold program_host, net_get, link_of, lift, ask, bind.
    rewrite Hh; simpl. rewrite Hi; simpl. by rewrite Hl.
  - intros h p i rest link Hh Hi Hl Hn.
    unfold program_host, net_get, link_of, lift, ask, ret, bind.
    rewrite Hh; simpl. rewrite Hi; simpl. rewrite Hl; simpl. by rewrite Hn.
Qed.

(** X5.  A host that cannot be provisioned is left untouched: when the
    network does not know it, when it has no interface or its first
    interface has no link, when its name does not end in an integer,
    the iteration raises before any command and before the renaming. *)
Theorem program_host_checks_first (topo : Topo) (net : gmap string Node)
    (a : string) (w : World) :
  (net !! a = None ->
   program_host topo net a w = Outcome (inl (KeyError a)) w [])
  /\ (forall h, net !! a = Some h -> intfs h = [] ->
        program_host topo net a w = Outcome (inl IndexError) w [])
  /\ (forall h p i rest,
        net !! a = Some h -> intfs h = (p, i) :: rest ->
        intf_link (w_intfs w i) = None ->
        program_host topo net a w = Outcome (inl AttributeError) w [])
  /\ (forall h p i rest link,
        net !! a = Some h -> intfs h = (p, i) :: rest ->
        intf_link (w_intfs w i) = Some link ->
        py_int (slice_from_1 a) = None ->
        program_host topo net a w
        = Outcome (inl (ValueError (slice_from_1 a))) w []).
Proof.
  repeat split.
  - intros Hh. unfold program_host, net_get, bind. by rewrite Hh.
  - intros h Hh Hi. unfold program_host, net_get, lift, bind.
    rewrite Hh; simpl. by rewrite Hi.
  - intros h p i rest Hh Hi Hl.
    unfold program_host, net_get, link_of, lift, ask, bind.
    rewrite Hh; simpl. rewrite Hi; simpl. by rewrite Hl.
  - intros h p i rest link Hh Hi Hl Hn.
    unfold program_host, net_get, link_of, lift, ask, ret, bind.
    rewrite Hh; simpl. rewrite Hi; simpl. rewrite Hl; simpl. by rewrite Hn.
Qed.

(** X6.  A host the topology has no information about, or whose
    address and mask are no network, is left half provisioned: its
    interface is renamed and the gateway entry, the route and the
    default route are set, then the iteration raises, before any entry
    of another host. *)
Theorem program_host_stops_after_gateway (topo : Topo) (net : gmap string Node)
    (a : string) (w : World) (h : Node) (p : Z) (i : nat) (rest : list (Z * nat))
    (link : nat * nat) (n : Z) (d : nat) :
  net !! a = Some h ->
  intfs h = (p, i) :: rest ->
  intf_link (w_intfs w i) = Some link ->
  py_int (slice_from_1 a) = Some n ->
  defaultIntf h = Some d ->
  let w1 := renamed w d (a +:+ "-eth0") in
  let iface := intf_name (w_intfs w1 i) in
  let sw_iface := if decide (fst link <> i) then fst link else snd link in
  let gateway :=
    [ EvRename a d (a +:+ "-eth0");
      EvCmd a (Arp iface (sw_ip_of n) (intf_mac (w_intfs w1 sw_iface)));
      EvCmd a (EthtoolOffload iface);
      EvCmd a (IpRouteAdd (sw_ip_of n) iface);
      EvSetDefaultRoute a ("via " +:+ sw_ip_of n) ] in
  (hosts_info topo !! a = None ->
   program_host topo net a w = Outcome (inl (KeyError a)) w1 gateway)
  /\ (forall ia,
        hosts_info topo !! a = Some ia ->
        network_compressed (cidr_text (IP h) (mask ia)) = None ->
        program_host topo net a w
        = Outcome (inl (ValueError (cidr_text (IP h) (mask ia)))) w1 gateway).
Proof.
  intros Hh Hi Hl Hn Hd w1 iface sw_iface gateway.
  pose proof (program_host_run topo net a w h p i rest link n d Hh Hi Hl Hn Hd) as Hrun.
  cbv zeta in Hrun. fold w1 in Hrun. fold iface in Hrun. fold sw_iface in Hrun.
  pose proof (seeding_spec topo h a i w1) as Hs. cbv zeta in Hs.
  split.
  - intros Hinfo. rewrite Hinfo in Hs. destruct Hs as [Hr Ht].
    rewrite Hrun, Hr, Ht. by rewrite app_nil_r.
  - intros ia Hinfo Hnet. rewrite Hinfo, Hnet in Hs. destruct Hs as [Hr Ht].
    rewrite Hrun, Hr, Ht. by rewrite app_nil_r.
Qed.

End OneHost.

(** ** All hosts *)

Lemma string_length_app (a s : string) :
  String.length (a +:+ s) = (String.length a + String.length s)%nat.
Proof. induction a as [|c a IH]; simpl; [done|]. by rewrite IH. Qed.

Lemma string_app_inv_tail (a b s : string) : a +:+ s = b +:+ s -> a = b.
Proof.
  revert b. induction a as [|c a IH]; intros [|c' b] Heq; simpl in Heq.
  - done.
  - apply (f_equal String.length) in Heq.
    rewrite !string_length_app in Heq. simpl in Heq. lia.
  - apply (f_equal String.length) in Heq.
    rewrite !string_length_app in Heq. simpl in Heq. lia.
  - injection Heq as -> Heq. f_equal. by apply IH.
Qed.

Lemma for_each_app {A} (l1 l2 : list A) (body : A -> M unit) (w : World) :
  for_each (l1 ++ l2) body w = bind (for_each l1 body) (fun _ => for_each l2 body) w.
Proof.
  revert w. induction l1 as [|x l1 IH]; intros w; simpl.
  - unfold bind, ret. simpl. by destruct (for_each l2 body w).
  - unfold bind.
    destruct (body x w) as [[e|[]] w1 t1]; [done|].
    rewrite IH. unfold bind.
    destruct (for_each l1 body w1) as [[e|[]] w2 t2]; simpl; [done|].
    destruct (for_each l2 body w2) as [r w3 t3]; simpl. by rewrite app_assoc.
Qed.

Lemma same_wiring_refl (w : World) : same_wiring w w.
Proof. by split. Qed.

Lemma same_wiring_trans (w1 w2 w3 : World) :
  same_wiring w1 w2 -> same_wiring w2 w3 -> same_wiring w1 w3.
Proof.
  intros [Hp1 Hi1] [Hp2 Hi2]. split; [congruence|].
  intros i. destruct (Hi1 i), (Hi2 i). split; congruence.
Qed.

Lemma same_wiring_sym (w1 w2 : World) : same_wiring w1 w2 -> same_wiring w2 w1.
Proof.
  intros [Hp Hi]. split; [done|]. intros i. destruct (Hi i). split; congruence.
Qed.

Lemma same_wiring_renamed (w : World) (i : nat) (new_name : string) :
  same_wiring w (renamed w i new_name).
Proof.
  split; [done|]. intros j. unfold renamed. simpl.
  destruct (decide (j = i)) as [->|]; done.
Qed.

Section AllHosts.

Context `{!IpAddress}.

(** Where an iteration leaves the world: as it was, or with the default
    interface of the host renamed. *)
Lemma program_host_world (topo : Topo) (net : gmap string Node) (a : string)
    (w : World) :
  (world (program_host topo net a w) = w
   /\ trace (program_host topo net a w) = []
   /\ exists e, result (program_host topo net a w) = inl e)
  \/ exists h d,
      net !! a = Some h /\ defaultIntf h = Some d
      /\ world (program_host topo net a w) = renamed w d (a +:+ "-eth0").
Proof.
  destruct (program_host_early topo net a w) as (H1 & H2 & H3 & H4).
  destruct (net !! a) as [h|] eqn:Hh; [|left; rewrite H1; eauto].
  destruct (intfs h) as [|[p i] rest] eqn:Hi; [left; rewrite (H2 h); eauto|].
  destruct (intf_link (w_intfs w i)) as [link|] eqn:Hl;
    [|left; rewrite (H3 h p i rest); eauto].
  destruct (py_int (slice_from_1 a)) as [n|] eqn:Hn;
    [|left; rewrite (H4 h p i rest link); eauto].
  assert (exists d, defaultIntf h = Some d) as [d Hd].
  { unfold defaultIntf. rewrite Hi. eauto. }
  right. exists h, d. split; [done|]. split; [done|].
  by rewrite (program_host_run topo net a w h p i rest link n d).
Qed.

(** Everything an iteration does is done to its own host. *)
Lemma program_host_events_own (topo : Topo) (net : gmap string Node) (a : string)
    (w : World) (ev : event) :
  ev ∈ trace (program_host topo net a w) -> event_host ev = Some a.
Proof.
  intros Hev.
  destruct (program_host_cases topo net a w)
    as [[Ht _]|(h & p & i & rest & link & n & Hh & Hi & Hl & Hn)].
  { rewrite Ht in Hev. by apply elem_of_nil in Hev. }
  destruct (program_host_gateway topo net a w h p i rest link n Hh Hi Hl Hn)
    as (d & _ & _ & Ht).
  rewrite Ht in Hev. clear Ht. apply elem_of_app in Hev as [Hev|Hev].
  - repeat (apply elem_of_cons in Hev as [->|Hev]; [done|]).
    by apply elem_of_nil in Hev.
  - pose proof (seeding_spec topo h a i (renamed w d (a +:+ "-eth0"))) as Hs.
    cbv zeta in Hs.
    destruct (hosts_info topo !! a) as [ia|].
    2:{ destruct Hs as [_ Hs]. rewrite Hs in Hev. by apply elem_of_nil in Hev. }
    destruct (network_compressed _) as [N|].
    2:{ destruct Hs as [_ Hs]. rewrite Hs in Hev. by apply elem_of_nil in Hev. }
    destruct Hs as [_ Hs]. rewrite Hs in Hev.
    apply set_arp_rules_trace in Hev as (c & ic & iface & _ & _ & _ & _ & _ & ->).
    done.
Qed.

Lemma for_each_hosts_wiring (topo : Topo) (net : gmap string Node)
    (l : list string) (w : World) :
  same_wiring w (world (for_each l (program_host topo net) w)).
Proof.
  revert w. induction l as [|a l IH]; intros w; [apply same_wiring_refl|].
  simpl. unfold bind.
  assert (Ha : same_wiring w (world (program_host topo net a w))).
  { destruct (program_host_world topo net a w) as [(-> & _)|(h & d & _ & _ & ->)].
    - apply same_wiring_refl.
    - apply same_wiring_renamed. }
  destruct (program_host topo net a w) as [[e|[]] w1 t1]; simpl in *; [done|].
  pose proof (IH w1) as Hl.
  destruct (for_each l (program_host topo net) w1) as [r w2 t2]; simpl in *.
  by apply (same_wiring_trans _ w1).
Qed.

(** X7.  [program_hosts] changes nothing but names of interfaces: the
    paths of the file system, and the MAC and the link of every
    interface, are after the run what they were before, whether it
    returns or raises; and an interface that is the default interface
    of no host of the network keeps its name too. *)
Theorem program_hosts_keeps_wiring (topo : Topo) (net : gmap string Node) (w : World) :
  let w' := world (program_hosts topo net w) in
  w_paths w' = w_paths w
  /\ (forall i, intf_mac (w_intfs w' i) = intf_mac (w_intfs w i)
                /\ intf_link (w_intfs w' i) = intf_link (w_intfs w i))
  /\ (forall i, (forall a h, net !! a = Some h -> defaultIntf h <> Some i) ->
                intf_name (w_intfs w' i) = intf_name (w_intfs w i)).
Proof.
  intros w'. destruct (for_each_hosts_wiring topo net (topo_hosts topo) w) as [Hp Hi].
  split; [exact Hp|]. split; [exact Hi|].
  intros i Hnot. subst w'. clear Hp Hi. unfold program_hosts.
  generalize (topo_hosts topo) as l. intros l. revert w.
  induction l as [|a l IH]; intros w; [done|].
  simpl. unfold bind.
  assert (Ha : intf_name (w_intfs (world (program_host topo net a w)) i)
               = intf_name (w_intfs w i)).
  { destruct (program_host_world topo net a w) as [(-> & _)|(h & d & Hh & Hd & ->)];
      [done|].
    unfold renamed. simpl. destruct (decide (i = d)) as [->|]; [|done].
    by destruct (Hnot a h Hh). }
  destruct (program_host topo net a w) as [[e|[]] w1 t1]; simpl in *; [done|].
  pose proof (IH w1) as Hl.
  destruct (for_each l (program_host topo net) w1) as [r w2 t2]; simpl in *.
  congruence.
Qed.

(** X8.  When [program_hosts] raises, the hosts that come in
    [topo.hosts()] after the one that raised have had nothing done to
    them: whatever was done was done to that host or to one before
    it. *)
Theorem program_hosts_stops_at_first_failure (topo : Topo) (net : gmap string Node)
    (w : World) (e : error) :
  result (program_hosts topo net w) = inl e ->
  exists pre a post w1,
    topo_hosts topo = (pre ++ a :: post)%list
    /\ result (for_each pre (program_host topo net) w) = inr tt
    /\ w1 = world (for_each pre (program_host topo net) w)
    /\ result (program_host topo net a w1) = inl e
    /\ trace (program_hosts topo net w)
       = (trace (for_each pre (program_host topo net) w)
          ++ trace (program_host topo net a w1))%list
    /\ forall ev b, ev ∈ trace (program_hosts topo net w) ->
                    event_host ev = Some b -> b ∈ pre \/ b = a.
Proof.
  unfold program_hosts. generalize (topo_hosts topo) as l.
  intros l. revert w. induction l as [|x l IH]; intros w Hfail; [discriminate|].
  simpl in Hfail.
  destruct (result (program_host topo net x w)) as [e'|[]] eqn:Hx.
  - destruct (bind_raised _ (fun _ => for_each l (program_host topo net)) _ _ Hx)
      as [Hr Ht].
    simpl. exists [], x, l, w. rewrite Hr in Hfail. injection Hfail as ->.
    split; [done|]. split; [done|]. split; [done|]. split; [done|]. split.
    + by rewrite Ht.
    + intros ev b Hev Hb. rewrite Ht in Hev.
      apply program_host_events_own in Hev. right. congruence.
  - destruct (bind_ok _ (fun _ => for_each l (program_host topo net)) _ _ Hx)
      as (Hr & _ & Ht).
    rewrite Hr in Hfail.
    destruct (IH _ Hfail) as (pre & a & post & w1 & Hl & Hpre & Hw1 & Ha & Htr & Hown).
    exists (x :: pre), a, post, w1.
    assert (Hcons : for_each (x :: pre) (program_host topo net) w
                    = bind (program_host topo net x)
                           (fun _ => for_each pre (program_host topo net)) w) by done.
    destruct (bind_ok _ (fun _ => for_each pre (program_host topo net)) _ _ Hx)
      as (Hr' & Hw' & Ht').
    rewrite Hcons, Hr', Hw', Ht'.
    split; [by rewrite Hl|]. split; [done|]. split; [done|]. split; [done|]. split.
    + cbn [for_each]. rewrite Ht, Htr. by rewrite app_assoc.
    + intros ev b Hev Hb. cbn [for_each] in Hev. rewrite Ht in Hev.
      apply elem_of_app in Hev as [Hev|Hev].
      * apply program_host_events_own in Hev. left. apply elem_of_cons. left.
        congruence.
      * destruct (Hown ev b Hev Hb) as [?|?]; [left|by right].
        apply elem_of_cons. by right.
Qed.

End AllHosts.

(** ** Names, and a second run *)

Lemma for_each_frame {A} (l : list A) (body : A -> M unit) (w w' : World) :
  (forall x w0, world (body x w0) = w0) ->
  (forall x, result (body x w) = result (body x w')
             /\ trace (body x w) = trace (body x w')) ->
  result (for_each l body w) = result (for_each l body w')
  /\ trace (for_each l body w) = trace (for_each l body w').
Proof.
  intros Hworld Hsame. induction l as [|x l [IHr IHt]]; [done|].
  simpl. destruct (Hsame x) as [Hr Ht].
  pose proof (Hworld x w) as Hw. pose proof (Hworld x w') as Hw'.
  unfold bind.
  destruct (body x w) as [r1 w1 t1], (body x w') as [r2 w2 t2]; simpl in *.
  subst. destruct r2 as [e|[]]; [done|].
  destruct (for_each l body w) as [r3 w3 t3], (for_each l body w') as [r4 w4 t4].
  simpl in *. by subst.
Qed.

Section Names.

Context `{!IpAddress}.

Lemma names_after (topo : Topo) (net : gmap string Node) (a : string) (ha : Node)
    (da : nat) (l : list string) (w : World) :
  net !! a = Some ha -> defaultIntf ha = Some da ->
  result (for_each l (program_host topo net) w) = inr tt ->
  (forall c hc, c ∈ l -> c <> a -> net !! c = Some hc -> defaultIntf hc <> Some da) ->
  (a ∈ l \/ intf_name (w_intfs w da) = a +:+ "-eth0") ->
  intf_name (w_intfs (world (for_each l (program_host topo net) w)) da)
  = a +:+ "-eth0".
Proof.
  intros Hha Hda. revert w. induction l as [|x l IH]; intros w Hok Hshare Hin.
  - destruct Hin as [Hin|Hin]; [by apply elem_of_nil in Hin|done].
  - simpl in Hok. apply bind_result_inr in Hok as ([] & Hx & Hrest).
    simpl. destruct (bind_ok _ (fun _ => for_each l (program_host topo net)) _ _ Hx)
      as (_ & -> & _).
    apply IH; [done|..].
    + intros c hc Hc. apply Hshare. by right.
    + destruct (program_host_world topo net x w)
        as [(_ & _ & [e He])|(hx & dx & Hhx & Hdx & ->)]; [congruence|].
      destruct (decide (x = a)) as [->|Hne].
      * right. simplify_eq. unfold renamed. simpl. by destruct (decide (da = da)).
      * assert (dx <> da) as Hd.
        { intros ->. by apply (Hshare x hx); [left|..]. }
        destruct Hin as [Hin|Hin].
        -- apply elem_of_cons in Hin as [->|Hin]; [done|by left].
        -- right. unfold renamed. simpl. by destruct (decide (da = dx)).
Qed.

(** X9.  After [program_hosts] has run to its end, the default
    interface of a host, when no other host of the list has it for its
    own, is named after the host, [<host>-eth0]; so two such hosts have
    interfaces of different names. *)
Theorem provisioned_interface_names (topo : Topo) (net : gmap string Node)
    (w : World) (a b : string) (ha hb : Node) (da db : nat) :
  result (program_hosts topo net w) = inr tt ->
  a ∈ topo_hosts topo -> b ∈ topo_hosts topo -> a <> b ->
  net !! a = Some ha -> defaultIntf ha = Some da ->
  net !! b = Some hb -> defaultIntf hb = Some db ->
  (forall c hc, c ∈ topo_hosts topo -> net !! c = Some hc ->
                (defaultIntf hc = Some da -> c = a)
                /\ (defaultIntf hc = Some db -> c = b)) ->
  let w' := world (program_hosts topo net w) in
  intf_name (w_intfs w' da) = a +:+ "-eth0"
  /\ intf_name (w_intfs w' db) = b +:+ "-eth0"
  /\ intf_name (w_intfs w' da) <> intf_name (w_intfs w' db).
Proof.
  intros Hok Ha Hb Hab Hha Hda Hhb Hdb Hshare w'.
  assert (Hna : intf_name (w_intfs w' da) = a +:+ "-eth0").
  { apply (names_after topo net a ha); try done; [|by left].
    intros c hc Hc Hne Hhc Hd. by destruct (Hshare c hc Hc Hhc) as [? _]; auto. }
  assert (Hnb : intf_name (w_intfs w' db) = b +:+ "-eth0").
  { apply (names_after topo net b hb); try done; [|by left].
    intros c hc Hc Hne Hhc Hd. by destruct (Hshare c hc Hc Hhc) as [_ ?]; auto. }
  split; [done|]. split; [done|]. rewrite Hna, Hnb.
  intros Heq. by apply string_app_inv_tail in Heq.
Qed.

Lemma arp_same_switch_frame (topo : Topo) (a : string) (i : nat) (swn N c : string)
    (w w' : World) :
  intf_name (w_intfs w i) = intf_name (w_intfs w' i) ->
  result (arp_same_switch topo a i swn N c w)
  = result (arp_same_switch topo a i swn N c w')
  /\ trace (arp_same_switch topo a i swn N c w)
     = trace (arp_same_switch topo a i swn N c w').
Proof.
  intros Hname.
  pose proof (arp_same_switch_spec topo a i swn N c w) as [_ Hs].
  pose proof (arp_same_switch_spec topo a i swn N c w') as [_ Hs'].
  destruct (decide (c = a)); [destruct Hs, Hs'; split; congruence|].
  destruct (hosts_info topo !! c) as [ic|]; [|destruct Hs, Hs'; split; congruence].
  destruct (decide (sw ic = swn)); [|destruct Hs, Hs'; split; congruence].
  destruct (network_compressed _); [|destruct Hs, Hs'; split; congruence].
  rewrite <- Hname in Hs'. destruct Hs, Hs'; split; congruence.
Qed.

Lemma seeding_frame (topo : Topo) (h : Node) (a : string) (i : nat) (w w' : World) :
  intf_name (w_intfs w i) = intf_name (w_intfs w' i) ->
  result (seeding topo h a i w) = result (seeding topo h a i w')
  /\ trace (seeding topo h a i w) = trace (seeding topo h a i w').
Proof.
  intros Hname.
  pose proof (seeding_spec topo h a i w) as Hs.
  pose proof (seeding_spec topo h a i w') as Hs'. cbv zeta in Hs, Hs'.
  destruct (hosts_info topo !! a) as [ia|]; [|destruct Hs, Hs'; split; congruence].
  destruct (network_compressed _) as [N|]; [|destruct Hs, Hs'; split; congruence].
  destruct Hs as [-> ->], Hs' as [-> ->]. unfold set_arp_rules.
  apply for_each_frame.
  - intros c w0. apply arp_same_switch_world.
  - intros c. by apply arp_same_switch_frame.
Qed.

(** An iteration does the same in two worlds of the same wiring, when
    the first interface of the host is its default interface. *)
Lemma program_host_frame (topo : Topo) (net : gmap string Node) (a : string)
    (w w' : World) :
  same_wiring w w' ->
  (forall h p i rest, net !! a = Some h -> intfs h = (p, i) :: rest ->
                      defaultIntf h = Some i) ->
  result (program_host topo net a w) = result (program_host topo net a w')
  /\ trace (program_host topo net a w) = trace (program_host topo net a w')
  /\ same_wiring (world (program_host topo net a w))
                 (world (program_host topo net a w')).
Proof.
  intros Hwire Hfirst.
  destruct (program_host_early topo net a w) as (H1 & H2 & H3 & H4).
  destruct (program_host_early topo net a w') as (H1' & H2' & H3' & H4').
  destruct (net !! a) as [h|] eqn:Hh; [|by rewrite H1, H1'].
  destruct (intfs h) as [|[p i] rest] eqn:Hi; [by rewrite (H2 h), (H2' h)|].
  assert (Hlink : intf_link (w_intfs w' i) = intf_link (w_intfs w i))
    by apply Hwire.
  destruct (intf_link (w_intfs w i)) as [link|] eqn:Hl.
  2:{ by rewrite (H3 h p i rest), (H3' h p i rest). }
  destruct (py_int (slice_from_1 a)) as [n|] eqn:Hn.
  2:{ by rewrite (H4 h p i rest link), (H4' h p i rest link). }
  pose proof (Hfirst h p i rest eq_refl Hi) as Hd.
  rewrite (program_host_run topo net a w h p i rest link n i) by done.
  rewrite (program_host_run topo net a w' h p i rest link n i) by done.
  cbn [result trace world].
  assert (Hname : forall w0, intf_name (w_intfs (renamed w0 i (a +:+ "-eth0")) i)
                             = a +:+ "-eth0").
  { intros w0. unfold renamed. simpl. by destruct (decide (i = i)). }
  assert (Hmac : forall j, intf_mac (w_intfs (renamed w i (a +:+ "-eth0")) j)
                           = intf_mac (w_intfs (renamed w' i (a +:+ "-eth0")) j)).
  { intros j. destruct (same_wiring_renamed w i (a +:+ "-eth0")) as [_ Hw].
    destruct (same_wiring_renamed w' i (a +:+ "-eth0")) as [_ Hw'].
    destruct (Hw j) as [-> _], (Hw' j) as [-> _]. symmetry. apply Hwire. }
  destruct (seeding_frame topo h a i (renamed w i (a +:+ "-eth0"))
              (renamed w' i (a +:+ "-eth0"))) as [Hr Ht].
  { by rewrite !Hname. }
  rewrite !Hname, Hmac, Hr, Ht. split; [done|]. split; [done|].
  apply (same_wiring_trans _ w); [apply same_wiring_sym, same_wiring_renamed|].
  apply (same_wiring_trans _ w'); [done|apply same_wiring_renamed].
Qed.

Lemma program_hosts_frame (topo : Topo) (net : gmap string Node) (l : list string)
    (w w' : World) :
  same_wiring w w' ->
  (forall a h p i rest, a ∈ l -> net !! a = Some h -> intfs h = (p, i) :: rest ->
                        defaultIntf h = Some i) ->
  result (for_each l (program_host topo net) w)
  = result (for_each l (program_host topo net) w')
  /\ trace (for_each l (program_host topo net) w)
     = trace (for_each l (program_host topo net) w').
Proof.
  revert w w'. induction l as [|a l IH]; intros w w' Hwire Hfirst; [done|].
  destruct (program_host_frame topo net a w w' Hwire) as (Hr & Ht & Hw).
  { intros h p i rest. apply Hfirst. by left. }
  simpl. unfold bind.
  destruct (program_host topo net a w) as [r1 w1 t1],
           (program_host topo net a w') as [r2 w2 t2]; simpl in *.
  subst. destruct r2 as [e|[]]; [done|].
  destruct (IH w1 w2 Hw) as [IHr IHt].
  { intros c h p i rest Hc. apply Hfirst. by right. }
  destruct (for_each l (program_host topo net) w1) as [r3 w3 t3],
           (for_each l (program_host topo net) w2) as [r4 w4 t4].
  simpl in *. by subst.
Qed.

(** X10.  Running [program_hosts] again, on the world the first run
    left, does what the first run did: the same calls with the same
    arguments in the same order, and the same outcome.  The first
    interface of each host is its default interface. *)
Theorem program_hosts_again (topo : Topo) (net : gmap string Node) (w : World) :
  (forall a h p i rest,
      a ∈ topo_hosts topo -> net !! a = Some h -> intfs h = (p, i) :: rest ->
      defaultIntf h = Some i) ->
  let first := program_hosts topo net w in
  let second := program_hosts topo net (world first) in
  result second = result first /\ trace second = trace first.
Proof.
  intros Hfirst first second.
  destruct (program_hosts_frame topo net (topo_hosts topo) w (world first))
    as [Hr Ht]; [apply for_each_hosts_wiring|done|].
  by split.
Qed.

End Names.

(** ** The entries of a host, in order *)

Section EntriesInOrder.

Context `{!IpAddress}.

(** The entry the inner loop sets for the host [c] of the list, if it
    sets one. *)
Lemma inner_loop_trace (topo : Topo) (a : string) (i : nat) (swn N : string)
    (l : list string) (w : World) :
  result (for_each l (arp_same_switch topo a i swn N) w) = inr tt ->
  trace (for_each l (arp_same_switch topo a i swn N) w)
  = omap (fun c =>
            ic ← hosts_info topo !! c;
            if decide (c <> a /\ sw ic = swn
                       /\ network_compressed (cidr_text (ip ic) (mask ic)) = Some N)
            then Some (EvCmd a (Arp (intf_name (w_intfs w i)) (ip ic) (mac ic)))
            else None) l.
Proof.
  induction l as [|c l IH]; intros Hok; [done|].
  simpl in Hok. apply bind_result_inr in Hok as ([] & Hc & Hrest).
  cbn [for_each].
  destruct (bind_ok _ (fun _ => for_each l (arp_same_switch topo a i swn N)) _ _ Hc)
    as (_ & _ & ->).
  rewrite arp_same_switch_world in *. rewrite (IH Hrest). clear IH Hrest.
  pose proof (arp_same_switch_spec topo a i swn N c w) as [_ Hs].
  cbn [omap list_omap]. 
  destruct (decide (c = a)) as [->|Hne].
  { destruct Hs as [_ ->]. destruct (hosts_info topo !! a) as [ia|]; simpl; [|done].
    case_decide as Hd; [by destruct Hd|done]. }
  destruct (hosts_info topo !! c) as [ic|]; simpl; [|destruct Hs; congruence].
  destruct (decide (sw ic = swn)) as [Hsw|Hsw].
  2:{ destruct Hs as [_ ->]. case_decide as Hd; [by destruct Hd as (_ & ? & _)|done]. }
  destruct (network_compressed (cidr_text (ip ic) (mask ic))) as [N'|] eqn:HN';
    [|destruct Hs; congruence].
  destruct Hs as [_ ->].
  destruct (decide (N = N')) as [->|HN].
  - case_decide as Hd; [done|]. by destruct Hd.
  - case_decide as Hd; [|done]. destruct Hd as (_ & _ & [= ->]). done.
Qed.

(** X11.  An iteration of [program_hosts] that returns has made the
    five calls for the gateway and then set one ARP entry for each
    occurrence in [topo.hosts()] of another host of the same switch
    and the same network, in the order of [topo.hosts()], all on the
    same interface name, and nothing else. *)
Theorem program_host_entries_in_order (topo : Topo) (net : gmap string Node)
    (a : string) (w : World) :
  result (program_host topo net a w) = inr tt ->
  exists h ia N n d iface sw_mac,
    net !! a = Some h /\ hosts_info topo !! a = Some ia
    /\ network_compressed (cidr_text (IP h) (mask ia)) = Some N
    /\ py_int (slice_from_1 a) = Some n
    /\ trace (program_host topo net a w)
       = ([ EvRename a d (a +:+ "-eth0");
            EvCmd a (Arp iface (sw_ip_of n) sw_mac);
            EvCmd a (EthtoolOffload iface);
            EvCmd a (IpRouteAdd (sw_ip_of n) iface);
            EvSetDefaultRoute a ("via " +:+ sw_ip_of n) ]
          ++ omap (fun c =>
                     ic ← hosts_info topo !! c;
                     if decide (c <> a /\ sw ic = sw ia
                                /\ network_compressed (cidr_text (ip ic) (mask ic))
                                   = Some N)
                     then Some (EvCmd a (Arp iface (ip ic) (mac ic)))
                     else None) (topo_hosts topo))%list.
Proof.
  intros Hok.
  destruct (program_host_cases topo net a w)
    as [[_ [e He]]|(h & p & i & rest & link & n & Hh & Hi & Hl & Hn)]; [congruence|].
  destruct (program_host_gateway topo net a w h p i rest link n Hh Hi Hl Hn)
    as (d & _ & Hr & Ht).
  cbv zeta in Hr, Ht. rewrite Hok in Hr.
  pose proof (seeding_spec topo h a i (renamed w d (a +:+ "-eth0"))) as Hs.
  cbv zeta in Hs.
  destruct (hosts_info topo !! a) as [ia|] eqn:Hia; [|destruct Hs; congruence].
  destruct (network_compressed (cidr_text (IP h) (mask ia))) as [N|] eqn:HN;
    [|destruct Hs; congruence].
  destruct Hs as [Hr' Ht'].
  exists h, ia, N, n, d, (intf_name (w_intfs (renamed w d (a +:+ "-eth0")) i)).
  eexists. split; [done|]. split; [done|]. split; [done|]. split; [done|].
  rewrite Ht. f_equal.
  rewrite Ht'. apply inner_loop_trace. unfold set_arp_rules in Hr'. congruence.
Qed.

End EntriesInOrder.

(** ** All switches *)

Section AllSwitches.

Context `{!Python, !IpAddress, !Backend}.

(** X12.  [program_switches] reads [switch_cli] before it looks at any
    switch: without the key it raises [KeyError] with nothing done, also
    when there is no switch to program.  With the key, switches that
    declare no command file are passed over: nothing is done, and none of
    them is looked up in the network. *)
Theorem program_switches_without_files (self : AppRunner) (net : Net) (w : World) :
  (dict_lookup "switch_cli" (conf_items (conf self)) = None ->
   program_switches self net w = Outcome (inl (KeyError "switch_cli")) w [])
  /\ (forall cli,
        dict_lookup "switch_cli" (conf_items (conf self)) = Some cli ->
        Forall (fun item => dict_lookup "cli_input" (snd item) = None) (switches self) ->
        program_switches self net w = Outcome (inr tt) w []).
Proof.
  unfold program_switches. split.
  - intros Hcli. rewrite Hcli. reflexivity.
  - intros cli Hcli Hall. rewrite Hcli.
    rewrite (bind_run _ _ w w cli []) by done.
    assert (Hloop : for_each (switches self) (program_switch self net cli) w
                    = Outcome (inr tt) w []).
    { induction Hall as [|[n d] l Hx _ IH]; [done|].
      cbn [for_each]. rewrite (bind_run _ _ w w tt []).
      - by rewrite IH.
      - unfold program_switch. simpl in Hx. by rewrite Hx. }
    by rewrite Hloop.
Qed.

(** X13.  A switch that declares a command file is looked up before the
    file is read: when the network has no node of its name the iteration
    raises [KeyError], when the node has no control-plane port it raises
    [AttributeError], and in both cases nothing has been done. *)
Theorem program_switch_checks_first (self : AppRunner) (net : Net) (cli : value)
    (n : string) (d : list (string * value)) (v : value) (w : World) :
  dict_lookup "cli_input" d = Some v ->
  (nodes net !! n = None ->
   program_switch self net cli (n, d) w = Outcome (inl (KeyError n)) w [])
  /\ (forall node, nodes net !! n = Some node -> thrift_port node = None ->
                   program_switch self net cli (n, d) w
                   = Outcome (inl AttributeError) w []).
Proof.
  intros Hd. unfold program_switch, net_get. rewrite Hd. split.
  - intros Hn. by rewrite Hn.
  - intros node Hn Hp. rewrite Hn.
    rewrite (bind_run _ _ w w node []) by done. cbn [result world trace].
    unfold bind, lift. by rewrite Hp.
Qed.

End AllSwitches.

(** ** The order of a run *)

Lemma bind_trace_tail {A B} (m : M A) (k : A -> M B) (w : World) :
  trace (bind m k w) = trace (m w)
  \/ exists a, result (m w) = inr a
               /\ trace (bind m k w) = (trace (m w) ++ trace (k a (world (m w))))%list.
Proof.
  destruct (result (m w)) as [e|a] eqn:Hm.
  - left. by destruct (bind_raised m k w e Hm).
  - right. exists a. split; [done|]. by destruct (bind_ok m k w a Hm) as (_ & _ & ?).
Qed.

Lemma never_Forall {A} (p : event -> bool) (m : M A) (w : World) :
  never p m -> Forall (fun e => p e = false) (trace (m w)).
Proof. intros Hm. apply Forall_forall. intros e He. by apply (Hm w). Qed.

Lemma splits_first {A B} (p q : event -> bool) (m : M A) (k : A -> M B) (w : World) :
  never p m -> (forall a w', splits p q (trace (k a w'))) ->
  splits p q (trace (bind m k w)).
Proof.
  intros Hm Hk. pose proof (never_Forall p m w Hm) as Hf.
  destruct (bind_trace_tail m k w) as [->|(a & _ & ->)].
  - exists (trace (m w)), []. by rewrite app_nil_r.
  - destruct (Hk a (world (m w))) as (X & Y & -> & HX & HY).
    exists (trace (m w) ++ X)%list, Y. rewrite app_assoc.
    split; [done|]. split; [by apply Forall_app|done].
Qed.

Lemma splits_second {A} (p q : event -> bool) (m : M A) (w : World) :
  never q m -> splits p q (trace (m w)).
Proof.
  intros Hm. exists [], (trace (m w)). split; [done|].
  split; [constructor|by apply never_Forall].
Qed.

Section RunOrder.

Context `{!Python, !IpAddress, !Backend}.

Lemma create_network_silent (self : AppRunner) (w : World) :
  trace (create_network self w) = [].
Proof.
  assert (Hn : never (fun _ => true) (create_network self)).
  { unfold create_network. never_with fail. }
  destruct (trace (create_network self w)) as [|e t] eqn:Ht; [done|].
  assert (e ∈ trace (create_network self w)) as He by (rewrite Ht; left).
  by apply Hn in He.
Qed.

Lemma program_hosts_no_net (topo : Topo) (net : gmap string Node) :
  never is_net_call (program_hosts topo net).
Proof.
  unfold program_hosts. never_with fail.
  all: repeat (progress (unfold program_host, set_arp_rules, seeding, net_get, info_of,
                           ip_network, arp_same_switch, name_of, cmd; never_with fail)).
Qed.

Lemma program_switches_no_net (self : AppRunner) (net : Net) :
  never is_net_call (program_switches self net).
Proof.
  unfold program_switches. never_with fail.
  all: repeat (progress (unfold program_switch, net_get, read_entries, add_entries;
                         never_with fail)).
Qed.

Lemma do_net_cli_no_provisioning (topo : Topo) (net : Net) :
  never is_provisioning (do_net_cli topo net).
Proof. unfold do_net_cli, call_net. never_with fail. Qed.

(** After the network has started: first what makes no call into the
    emulator, then what provisions nothing. *)
Lemma after_start_splits (self : AppRunner) (topo : Topo) (net : Net) (w : World) :
  splits is_net_call is_provisioning
    (trace ((sleep 1 ;;; program_hosts topo (nodes net) ;;;
             program_switches self net ;;; save_topology ;;; sleep 1 ;;;
             when (cli_enabled self
                   || truthy (dict_get (conf_items (conf self)) "cli" (VBool false)))
                  (do_net_cli topo net)) w)).
Proof.
  apply splits_first; [unfold sleep; never_with fail|]. intros _ w0.
  apply splits_first; [apply program_hosts_no_net|]. intros _ w1.
  apply splits_first; [apply program_switches_no_net|]. intros _ w2.
  apply splits_second.
  unfold save_topology, call_net, sleep.
  never_with ltac:(apply do_net_cli_no_provisioning).
Qed.

Lemma run_app_steps_shape (self : AppRunner) (w : World) :
  trace (run_app_steps self w) = []
  \/ exists t, trace (run_app_steps self w) = EvNet NetStart :: t
               /\ splits is_net_call is_provisioning t.
Proof.
  unfold run_app_steps.
  match goal with |- context [bind ?m ?k w] =>
    destruct (bind_trace_tail m k w) as [Hc|([topo net] & _ & Hc)] end;
    rewrite Hc, create_network_silent; [by left|]. clear Hc.
  right. cbn [app]. set (w0 := world (create_network self w)).
  match goal with |- context [bind ?m ?k w0] =>
    destruct (bind_trace_tail m k w0) as [Hs|([] & _ & Hs)] end;
    rewrite Hs, (proj1 (call_net_trace NetStart w0)).
  - exists []. split; [done|]. exists [], []. by repeat split.
  - rewrite (proj2 (call_net_trace NetStart w0)). eexists. split; [reflexivity|].
    apply after_start_splits.
Qed.

(** X14.  In a run, whatever provisions a host or a switch comes after the
    start of the network, which is the first event, and no other call into
    the emulator (saving the topology, the session, the stop) comes before
    it. *)
Theorem run_app_provisions_started_network
    (self : AppRunner) (w : World) (pre post : list event) (e : event) :
  trace (run_app self w) = (pre ++ e :: post)%list ->
  is_provisioning e = true ->
  exists pre', pre = EvNet NetStart :: pre'
               /\ Forall (fun ev => is_net_call ev = false) pre'.
Proof.
  intros Ht He.
  assert (Hshape : Forall (fun ev => is_provisioning ev = false) (trace (run_app self w))
            \/ exists t, trace (run_app self w) = EvNet NetStart :: t
                         /\ splits is_net_call is_provisioning t).
  { unfold run_app.
    destruct (bind_trace_tail (run_app_steps self) (fun _ => call_net NetStop) w)
      as [->|([] & _ & ->)].
    { destruct (run_app_steps_shape self w) as [->|?]; [left; constructor|by right]. }
    rewrite (proj1 (call_net_trace NetStop _)).
    destruct (run_app_steps_shape self w) as [->|(t & -> & X & Y & -> & HX & HY)].
    - left. by repeat constructor.
    - right. eexists. split; [reflexivity|]. exists X, (Y ++ [EvNet NetStop])%list.
      rewrite app_assoc. split; [done|]. split; [done|].
      apply Forall_app. split; [done|]. by repeat constructor. }
  rewrite Ht in Hshape. destruct Hshape as [Hnil|(t & Heq & X & Y & -> & HX & HY)].
  { apply Forall_app in Hnil as [_ Hnil]. inversion Hnil; congruence. }
  destruct pre as [|x pre]; simpl in Heq.
  { injection Heq as -> _. done. }
  injection Heq as -> Heq. exists pre. split; [done|].
  apply app_eq_app in Heq. destruct Heq as (l & [[-> HY']|[-> Hl]]).
  - subst Y. apply Forall_app in HY as [_ HY]. inversion HY; congruence.
  - apply Forall_app in HX as [HX _]. done.
Qed.

End RunOrder.

(** ** The run around the provisioning *)

Lemma bind_inr_inv {A B} (m : M A) (k : A -> M B) (w : World) (b : B) :
  result (bind m k w) = inr b ->
  exists a, result (m w) = inr a
            /\ result (k a (world (m w))) = inr b
            /\ world (bind m k w) = world (k a (world (m w)))
            /\ trace (bind m k w) = (trace (m w) ++ trace (k a (world (m w))))%list.
Proof.
  intros Hok. destruct (bind_result_inr m k w b Hok) as (a & Hm & Hk).
  exists a. destruct (bind_ok m k w a Hm) as (_ & Hw & Ht). done.
Qed.

Lemma never_when_off {p : event -> bool} (b : bool) (m : M unit) :
  b = false -> never p (when b m).
Proof. intros ->. apply never_ret. Qed.

Section RunAround.

Context `{!Python, !IpAddress, !Backend}.

(** X15.  When the network cannot be built the run ends there, with
    nothing done and the emulator never called: a compilation error
    becomes exit status 0, any other error of the compiler, of the
    topology builder or of the network builder is raised as it is. *)
Theorem run_app_build_failure (self : AppRunner) (w : World) :
  (compile_all_p4 (conf self) = inl CompilationError ->
   run_app self w = Outcome (inl (SystemExit 0)) w [])
  /\ (forall e, e <> CompilationError -> compile_all_p4 (conf self) = inl e ->
                run_app self w = Outcome (inl e) w [])
  /\ (forall j e, compile_all_p4 (conf self) = inr j ->
                  make_topo (app_topo self) (hosts self) j (links self)
                            (log_dir self) (conf self) = inl e ->
                  run_app self w = Outcome (inl e) w [])
  /\ (forall j topo e, compile_all_p4 (conf self) = inr j ->
                       make_topo (app_topo self) (hosts self) j (links self)
                                 (log_dir self) (conf self) = inr topo ->
                       make_net (app_mininet self) topo = inl e ->
                       run_app self w = Outcome (inl e) w []).
Proof.
  unfold run_app, run_app_steps, create_network.
  split; [|split; [|split]].
  - intros Hc. unfold bind. by rewrite Hc.
  - intros e Hne Hc. unfold bind. rewrite Hc. by destruct e.
  - intros j e Hc Ht. unfold bind. rewrite Hc. simpl. by rewrite Ht.
  - intros j topo e Hc Ht Hn. unfold bind. rewrite Hc. simpl. rewrite Ht. simpl.
    by rewrite Hn.
Qed.

Lemma do_net_cli_ends_in_session (topo : Topo) (net : Net) (w : World) :
  result (do_net_cli topo net w) = inr tt ->
  exists t, trace (do_net_cli topo net w) = (t ++ [EvNet NetCLI])%list.
Proof.
  unfold do_net_cli. intros Hok.
  apply bind_inr_inv in Hok as ([] & _ & Hok & _ & ->).
  apply bind_inr_inv in Hok as ([] & _ & Hok & _ & ->).
  rewrite (proj1 (call_net_trace NetCLI _)), app_assoc. eauto.
Qed.

(** X16.  The session depends on the flag of the command line or the [cli]
    option of the configuration.  With neither, a run describes no node
    and opens no session; with one of them, a run that returns has opened
    the session last, right before it stopped the network. *)
Theorem run_app_session_last (self : AppRunner) (w : World) :
  (cli_enabled self || truthy (dict_get (conf_items (conf self)) "cli" (VBool false))
   = false ->
   forall e, e ∈ trace (run_app self w) -> is_session e = false)
  /\ (cli_enabled self || truthy (dict_get (conf_items (conf self)) "cli" (VBool false))
      = true ->
      result (run_app self w) = inr tt ->
      exists t, trace (run_app self w) = (t ++ [EvNet NetCLI; EvNet NetStop])%list).
Proof.
  split.
  - intros Hoff. revert w.
    change (never is_session (run_app self)).
    unfold run_app, run_app_steps, create_network, program_hosts, program_switches,
      save_topology, call_net, sleep.
    never_with ltac:(apply never_when_off; exact Hoff).
    all: repeat (progress (unfold program_host, set_arp_rules, seeding, net_get, info_of,
                             ip_network, arp_same_switch, program_switch, read_entries,
                             add_entries, name_of, cmd; never_with fail)).
  - intros Hon Hok. unfold run_app in *.
    apply bind_inr_inv in Hok as ([] & Hsteps & _ & _ & ->).
    rewrite (proj1 (call_net_trace NetStop _)).
    unfold run_app_steps in Hsteps |- *.
    apply bind_inr_inv in Hsteps as ([topo net] & _ & Hsteps & _ & ->).
    apply bind_inr_inv in Hsteps as ([] & _ & Hsteps & _ & ->).
    apply bind_inr_inv in Hsteps as ([] & _ & Hsteps & _ & ->).
    apply bind_inr_inv in Hsteps as ([] & _ & Hsteps & _ & ->).
    apply bind_inr_inv in Hsteps as ([] & _ & Hsteps & _ & ->).
    apply bind_inr_inv in Hsteps as ([] & _ & Hsteps & _ & ->).
    apply bind_inr_inv in Hsteps as ([] & _ & Hsteps & _ & ->).
    rewrite Hon in Hsteps |- *. cbn [when] in Hsteps |- *.
    destruct (do_net_cli_ends_in_session _ _ _ Hsteps) as (t & ->).
    rewrite !app_assoc. rewrite <- (app_assoc _ [EvNet NetCLI] [EvNet NetStop]).
    eexists. reflexivity.
Qed.

End RunAround.

(** ** The construction of the runner *)

Section Construction.

Context `{!Python, !Backend}.

(** X17.  [__init__] kills the switch processes before anything else it
    does: with the configuration file missing, or not loading, it raises
    with nothing done; once the file is loaded, the first thing done is
    the [killall] of the configured switch, whatever happens next. *)
Theorem init_kills_switches_first
    (conf_file log_dir pcap_dir : string) (cli_enabled quiet : bool) (w : World) :
  (isfile w conf_file = false ->
   __init__ conf_file log_dir pcap_dir cli_enabled quiet w
   = Outcome (inl (Exception
                     ("Configuration " +:+ conf_file +:+ " is not in the directory!")))
             w [])
  /\ (forall e, isfile w conf_file = true -> load_conf conf_file = inl e ->
                __init__ conf_file log_dir pcap_dir cli_enabled quiet w
                = Outcome (inl e) w [])
  /\ (forall c, isfile w conf_file = true -> load_conf conf_file = inr c ->
                exists t,
                  trace (__init__ conf_file log_dir pcap_dir cli_enabled quiet w)
                  = EvSh ("killall "
                          +:+ str (dict_get (conf_items c) "switch" (VStr DEFAULT_SWITCH)))
                    :: t).
Proof.
  split; [|split].
  - intros Hfile. unfold __init__, init_configuration, bind, ask. by rewrite Hfile.
  - intros e Hfile Hload. unfold __init__, init_configuration, bind, ask, lift.
    rewrite Hfile. simpl. by rewrite Hload.
  - intros c Hfile Hload.
    assert (exists t, trace (init_configuration conf_file log_dir pcap_dir w)
                      = EvSh ("killall "
                              +:+ str (dict_get (conf_items c) "switch"
                                                (VStr DEFAULT_SWITCH))) :: t)
      as (t & Ht).
    { unfold init_configuration.
      run_to w w (@nil event) ltac:(reflexivity). rewrite Hfile. cbn [negb].
      run_to w c (@nil event) ltac:(unfold lift; by rewrite Hload).
      match goal with |- context [bind (emit ?ev) ?k w] =>
        rewrite (bind_run (emit ev) k w w tt [ev] eq_refl) end.
      cbn [trace app]. eauto. }
    unfold __init__.
    match goal with |- context [bind ?m ?k w] =>
      destruct (bind_trace_tail m k w) as [->|(a & _ & ->)] end;
      rewrite Ht; cbn [app]; eauto.
Qed.

(** X18.  Seeing to a directory.  When it returns, the path is a
    directory and every other path is as it was; when it raises, nothing
    has changed; and a directory is only made where there was nothing. *)
Theorem ensure_dir_postcondition (path : string) (w : World) :
  (result (ensure_dir path w) = inr tt ->
   isdir (world (ensure_dir path w)) path = true
   /\ forall p, p <> path ->
                w_paths (world (ensure_dir path w)) !! p = w_paths w !! p)
  /\ (forall e, result (ensure_dir path w) = inl e ->
                world (ensure_dir path w) = w /\ trace (ensure_dir path w) = [])
  /\ (forall ev, ev ∈ trace (ensure_dir path w) ->
                 ev = EvMkdir path /\ w_paths w !! path = None).
Proof.
  unfold ensure_dir, mkdir, isdir, exists_path, bind, ask, put, emit, ret, raise.
  simpl.
  destruct (w_paths w !! path) as [[]|] eqn:Hlook; simpl.
  - rewrite Hlook. split; [done|]. split; [done|]. by intros ev ?%elem_of_nil.
  - split; [done|]. split; [done|]. by intros ev ?%elem_of_nil.
  - destruct (mkdir_raises path) as [x|]; simpl.
    + split; [done|]. split; [done|]. by intros ev ?%elem_of_nil.
    + rewrite lookup_insert_eq. split.
      { intros _. split; [done|]. intros p Hp. by rewrite lookup_insert_ne. }
      split; [done|]. intros ev Hev. apply list_elem_of_singleton in Hev. done.
Qed.



Lemma custom_or_default_builder (c : Conf) (key : string) (default : builder)
    (w : World) (b : builder) :
  result (custom_or_default c key default w) = inr b ->
  builder_for c key default b.
Proof.
  unfold custom_or_default, load_custom_object, builder_for.
  destruct (truthy _); [|simpl; by intros [= <-]].
  destruct (dict_lookup key (conf_items c)) as [[| | | | |d]|]; try done.
  unfold bind, emit, lift, ret, raise. simpl.
  destruct (dict_lookup "module_name" d) as [m|] eqn:Hm; [|done]. simpl.
  destruct (dict_lookup "object_name" d) as [o|] eqn:Ho; [|done]. simpl.
  intros Hb. exists d, m, o. split; [done|]. split; [done|]. split; [done|].
  destruct (import_object m o); simpl in Hb; congruence.
Qed.

(** X19.  The builders of the runner.  When [__init__] returns, each of
    the four builders is the default class of its kind when its option of
    the configuration is absent or falsy, and otherwise the object the
    import finds under the [module_name] and [object_name] of the option,
    which may be a default class again. *)
Theorem init_default_builders
    (conf_file log_dir pcap_dir : string) (cli_enabled quiet : bool) (w : World)
    (app : AppRunner) :
  result (__init__ conf_file log_dir pcap_dir cli_enabled quiet w) = inr app ->
  builder_for (conf app) "topo_module" DefaultTopo (app_topo app)
  /\ builder_for (conf app) "controller_module" DefaultController (app_controller app)
  /\ builder_for (conf app) "topodb_module" DefaultTopoDB (app_topodb app)
  /\ builder_for (conf app) "mininet_module" P4Mininet (app_mininet app).
Proof.
  intros Hok. unfold __init__ in Hok.
  apply bind_result_inr in Hok as ([[[c exe] le] pd] & _ & Hok).
  destruct (conf_topology c) as [t|]; [|discriminate].
  apply bind_result_inr in Hok as (ls & _ & Hok).
  apply bind_result_inr in Hok as ([] & _ & Hok).
  apply bind_result_inr in Hok as (b1 & H1 & Hok).
  apply bind_result_inr in Hok as (b2 & H2 & Hok).
  apply bind_result_inr in Hok as (b3 & H3 & Hok).
  apply bind_result_inr in Hok as (b4 & H4 & Hok).
  simpl in Hok. injection Hok as <-. simpl.
  apply custom_or_default_builder in H1, H2, H3, H4. done.
Qed.


End Construction.

Section Cleaning.

Context `{!Python, !IpAddress, !Backend}.

(** X21.  A run that only cleans.  It removes the capture directory, the
    log directory and the topology database, in that order, and returns
    on what the removals leave of the file system: the configuration is
    not read, so it does so even without one or with one that is
    wrong. *)
Theorem main_only_clean_run (args : Args) (w : World) :
  arg_only_clean args = true ->
  main args w
  = Outcome (inr tt)
      (MkWorld (w_intfs w)
         (rm_paths "rm -f topology.db"
            (rm_paths ("rm -rf " +:+ arg_log_dir args)
               (rm_paths ("rm -rf " +:+ arg_pcap_dir args) (w_paths w)))))
      [EvCleanup;
       EvSh ("rm -rf " +:+ arg_pcap_dir args);
       EvSh ("rm -rf " +:+ arg_log_dir args);
       EvSh "rm -f topology.db"].
Proof.
  intros Honly. unfold main. rewrite Honly, orb_true_r. reflexivity.
Qed.

End Cleaning.

(** ** The further properties on the lab network *)

Lemma parse_links_elementwise_witness :
  @parse_links scalar_python [LinkDesc "s2" "h1" [VInt 5]; LinkDesc "s1" "s2" []]
  = inr [LinkDict "h1" "s2" "5ms" VNone (VInt 1); LinkDict "s1" "s2" "0ms" VNone (VInt 1)]
  /\ Forall2 (fun l d => @parse_link scalar_python l = inr d)
       [LinkDesc "s2" "h1" [VInt 5]; LinkDesc "s1" "s2" []]
       [LinkDict "h1" "s2" "5ms" VNone (VInt 1); LinkDict "s1" "s2" "0ms" VNone (VInt 1)].
Proof.
  split; [vm_compute; reflexivity|].
  apply (proj1 (@parse_links_elementwise scalar_python _ _)).
  vm_compute. reflexivity.
Defined.

Lemma parse_links_first_error_witness :
  @parse_links scalar_python
    [LinkDesc "h1" "s1" []; LinkDesc "h2" "h1" []; LinkDesc "h3" "h4" []]
  = inl (AssertionError "Hosts should be connected to switches, not h2").
Proof.
  apply (proj2 (@parse_links_first_error scalar_python _ _)).
  exists [LinkDesc "h1" "s1" []], (LinkDesc "h2" "h1" []), [LinkDesc "h3" "h4" []].
  split; [reflexivity|]. split; [|vm_compute; reflexivity].
  constructor; [|constructor]. eexists. vm_compute. reflexivity.
Defined.

Lemma parsed_links_invariant_witness :
  Forall (fun d => (node1 d <=? node2 d)%string = true
                   /\ ~ (String.get 0 (node1 d) = Some "h"%char
                         /\ String.get 0 (node2 d) = Some "h"%char))
         [LinkDict "h1" "s2" "5ms" VNone (VInt 1); LinkDict "s1" "s2" "0ms" VNone (VInt 1)].
Proof.
  eapply Forall_impl.
  - apply (@parsed_links_invariant scalar_python
             [LinkDesc "s2" "h1" [VInt 5]; LinkDesc "s1" "s2" []]).
    vm_compute. reflexivity.
  - intros d (Hord & _ & _ & Hhosts). split; [exact Hord|exact Hhosts].
Defined.

Lemma parse_link_of_record_witness :
  @parse_link scalar_python (LinkDesc "s2" "h1" [VInt 5])
  = inr (LinkDict "h1" "s2" "5ms" VNone (VInt 1))
  /\ @parse_link scalar_python (LinkDesc "h1" "s2" [VStr "5ms"; VNone; VInt 1])
     = inr (LinkDict "h1" "s2" "5ms" VNone (VInt 1)).
Proof.
  split; [vm_compute; reflexivity|].
  apply (@parse_link_of_record scalar_python (LinkDesc "s2" "h1" [VInt 5])
           (LinkDict "h1" "s2" "5ms" VNone (VInt 1))).
  vm_compute. reflexivity.
Defined.

Lemma program_host_checks_first_witness :
  @program_host ipv4 lab_topo (delete "h2" lab_nodes) "h2" lab_world
  = Outcome (inl (KeyError "h2")) lab_world [].
Proof.
  apply (proj1 (@program_host_checks_first ipv4 lab_topo (delete "h2" lab_nodes)
                  "h2" lab_world)).
  vm_compute. reflexivity.
Defined.

Lemma program_host_stops_after_gateway_witness :
  let run := @program_host ipv4 lab_topo
               (<["h7" := MkNode [(0, 1%nat)] "192.168.5.9" None]> ∅) "h7" lab_world in
  hosts_info lab_topo !! "h7" = None
  /\ result run = inl (KeyError "h7")
  /\ trace run
     = [ EvRename "h7" 1 "h7-eth0";
         EvCmd "h7" (Arp "h7-eth0" "10.0.7.254" "00:01:0a:00:01:01");
         EvCmd "h7" (EthtoolOffload "h7-eth0");
         EvCmd "h7" (IpRouteAdd "10.0.7.254" "h7-eth0");
         EvSetDefaultRoute "h7" "via 10.0.7.254" ].
Proof.
  cbv zeta. split; [vm_compute; reflexivity|].
  pose proof (@program_host_stops_after_gateway ipv4 lab_topo
                (<["h7" := MkNode [(0, 1%nat)] "192.168.5.9" None]> ∅) "h7" lab_world
                (MkNode [(0, 1%nat)] "192.168.5.9" None) 0 1%nat [] (1, 11)%nat 7 1%nat)
    as Hstop.
  cbv zeta in Hstop.
  destruct Hstop as [Hkey _]; try (vm_compute; reflexivity).
  rewrite Hkey by (vm_compute; reflexivity).
  split; vm_compute; reflexivity.
Defined.

Lemma program_hosts_keeps_wiring_witness :
  intf_name (w_intfs (world (@program_hosts ipv4 lab_topo lab_nodes lab_world)) 12)
  = "s1-eth2".
Proof.
  rewrite (proj2 (proj2 (@program_hosts_keeps_wiring ipv4 lab_topo lab_nodes lab_world))
             12%nat); [reflexivity|].
  intros a h Ha. unfold lab_nodes in Ha.
  repeat (apply lookup_insert_Some in Ha as [[<- <-]|[_ Ha]];
          [vm_compute; discriminate|]).
  by rewrite lookup_empty in Ha.
Defined.

Lemma program_hosts_stops_at_first_failure_witness :
  let net := delete "h2" lab_nodes in
  result (@program_hosts ipv4 lab_topo net lab_world) = inl (KeyError "h2")
  /\ exists pre a post w1,
      topo_hosts lab_topo = (pre ++ a :: post)%list
      /\ result (for_each pre (@program_host ipv4 lab_topo net) lab_world) = inr tt
      /\ w1 = world (for_each pre (@program_host ipv4 lab_topo net) lab_world)
      /\ result (@program_host ipv4 lab_topo net a w1) = inl (KeyError "h2")
      /\ trace (@program_hosts ipv4 lab_topo net lab_world)
         = (trace (for_each pre (@program_host ipv4 lab_topo net) lab_world)
            ++ trace (@program_host ipv4 lab_topo net a w1))%list
      /\ forall ev b, ev ∈ trace (@program_hosts ipv4 lab_topo net lab_world) ->
                      event_host ev = Some b -> b ∈ pre \/ b = a.
Proof.
  cbv zeta. split; [vm_compute; reflexivity|].
  apply (@program_hosts_stops_at_first_failure ipv4 lab_topo (delete "h2" lab_nodes)
           lab_world (KeyError "h2")).
  vm_compute. reflexivity.
Defined.

Lemma provisioned_interface_names_witness :
  let w := MkWorld (fun i => MkIntf "eth0" (intf_mac (lab_intfs i))
                                    (intf_link (lab_intfs i))) ∅ in
  let w' := world (@program_hosts ipv4 lab_topo lab_nodes w) in
  intf_name (w_intfs w' 1) = "h1-eth0"
  /\ intf_name (w_intfs w' 2) = "h2-eth0"
  /\ intf_name (w_intfs w' 1) <> intf_name (w_intfs w' 2).
Proof.
  cbv zeta.
  apply (@provisioned_interface_names ipv4 lab_topo lab_nodes _ "h1" "h2"
           (MkNode [(0, 1%nat)] "10.0.1.1" None) (MkNode [(0, 2%nat)] "10.0.1.2" None)
           1%nat 2%nat).
  - vm_compute. reflexivity.
  - apply list_elem_of_here.
  - apply list_elem_of_further, list_elem_of_here.
  - discriminate.
  - vm_compute. reflexivity.
  - reflexivity.
  - vm_compute. reflexivity.
  - reflexivity.
  - intros c hc Hc Hn. simpl in Hc. each_member Hc.
    + vm_compute in Hn. injection Hn as <-. split; [done|]. intros Hd.
      vm_compute in Hd. discriminate.
    + vm_compute in Hn. injection Hn as <-. split; [|done]. intros Hd.
      vm_compute in Hd. discriminate.
    + vm_compute in Hn. injection Hn as <-. split; intros Hd; vm_compute in Hd;
        discriminate.
Defined.

Lemma program_hosts_again_witness :
  let first := @program_hosts ipv4 lab_topo lab_nodes lab_world in
  let second := @program_hosts ipv4 lab_topo lab_nodes (world first) in
  result second = result first /\ trace second = trace first.
Proof.
  apply (@program_hosts_again ipv4 lab_topo lab_nodes lab_world).
  intros a h p i rest Ha Hn Hi. simpl in Ha. each_member Ha.
  all: vm_compute in Hn; injection Hn as <-; simpl in Hi; injection Hi as _ <- _.
  all: reflexivity.
Defined.

Lemma program_host_entries_in_order_witness :
  exists h ia N n d iface sw_mac,
    lab_nodes !! "h1" = Some h /\ hosts_info lab_topo !! "h1" = Some ia
    /\ ipv4_network_compressed (cidr_text (IP h) (mask ia)) = Some N
    /\ py_int (slice_from_1 "h1") = Some n
    /\ trace (@program_host ipv4 lab_topo lab_nodes "h1" lab_world)
       = ([ EvRename "h1" d "h1-eth0";
            EvCmd "h1" (Arp iface (sw_ip_of n) sw_mac);
            EvCmd "h1" (EthtoolOffload iface);
            EvCmd "h1" (IpRouteAdd (sw_ip_of n) iface);
            EvSetDefaultRoute "h1" ("via " +:+ sw_ip_of n) ]
          ++ omap (fun c =>
                     ic ← hosts_info lab_topo !! c;
                     if decide (c <> "h1" /\ sw ic = sw ia
                                /\ ipv4_network_compressed (cidr_text (ip ic) (mask ic))
                                   = Some N)
                     then Some (EvCmd "h1" (Arp iface (ip ic) (mac ic)))
                     else None) (topo_hosts lab_topo))%list.
Proof.
  apply (@program_host_entries_in_order ipv4 lab_topo lab_nodes "h1" lab_world).
  vm_compute. reflexivity.
Defined.

Lemma program_switches_without_files_witness :
  let no_cli := MkConf (conf_topology lab_conf) [] in
  @program_switches (lab_backend no_cli lab_topo) (lab_app no_cli) lab_net lab_world
  = Outcome (inl (KeyError "switch_cli")) lab_world [].
Proof.
  cbv zeta.
  apply (proj1 (@program_switches_without_files
                  (lab_backend (MkConf (conf_topology lab_conf) []) lab_topo)
                  (lab_app (MkConf (conf_topology lab_conf) [])) lab_net lab_world)).
  reflexivity.
Defined.

Lemma program_switch_checks_first_witness :
  @program_switch (lab_backend lab_conf lab_topo) (lab_app lab_conf) lab_net
    (VStr "simple_switch_CLI") ("s9", [("cli_input", VStr "s9-commands.txt")]) lab_world
  = Outcome (inl (KeyError "s9")) lab_world [].
Proof.
  apply (proj1 (@program_switch_checks_first (lab_backend lab_conf lab_topo)
                  (lab_app lab_conf) lab_net (VStr "simple_switch_CLI") "s9"
                  [("cli_input", VStr "s9-commands.txt")] (VStr "s9-commands.txt")
                  lab_world eq_refl)).
  vm_compute. reflexivity.
Defined.

Lemma run_app_provisions_started_network_witness :
  let run := @run_app ipv4 (lab_backend lab_conf lab_topo) (lab_app lab_conf) lab_world in
  nth_error (trace run) 21 = Some (EvEntry 9090 "C")
  /\ exists pre', take 21 (trace run) = EvNet NetStart :: pre'
                  /\ Forall (fun ev => is_net_call ev = false) pre'.
Proof.
  cbv zeta. split; [vm_compute; reflexivity|].
  apply (@run_app_provisions_started_network ipv4 (lab_backend lab_conf lab_topo)
           (lab_app lab_conf) lab_world
           (take 21 (trace (@run_app ipv4 (lab_backend lab_conf lab_topo)
                              (lab_app lab_conf) lab_world)))
           (drop 22 (trace (@run_app ipv4 (lab_backend lab_conf lab_topo)
                              (lab_app lab_conf) lab_world)))
           (EvEntry 9090 "C")).
  - vm_compute. reflexivity.
  - reflexivity.
Defined.

Lemma run_app_build_failure_witness :
  @run_app ipv4 lab_failing_compiler (lab_app lab_conf) lab_world
  = Outcome (inl (SystemExit 0)) lab_world [].
Proof.
  apply (proj1 (@run_app_build_failure ipv4 lab_failing_compiler (lab_app lab_conf)
                  lab_world)).
  reflexivity.
Defined.

Lemma run_app_session_last_witness :
  let run := @run_app ipv4 (lab_backend lab_conf lab_topo) (lab_app lab_conf) lab_world in
  result run = inr tt
  /\ exists t, trace run = (t ++ [EvNet NetCLI; EvNet NetStop])%list.
Proof.
  cbv zeta. split; [vm_compute; reflexivity|].
  apply (proj2 (@run_app_session_last ipv4 (lab_backend lab_conf lab_topo)
                  (lab_app lab_conf) lab_world)).
  - reflexivity.
  - vm_compute. reflexivity.
Defined.

Lemma init_kills_switches_first_witness :
  exists t,
    trace (@__init__ scalar_python (lab_backend lab_conf lab_topo)
             "p4app.json" "log" "pcap" true false lab_world)
    = EvSh "killall simple_switch" :: t.
Proof.
  destruct (proj2 (proj2 (@init_kills_switches_first scalar_python
                            (lab_backend lab_conf lab_topo)
                            "p4app.json" "log" "pcap" true false lab_world))
              lab_conf) as (t & Ht).
  - vm_compute. reflexivity.
  - reflexivity.
  - exists t. rewrite Ht. reflexivity.
Defined.

Lemma ensure_dir_postcondition_witness :
  let w' := world (@ensure_dir (lab_backend lab_conf lab_topo) "log" lab_world) in
  isdir lab_world "log" = false
  /\ isdir w' "log" = true
  /\ w_paths w' !! "p4app.json" = Some false.
Proof.
  cbv zeta. split; [vm_compute; reflexivity|].
  destruct (proj1 (@ensure_dir_postcondition (lab_backend lab_conf lab_topo)
                     "log" lab_world)) as [Hdir Hrest].
  - vm_compute. reflexivity.
  - split; [exact Hdir|]. rewrite Hrest by discriminate. vm_compute. reflexivity.
Defined.

Lemma init_default_builders_witness :
  let modules :=
    MkConf (conf_topology lab_conf)
           [("topo_module", VDict [("module_name", VStr "p4utils.mininetlib.apptopo");
                                   ("object_name", VStr "AppTopo")]);
            ("mininet_module", VDict [("module_name", VStr "mynet");
                                      ("object_name", VStr "RingNet")])] in
  let app :=
    MkAppRunner "p4app.json" modules true "pcap" "log" "simple_switch"
                (VBool false) (VBool false)
                ["h1"; "h2"; "h3"]
                [("s1", [("cli_input", VStr "s1-commands.txt")])]
                [LinkDict "h1" "s1" "0ms" VNone (VInt 1);
                 LinkDict "h2" "s1" "0ms" VNone (VInt 1);
                 LinkDict "h3" "s1" "5ms" VNone (VInt 1)]
                DefaultTopo DefaultController DefaultTopoDB
                (Custom (VStr "mynet") (VStr "RingNet")) in
  result (@__init__ scalar_python (lab_backend modules lab_topo)
            "p4app.json" "log" "pcap" true false lab_world) = inr app
  /\ @builder_for (lab_backend modules lab_topo) modules "topo_module"
        DefaultTopo DefaultTopo
  /\ @builder_for (lab_backend modules lab_topo) modules "controller_module"
        DefaultController DefaultController
  /\ @builder_for (lab_backend modules lab_topo) modules "mininet_module"
        P4Mininet (Custom (VStr "mynet") (VStr "RingNet")).
Proof.
  cbv zeta. split; [vm_compute; reflexivity|].
  destruct (@init_default_builders scalar_python
              (lab_backend
                 (MkConf (conf_topology lab_conf)
                    [("topo_module",
                      VDict [("module_name", VStr "p4utils.mininetlib.apptopo");
                             ("object_name", VStr "AppTopo")]);
                     ("mininet_module", VDict [("module_name", VStr "mynet");
                                               ("object_name", VStr "RingNet")])])
                 lab_topo)
              "p4app.json" "log" "pcap" true false lab_world _
              ltac:(vm_compute; reflexivity))
    as (Htopo & Hcontroller & _ & Hnet).
  split; [exact Htopo|]. split; [exact Hcontroller|exact Hnet].
Defined.


Lemma main_only_clean_run_witness :
  let w := MkWorld lab_intfs
             (<["pcap" := true]> (<["pcap/s1-eth1_in.pcap" := false]>
              (<["log" := false]> (<["topology.db" := false]>
               (<["p4app.json" := false]> ∅))))) in
  let run := @main scalar_python ipv4 (lab_backend lab_conf lab_topo)
               (MkArgs "missing.json" "log" "pcap" true false false true) w in
  result run = inr tt
  /\ trace run
     = [EvCleanup; EvSh "rm -rf pcap"; EvSh "rm -rf log"; EvSh "rm -f topology.db"]
  /\ w_paths (world run) = <["p4app.json" := false]> ∅.
Proof.
  cbv zeta.
  rewrite (@main_only_clean_run scalar_python ipv4 (lab_backend lab_conf lab_topo)
             (MkArgs "missing.json" "log" "pcap" true false false true) _ eq_refl).
  split; [reflexivity|]. split; [reflexivity|]. vm_compute. reflexivity.
Defined.

(** With [--clean], a file in the place of the log directory is removed
    before the runner is built, which then makes the directory and goes
    on to the end of the run. *)
Example lab_clean_then_run :
  let logged := MkConf (conf_topology lab_conf)
                       [("switch_cli", VStr "simple_switch_CLI");
                        ("enable_log", VBool true)] in
  let w := MkWorld lab_intfs (<["log" := false]> (<["p4app.json" := false]> ∅)) in
  let run := @main scalar_python ipv4 (lab_backend logged lab_topo)
               (MkArgs "p4app.json" "log" "pcap" false false true false) w in
  result (@__init__ scalar_python (lab_backend logged lab_topo)
            "p4app.json" "log" "pcap" false false w)
  = inl (Exception "'log' exists and is not a directory!")
  /\ result run = inr tt
  /\ isdir (world run) "log" = true
  /\ last (trace run) = Some (EvNet NetStop).
Proof. vm_compute. auto. Qed.
